(** * Serial-over-Ethernet: the session engines of server, bridge and client

    A shallow embedding of the receive loops and relay threads of
    [serial_server_0.0.53_LinWin.py], [serial_bridge_0.0.70_LinWin.py] and
    [serial_client_0.0.56_LinWin.py], with the properties of the in-band
    control protocol stated over them.

    Python [bytes] and [str] values are both lists of 8-bit characters: a
    text is the list of its code points, all below 256.  The control
    protocol is ASCII, on which [decode] and [encode] are the identity;
    where received bytes are decoded on their way to the screen, the
    decoding is written out ([Py.utf8_ignore]).  Python integers are
    [Z]. *)

From Stdlib Require Import ZArith Ascii String List Bool Lia DecimalString DecimalZ.
From stdpp Require Import base list.
Import ListNotations.

Local Open Scope Z_scope.
Local Open Scope list_scope.

Abbreviation bytes := (list ascii).

(** A byte-string literal. *)
Definition B (s : string) : bytes := list_ascii_of_string s.

(** ** Python text primitives *)

Module Py.

(** [bytes.__eq__] / [str.__eq__]. *)
Fixpoint eqb (x y : bytes) : bool :=
  match x, y with
  | [], [] => true
  | c :: x', d :: y' => Ascii.eqb c d && eqb x' y'
  | _, _ => false
  end.

(** [s.startswith(p)]. *)
Fixpoint starts_with (p s : bytes) : bool :=
  match p, s with
  | [], _ => true
  | _ :: _, [] => false
  | c :: p', d :: s' => Ascii.eqb c d && starts_with p' s'
  end.

(** [p in s] on byte strings: [p] occurs as a contiguous run of [s]. *)
Fixpoint contains (p s : bytes) : bool :=
  starts_with p s ||
  match s with
  | [] => false
  | _ :: s' => contains p s'
  end.

(** [s.split(sep)] for a non-empty separator: the pieces between the
    non-overlapping occurrences of [sep], found left to right.  [skip]
    counts the characters of a matched separator still to pass over and
    [cur] holds the current piece, reversed. *)
Fixpoint split_go (sep s : bytes) (skip : nat) (cur : bytes) : list bytes :=
  match s with
  | [] => [rev cur]
  | c :: s' =>
      match skip with
      | S k => split_go sep s' k cur
      | O =>
          if starts_with sep s
          then rev cur :: split_go sep s' (Nat.pred (length sep)) []
          else split_go sep s' O (c :: cur)
      end
  end.

Definition split (sep s : bytes) : list bytes := split_go sep s O [].

(** [s.split(sep)[i]]; [None] stands for the [IndexError]. *)
Definition split_nth (sep s : bytes) (i : nat) : option bytes :=
  split sep s !! i.

(** [s.split(sep)[0]]: a split always has a first piece. *)
Definition split_hd (sep s : bytes) : bytes :=
  match split sep s with
  | p :: _ => p
  | [] => []
  end.

(** White space of [str.strip()] among the code points below 256: the
    ASCII white space, the separators 28-31, NEL (133) and the
    no-break space (160). *)
Definition is_space (c : ascii) : bool :=
  let n := nat_of_ascii c in
  ((9 <=? n) && (n <=? 13) || (28 <=? n) && (n <=? 32) || (n =? 133) || (n =? 160))%nat.

Fixpoint lstrip (s : bytes) : bytes :=
  match s with
  | c :: s' => if is_space c then lstrip s' else s
  | [] => []
  end.

(** [s.strip()]. *)
Definition strip (s : bytes) : bytes := rev (lstrip (rev (lstrip s))).

(** [str(n)] for an integer. *)
Definition str (n : Z) : bytes := B (NilZero.string_of_int (Z.to_int n)).

Definition digit_val (c : ascii) : option Z :=
  let n := nat_of_ascii c in
  if ((48 <=? n) && (n <=? 57))%nat then Some (Z.of_nat (n - 48)) else None.

(** The digits of an [int] literal: decimal digits, single underscores
    allowed between two digits. *)
Fixpoint int_digits (s : bytes) (acc : Z) (after_digit : bool) : option Z :=
  match s with
  | [] => if after_digit then Some acc else None
  | c :: s' =>
      match digit_val c with
      | Some d => int_digits s' (10 * acc + d) true
      | None =>
          if Ascii.eqb c "_" && after_digit then int_digits s' acc false
          else None
      end
  end.

(** White space around an [int] literal: that of [str.strip()] without
    the separators 28-31. *)
Definition int_space (c : ascii) : bool :=
  let n := nat_of_ascii c in
  ((9 <=? n) && (n <=? 13) || (n =? 32) || (n =? 133) || (n =? 160))%nat.

Fixpoint int_lstrip (s : bytes) : bytes :=
  match s with
  | c :: s' => if int_space c then int_lstrip s' else s
  | [] => []
  end.

(** The number of decimal digits of a text. *)
Definition count_digits (s : bytes) : nat :=
  length (List.filter (fun c => match digit_val c with Some _ => true | None => false end) s).

(** [sys.get_int_max_str_digits()], as the interpreter starts. *)
Definition int_max_str_digits : nat := 4300.

(** [int(s)] in base ten; [None] stands for the [ValueError], which is
    also raised for a literal of more than 4300 digits. *)
Definition int (s : bytes) : option Z :=
  if (int_max_str_digits <? count_digits s)%nat then None
  else
    match rev (int_lstrip (rev (int_lstrip s))) with
    | c :: s' =>
        if Ascii.eqb c "-" then Z.opp <$> int_digits s' 0 false
        else if Ascii.eqb c "+" then int_digits s' 0 false
        else int_digits (c :: s') 0 false
    | [] => None
    end.

(** [re.sub(pattern, empty, s)] for a pattern that matches no empty text:
    [m s] is the length of the match of the pattern at the start of [s],
    if there is one.  Matches are found left to right and do not overlap;
    [skip] counts the characters of the current match still to drop. *)
Fixpoint sub_go (m : bytes -> option nat) (s : bytes) (skip : nat) : bytes :=
  match s with
  | [] => []
  | c :: s' =>
      match skip with
      | S k => sub_go m s' k
      | O =>
          match m s with
          | Some n => sub_go m s' (Nat.pred n)
          | None => c :: sub_go m s' O
          end
      end
  end.

Definition re_sub (m : bytes -> option nat) (s : bytes) : bytes := sub_go m s O.

(** Length of the match of [[^#]*#__] at the start of [s]: the run of
    characters other than [#] must be followed by [#__] (giving back
    characters of the run cannot help, none of them is a [#]). *)
Fixpoint nohash_end (s : bytes) : option nat :=
  if starts_with (B "#__") s then Some 3%nat
  else
    match s with
    | [] => None
    | c :: s' => if Ascii.eqb c "#" then None else S <$> nohash_end s'
    end.

(** The pattern [__#[^#]*#__] (bytes). *)
Definition frame_nohash (s : bytes) : option nat :=
  if starts_with (B "__#") s then (fun n => 3 + n)%nat <$> nohash_end (drop 3 s)
  else None.

(** Length of the match of [.*?#__] at the start of [s]: the nearest
    [#__], with no newline before it ([.] matches no newline). *)
Fixpoint lazy_end (s : bytes) : option nat :=
  if starts_with (B "#__") s then Some 3%nat
  else
    match s with
    | [] => None
    | c :: s' => if Ascii.eqb c "010" then None else S <$> lazy_end s'
    end.

(** The pattern [__#.*?#__] (text). *)
Definition frame_lazy (s : bytes) : option nat :=
  if starts_with (B "__#") s then (fun n => 3 + n)%nat <$> lazy_end (drop 3 s)
  else None.

(** *** UTF-8

    A decoded text is held as its UTF-8 encoding.  [utf8_head s] looks
    at the sequence at the head of [s]: it is well formed, of [n] bytes,
    or its first [n] bytes are in error.  The end of the data counts as
    a missing continuation byte: the decoder reports the bytes left
    there (unexpected end of data), the very ones the tests would
    report. *)
Definition is_cont (c : ascii) : bool :=
  let n := nat_of_ascii c in ((128 <=? n) && (n <=? 191))%nat.

Definition utf8_head (s : bytes) : bool * nat :=
  match s with
  | [] => (true, 0%nat)
  | c :: s1 =>
      let n := nat_of_ascii c in
      if (n <? 128)%nat then (true, 1%nat)
      else if (n <? 194)%nat then (false, 1%nat)
      else if (n <? 224)%nat then
        match s1 with
        | c2 :: _ => if is_cont c2 then (true, 2%nat) else (false, 1%nat)
        | [] => (false, 1%nat)
        end
      else if (n <? 240)%nat then
        match s1 with
        | c2 :: s2 =>
            if negb (is_cont c2) || (n =? 224)%nat && (nat_of_ascii c2 <? 160)%nat
               || (n =? 237)%nat && (160 <=? nat_of_ascii c2)%nat
            then (false, 1%nat)
            else
              match s2 with
              | c3 :: _ => if is_cont c3 then (true, 3%nat) else (false, 2%nat)
              | [] => (false, 2%nat)
              end
        | [] => (false, 1%nat)
        end
      else if (n <? 245)%nat then
        match s1 with
        | c2 :: s2 =>
            if negb (is_cont c2) || (n =? 240)%nat && (nat_of_ascii c2 <? 144)%nat
               || (n =? 244)%nat && (144 <=? nat_of_ascii c2)%nat
            then (false, 1%nat)
            else
              match s2 with
              | c3 :: s3 =>
                  if negb (is_cont c3) then (false, 2%nat)
                  else
                    match s3 with
                    | c4 :: _ => if is_cont c4 then (true, 4%nat) else (false, 3%nat)
                    | [] => (false, 3%nat)
                    end
              | [] => (false, 2%nat)
              end
        | [] => (false, 1%nat)
        end
      else (false, 1%nat)
  end.

(** [data.decode('utf-8', errors='ignore')]: the bytes in error are left
    out.  [keep] and [skip] count the bytes of the current sequence still
    to copy or to leave out. *)
Fixpoint utf8_ignore_go (s : bytes) (keep skip : nat) : bytes :=
  match s with
  | [] => []
  | c :: s' =>
      match keep, skip with
      | S k, _ => c :: utf8_ignore_go s' k skip
      | O, S k => utf8_ignore_go s' O k
      | O, O =>
          let '(ok, n) := utf8_head s in
          if ok then c :: utf8_ignore_go s' (Nat.pred n) O
          else utf8_ignore_go s' O (Nat.pred n)
      end
  end.

Definition utf8_ignore (s : bytes) : bytes := utf8_ignore_go s O O.

(** The length of the white-space character of [str.strip()] at the head
    of a text in UTF-8: one of U+0009-000D, U+001C-0020, U+0085, U+00A0,
    U+1680, U+2000-200A, U+2028, U+2029, U+202F, U+205F, U+3000. *)
Definition utf8_space (s : bytes) : option nat :=
  match map nat_of_ascii (take 3 s) with
  | 194%nat :: 133%nat :: _ => Some 2%nat
  | 194%nat :: 160%nat :: _ => Some 2%nat
  | [225%nat; 154%nat; 128%nat] => Some 3%nat
  | [226%nat; 128%nat; n] =>
      if ((128 <=? n) && (n <=? 138) || (n =? 168) || (n =? 169) || (n =? 175))%nat
      then Some 3%nat else None
  | [226%nat; 129%nat; 159%nat] => Some 3%nat
  | [227%nat; 128%nat; 128%nat] => Some 3%nat
  | n :: _ => if ((9 <=? n) && (n <=? 13) || (28 <=? n) && (n <=? 32))%nat
              then Some 1%nat else None
  | [] => None
  end.

(** [not s.strip()] for a text in UTF-8: it holds white space only. *)
Fixpoint utf8_blank_go (s : bytes) (skip : nat) : bool :=
  match s with
  | [] => true
  | _ :: s' =>
      match skip with
      | S k => utf8_blank_go s' k
      | O =>
          match utf8_space s with
          | Some n => utf8_blank_go s' (Nat.pred n)
          | None => false
          end
      end
  end.

Definition utf8_blank (s : bytes) : bool := utf8_blank_go s O.

(** Truthiness of an optional text ([None] and the empty text are false). *)
Definition truthy (o : option bytes) : bool :=
  match o with
  | Some (_ :: _) => true
  | _ => false
  end.

(** [s.lower()] on 8-bit characters: the letters [A]-[Z] and the capital
    letters of Latin-1. *)
Definition lower_char (c : ascii) : ascii :=
  let n := nat_of_ascii c in
  if ((65 <=? n) && (n <=? 90) || (192 <=? n) && (n <=? 222) && negb (n =? 215))%nat
  then ascii_of_nat (n + 32) else c.

Definition lower (s : bytes) : bytes := map lower_char s.

(** An index of a slice, brought into the list of length [n]: a negative
    index counts from the end, and the result is clipped to [0..n]. *)
Definition clip (n i : Z) : Z := if i <? 0 then Z.max 0 (i + n) else Z.min i n.

(** [l[start:stop]]. *)
Definition slice {A : Type} (l : list A) (start stop : Z) : list A :=
  let n := Z.of_nat (length l) in
  let lo := clip n start in
  let hi := clip n stop in
  take (Z.to_nat (hi - lo)) (drop (Z.to_nat lo) l).

End Py.

(** ** Wire constants (identical in the three programs) *)

Definition ASK_CMD : bytes := B "__#ASK_COM_PARAMS#__".
Definition DISCONNECT_CMD : bytes := B "__#DISCONNECT#__".
Definition KEEPALIVE_CMD : bytes := B "__#KEEPALIVE#__".
Definition GETVER_CMD : bytes := B "__#GETVER#__".
Definition GET_KA_TIMEOUT_CMD : bytes := B "__#GET_KA_TIMEOUT#__".
Definition MY_KA_TIMEOUT_CMD : bytes := B "__#MY_KA_TIMEOUT_".
Definition BAD_PWD_MSG : bytes := B "__#BADPWD#__".

(** The frame [__#<payload>#__]. *)
Definition frame (payload : bytes) : bytes := B "__#" ++ payload ++ B "#__".

(** The control tokens the receive loops test for. *)
Inductive token :=
  | KEEPALIVE | VERSION | GETVER | GET_KA_TIMEOUT | ASK_COM_PARAMS
  | COM_PARAMS | PWD | DISCONNECT | BADPWD | SRV_VER | MY_KA_TIMEOUT.

(** The event view of the specification's codec. *)
Inductive event :=
  | Payload (data : bytes)
  | Control (t : token).

(** A stream in which frames stand between pieces of payload: [p0], then
    for each [(t, p)] the frame [__#t#__] followed by the payload [p]. *)
Fixpoint wire (p0 : bytes) (fs : list (bytes * bytes)) : bytes :=
  match fs with
  | [] => p0
  | (t, p) :: fs' => p0 ++ frame t ++ wire p fs'
  end.

(** The payload of such a stream. *)
Definition payload_of (p0 : bytes) (fs : list (bytes * bytes)) : bytes :=
  p0 ++ concat (map snd fs).

(** The frames of such a stream are well formed for the byte pattern
    [__#[^#]*#__]: no frame body holds a [#], no payload piece holds the
    opener [__#]. *)
Definition well_framed (p0 : bytes) (fs : list (bytes * bytes)) : Prop :=
  Py.contains (B "__#") p0 = false /\
  Forall (fun f => ~ In "#"%char (fst f) /\ Py.contains (B "__#") (snd f) = false) fs.

(** ** The server: [serial_server_0.0.53_LinWin.py] *)

Module Server.

Definition CODE_VERSION : bytes := B "0.0.53".

(** The fields of [args] the session code reads. *)
Record Args := {
  pwd : option bytes;
  comport : bytes;
  baud : Z;
  line : bytes;
  keepalive : Z
}.

Inductive log :=
  | LogKeepalive                      (* "Status: Received KEEPALIVE" *)
  | LogIdentified (ty ver : bytes)    (* "Status: Client Identified as .." *)
  | LogRemoteParams (p : bytes)       (* "Status: Received Remote Params: .." *)
  | LogPwdOk                          (* "Status: Password Correct. Access Granted." *)
  | LogPwdBad                         (* "Security: Invalid Password attempt .." *)
  | LogRawRejected                    (* "Security: Raw data rejected (Unauthorized) .." *)
  | LogSessionEnded (i o : Z).        (* "Session ended. .. IN: i OUT: o" *)

(** What a step does to the outside.  [Seen t] is a ghost mark: it records
    that the membership test for token [t] succeeded on the received data,
    at the place of that test in the loop body. *)
Inductive effect :=
  | Seen (t : token)
  | LogMsg (m : log)
  | SockSend (d : bytes)      (* conn.sendall(d) in the receive loop *)
  | SockRelay (d : bytes)     (* client_conn.sendall(d) in the relay thread *)
  | SerWrite (d : bytes)      (* ser.write(d) *)
  | Sleep (ms : Z)            (* time.sleep(ms / 1000) *)
  | SockClose.                (* conn.close() *)

(** A relay thread started for a session that has ended since: the value
    of its own [b_state['authorized']] (nothing writes that dict once its
    session is over) and whether the thread is still looping.  Its socket
    is closed. *)
Record thread := {
  t_auth : bool;
  t_alive : bool
}.

(** The global [state] object together with the locals of [main]'s session
    loop.  [authorized] is [b_state['authorized']] of the running session,
    shared with that session's relay thread.  [stale] lists the relay
    threads of the ended sessions, oldest first. *)
Record srv := {
  stats_in : Z;
  stats_out : Z;
  session_in : Z;
  session_out : Z;
  client_type : bytes;
  client_ver : bytes;
  remote_params : bytes;
  client_active : bool;
  authorized : bool;
  packet_buffer : bytes;
  stale : list thread
}.

Definition set_buffer (s : srv) (v : bytes) : srv :=
  {| stats_in := stats_in s; stats_out := stats_out s; session_in := session_in s;
     session_out := session_out s; client_type := client_type s;
     client_ver := client_ver s; remote_params := remote_params s;
     client_active := client_active s; authorized := authorized s;
     packet_buffer := v; stale := stale s |}.

Definition set_authorized (s : srv) (v : bool) : srv :=
  {| stats_in := stats_in s; stats_out := stats_out s; session_in := session_in s;
     session_out := session_out s; client_type := client_type s;
     client_ver := client_ver s; remote_params := remote_params s;
     client_active := client_active s; authorized := v;
     packet_buffer := packet_buffer s; stale := stale s |}.

Definition set_client (s : srv) (ty ver : bytes) : srv :=
  {| stats_in := stats_in s; stats_out := stats_out s; session_in := session_in s;
     session_out := session_out s; client_type := ty;
     client_ver := ver; remote_params := remote_params s;
     client_active := client_active s; authorized := authorized s;
     packet_buffer := packet_buffer s; stale := stale s |}.

Definition set_remote_params (s : srv) (v : bytes) : srv :=
  {| stats_in := stats_in s; stats_out := stats_out s; session_in := session_in s;
     session_out := session_out s; client_type := client_type s;
     client_ver := client_ver s; remote_params := v;
     client_active := client_active s; authorized := authorized s;
     packet_buffer := packet_buffer s; stale := stale s |}.

(** [state.stats["in"] += n; state.session_stats["in"] += n]. *)
Definition count_in (s : srv) (n : Z) : srv :=
  {| stats_in := stats_in s + n; stats_out := stats_out s;
     session_in := session_in s + n;
     session_out := session_out s; client_type := client_type s;
     client_ver := client_ver s; remote_params := remote_params s;
     client_active := client_active s; authorized := authorized s;
     packet_buffer := packet_buffer s; stale := stale s |}.

(** [state.stats["out"] += n; state.session_stats["out"] += n]. *)
Definition count_out (s : srv) (n : Z) : srv :=
  {| stats_in := stats_in s; stats_out := stats_out s + n;
     session_in := session_in s;
     session_out := session_out s + n; client_type := client_type s;
     client_ver := client_ver s; remote_params := remote_params s;
     client_active := client_active s; authorized := authorized s;
     packet_buffer := packet_buffer s; stale := stale s |}.

Definition set_stale (s : srv) (v : list thread) : srv :=
  {| stats_in := stats_in s; stats_out := stats_out s; session_in := session_in s;
     session_out := session_out s; client_type := client_type s;
     client_ver := client_ver s; remote_params := remote_params s;
     client_active := client_active s; authorized := authorized s;
     packet_buffer := packet_buffer s; stale := v |}.

(** How an iteration of the receive loop ends: it goes on to the next
    [recv], or leaves the loop. *)
Inductive flow := Go | Break.

Definition step : Type := srv * list effect * flow.

(** Statements in sequence: the second runs unless the first left the loop. *)
Definition andthen (f g : srv -> step) : srv -> step :=
  fun s =>
    let '(s1, o1, fl) := f s in
    match fl with
    | Break => (s1, o1, Break)
    | Go => let '(s2, o2, fl2) := g s1 in (s2, o1 ++ o2, fl2)
    end.

Notation "f >> g" := (andthen f g) (at level 65, right associativity).

(** The state, the effects and the flow of a step. *)
Definition st_of (r : step) : srv := fst (fst r).
Definition out_of (r : step) : list effect := snd (fst r).
Definition flow_of (r : step) : flow := snd r.

(** [f"__#COM_PARAMS_{comport} {baud} {line}#__"]. *)
Definition srv_params (a : Args) : bytes :=
  B "__#COM_PARAMS_" ++ comport a ++ B " " ++ Py.str (baud a) ++ B " " ++ line a ++ B "#__".

(** [f"__#SRV_VER_{__CODE_VERSION__}#__"]. *)
Definition srv_ver : bytes := B "__#SRV_VER_" ++ CODE_VERSION ++ B "#__".

(** [f"__#MY_KA_TIMEOUT_{keepalive}#__"]. *)
Definition my_ka (a : Args) : bytes :=
  B "__#MY_KA_TIMEOUT_" ++ Py.str (keepalive a) ++ B "#__".

(** [received_pwd == args.pwd], where [args.pwd] may be [None]. *)
Definition pwd_eq (received : bytes) (p : option bytes) : bool :=
  match p with
  | Some x => Py.eqb received x
  | None => false
  end.

(** *** The receive loop of [main] (one iteration per received chunk) *)

(** [if KEEPALIVE_CMD in data: log_msg(..)]. *)
Definition on_keepalive (data : bytes) : srv -> step :=
  fun s =>
    if Py.contains KEEPALIVE_CMD data
    then (s, [Seen KEEPALIVE; LogMsg LogKeepalive], Go)
    else (s, [], Go).

(** The body of [for part in decoded_str.split('__#')].  The third
    component tells that an exception was raised, which ends the loop (the
    enclosing [try] swallows it). *)
Definition on_version_part (a : Args) (acc : srv * list effect * bool) (part : bytes)
  : srv * list effect * bool :=
  let '(s, out, raised) := acc in
  if raised then acc
  else if Py.contains (B "BR_VER_") part || Py.contains (B "CL_VER_") part then
    let ty := if Py.contains (B "CL_VER") part then B "CL" else B "BR" in
    match Py.split_nth (B "VER_") part 1 with
    | None => (set_client s ty (client_ver s), out, true)
    | Some rest =>
        let s1 := set_client s ty (Py.split_hd (B "#") rest) in
        let out1 := out ++ [LogMsg (LogIdentified (client_type s1) (client_ver s1))] in
        if negb (Py.truthy (pwd a)) then
          let s2 := set_authorized s1 true in
          if Py.eqb (client_type s2) (B "BR")
          then (s2, out1 ++ [SockSend (srv_params a); SockSend ASK_CMD], false)
          else (s2, out1, false)
        else (s1, out1, false)
    end
  else acc.

(** [if b"_VER_" in data: try: for part in ..: .. except: pass]. *)
Definition on_version (a : Args) (data : bytes) : srv -> step :=
  fun s =>
    if Py.contains (B "_VER_") data then
      let '(s1, out, _) :=
        fold_left (on_version_part a) (Py.split (B "__#") data) (s, [Seen VERSION], false) in
      (s1, out, Go)
    else (s, [], Go).

(** [if GETVER_CMD in data: conn.sendall(SRV_VER)]. *)
Definition on_getver (data : bytes) : srv -> step :=
  fun s =>
    if Py.contains GETVER_CMD data
    then (s, [Seen GETVER; SockSend srv_ver], Go)
    else (s, [], Go).

(** [if GET_KA_TIMEOUT_CMD in data: conn.sendall(MY_KA_TIMEOUT)]. *)
Definition on_get_ka (a : Args) (data : bytes) : srv -> step :=
  fun s =>
    if Py.contains GET_KA_TIMEOUT_CMD data
    then (s, [Seen GET_KA_TIMEOUT; SockSend (my_ka a)], Go)
    else (s, [], Go).

(** [if ASK_CMD in data: conn.sendall(srv_params)]. *)
Definition on_ask (a : Args) (data : bytes) : srv -> step :=
  fun s =>
    if Py.contains ASK_CMD data
    then (s, [Seen ASK_COM_PARAMS; SockSend (srv_params a)], Go)
    else (s, [], Go).

(** [if b"__#COM_PARAMS_" in data: try: state.remote_params = .. except: pass]. *)
Definition on_com_params (data : bytes) : srv -> step :=
  fun s =>
    if Py.contains (B "__#COM_PARAMS_") data then
      match Py.split_nth (B "__#COM_PARAMS_") data 1 with
      | None => (s, [Seen COM_PARAMS], Go)
      | Some rest =>
          let s1 := set_remote_params s (Py.strip (Py.split_hd (B "#__") rest)) in
          (s1, [Seen COM_PARAMS; LogMsg (LogRemoteParams (remote_params s1))], Go)
      end
    else (s, [], Go).

(** [decoded_str.split("__#PWD_")[1].split("#")[0]]. *)
Definition received_pwd (data : bytes) : option bytes :=
  Py.split_hd (B "#") <$> Py.split_nth (B "__#PWD_") data 1.

(** [if b"__#PWD_" in data: try: .. except: pass]. *)
Definition on_pwd (a : Args) (data : bytes) : srv -> step :=
  fun s =>
    if Py.contains (B "__#PWD_") data then
      match received_pwd data with
      | None => (s, [Seen PWD], Go)
      | Some received =>
          if pwd_eq received (pwd a) then
            let s1 := set_authorized s true in
            if Py.eqb (client_type s1) (B "BR")
            then (s1, [Seen PWD; LogMsg LogPwdOk; SockSend (srv_params a); SockSend ASK_CMD], Go)
            else (s1, [Seen PWD; LogMsg LogPwdOk], Go)
          else
            (s, [Seen PWD; LogMsg LogPwdBad; SockSend BAD_PWD_MSG; Sleep 500], Break)
      end
    else (s, [], Go).

(** [if DISCONNECT_CMD in data: break]. *)
Definition on_disconnect (data : bytes) : srv -> step :=
  fun s =>
    if Py.contains DISCONNECT_CMD data
    then (s, [Seen DISCONNECT], Break)
    else (s, [], Go).

(** The branch taken when the data holds both [__#] and [#__]. *)
Definition control_branch (a : Args) (data : bytes) : srv -> step :=
  on_keepalive data >> on_version a data >> on_getver data >> on_get_ka a data >>
  on_ask a data >> on_com_params data >> on_pwd a data >> on_disconnect data.

(** The branch taken when the data holds no [__#]. *)
Definition payload_branch (a : Args) (data : bytes) : srv -> step :=
  fun s =>
    if negb (authorized s) && Py.truthy (pwd a) then
      if (length data <? 20)%nat && negb (Py.truthy (Some (packet_buffer s)))
      then (set_buffer s data, [], Go)
      else (s, [LogMsg LogRawRejected], Break)
    else
      (count_in s (Z.of_nat (length data)), [SerWrite data], Go).

(** One iteration of the receive loop on the chunk returned by
    [conn.recv(16384)]; the empty chunk is the peer's close. *)
Definition main_recv (a : Args) (chunk : bytes) : srv -> step :=
  fun s =>
    match chunk with
    | [] => (s, [], Break)
    | _ :: _ =>
        let data := packet_buffer s ++ chunk in
        let s0 := set_buffer s [] in
        if Py.contains (B "__#") data then
          if negb (Py.contains (B "#__") data)
          then (set_buffer s0 data, [], Go)
          else control_branch a data s0
        else payload_branch a data s0
    end.

(** *** The relay thread [serial_to_socket] *)

(** One iteration in which [ser.in_waiting] is [length data]; [conn_open]
    tells whether the thread's socket is still open.  On a closed socket
    [sendall] raises, after the counters were updated, and the thread
    leaves its loop.  The result tells whether the thread keeps running. *)
Definition serial_to_socket (auth conn_open : bool) (data : bytes) (s : srv)
  : srv * list effect * bool :=
  if negb auth then (s, [], true)
  else
    match data with
    | [] => (s, [], true)
    | _ :: _ =>
        let s1 := count_out s (Z.of_nat (length data)) in
        if conn_open then (s1, [SockRelay data], true) else (s1, [], false)
    end.

(** *** Sessions *)

(** The part of [main] after the receive loop (no soft disconnect is
    pending: operator signals are outside this model, so [keep_running]
    stays true and [disconnect_requested], [reload_requested] stay false),
    followed by the reset at the head of the accept loop.  The relay
    thread of the session is not stopped: it stays, with its [b_state]. *)
Definition main_end_session (s : srv) : srv * list effect :=
  ({| stats_in := stats_in s; stats_out := stats_out s;
      session_in := 0; session_out := 0;
      client_type := B "??"; client_ver := []; remote_params := B "?? ?? ??";
      client_active := false; authorized := authorized s;
      packet_buffer := packet_buffer s;
      stale := stale s ++ [{| t_auth := authorized s; t_alive := true |}] |},
   [LogMsg (LogSessionEnded (session_in s) (session_out s)); SockClose]).

(** [listen_sock.accept()] returned: greeting, a fresh [b_state], a fresh
    relay thread, an empty [packet_buffer]. *)
Definition main_accept (a : Args) (s : srv) : srv * list effect :=
  ({| stats_in := stats_in s; stats_out := stats_out s;
      session_in := session_in s; session_out := session_out s;
      client_type := client_type s; client_ver := client_ver s;
      remote_params := remote_params s;
      client_active := true; authorized := negb (Py.truthy (pwd a));
      packet_buffer := [];
      stale := stale s |},
   [SockSend GETVER_CMD; SockSend GET_KA_TIMEOUT_CMD]).

(** The relay threads: the one of the running session, or the [i]-th of
    the threads left from ended sessions. *)
Inductive relay := Current | Stale (i : nat).

(** What the environment offers to the server's threads. *)
Inductive input :=
  | Accept                                  (* a peer connects *)
  | Recv (chunk : bytes)                    (* conn.recv returns chunk *)
  | SerialData (t : relay) (data : bytes).  (* thread t finds data waiting *)

Definition serve (a : Args) (s : srv) (i : input) : srv * list effect :=
  match i with
  | Accept => if client_active s then (s, []) else main_accept a s
  | Recv chunk =>
      if client_active s then
        let '(s1, out, fl) := main_recv a chunk s in
        match fl with
        | Go => (s1, out)
        | Break => let '(s2, out2) := main_end_session s1 in (s2, out ++ out2)
        end
      else (s, [])
  | SerialData Current data =>
      if client_active s then
        let '(s1, out, _) := serial_to_socket (authorized s) true data s in (s1, out)
      else (s, [])
  | SerialData (Stale i) data =>
      match stale s !! i with
      | Some t =>
          if t_alive t then
            let '(s1, out, alive) := serial_to_socket (t_auth t) false data s in
            (set_stale s1 (<[i := {| t_auth := t_auth t; t_alive := alive |}]> (stale s1)), out)
          else (s, [])
      | None => (s, [])
      end
  end.

Fixpoint run (a : Args) (s : srv) (ins : list input) : srv * list effect :=
  match ins with
  | [] => (s, [])
  | i :: ins' =>
      let '(s1, out1) := serve a s i in
      let '(s2, out2) := run a s1 ins' in
      (s2, out1 ++ out2)
  end.

(** The [GlobalState] at start-up. *)
Definition init : srv :=
  {| stats_in := 0; stats_out := 0; session_in := 0; session_out := 0;
     client_type := B "??"; client_ver := []; remote_params := B "?? ?? ??";
     client_active := false; authorized := false; packet_buffer := [];
     stale := [] |}.

(** The event view of a run: every serial write is a payload event, every
    recognised token a control event. *)
Definition event_of (e : effect) : option event :=
  match e with
  | Seen t => Some (Control t)
  | SerWrite d => Some (Payload d)
  | _ => None
  end.

Definition events (out : list effect) : list event := omap event_of out.

(** The tokens recognised, in order. *)
Definition controls (out : list effect) : list token :=
  omap (fun e => match e with Seen t => Some t | _ => None end) out.

(** The bytes written to the serial endpoint, in order. *)
Definition serial_written (out : list effect) : bytes :=
  flat_map (fun e => match e with SerWrite d => d | _ => [] end) out.

(** The serial bytes relayed to the peer, in order. *)
Definition relayed (out : list effect) : bytes :=
  flat_map (fun e => match e with SockRelay d => d | _ => [] end) out.

(** *** Predicates used in the properties *)

(** The step left the counters, the buffer, the threads and the session
    flag alone. *)
Definition frame_ok (s s' : srv) : Prop :=
  stats_in s' = stats_in s /\ stats_out s' = stats_out s /\
  session_in s' = session_in s /\ session_out s' = session_out s /\
  packet_buffer s' = packet_buffer s /\ stale s' = stale s /\
  client_active s' = client_active s.

(** The effects carry no data-plane bytes. *)
Definition no_data (out : list effect) : Prop :=
  serial_written out = [] /\ relayed out = [].

(** A handler that never leaves the loop, moves no data and, when a
    password is configured, leaves the authorization alone. *)
Definition benign (a : Args) (h : srv -> step) : Prop :=
  forall s, exists s' out,
    h s = (s', out, Go) /\ frame_ok s s' /\ no_data out /\
    (Py.truthy (pwd a) = true -> authorized s' = authorized s).

(** The handlers ahead of the password check, taken together. *)
Definition replies (a : Args) (data : bytes) : srv -> step :=
  on_keepalive data >> on_version a data >> on_getver data >> on_get_ka a data >>
  on_ask a data >> on_com_params data.

(** No session has been authorized so far. *)
Definition never_authorized (s : srv) : Prop :=
  (client_active s = true -> authorized s = false) /\
  Forall (fun t => t_auth t = false) (stale s).

(** All four counters are zero. *)
Definition zeroed (s : srv) : Prop :=
  stats_in s = 0 /\ stats_out s = 0 /\ session_in s = 0 /\ session_out s = 0.

(** The effects touch neither the serial endpoint nor the relay direction. *)
Definition control_only (out : list effect) : Prop :=
  Forall (fun e => match e with SerWrite _ | SockRelay _ => False | _ => True end) out.

(** A handler that moves no data, leaves the counters, the buffer and the
    threads alone and never withdraws an authorization; it may leave the
    loop. *)
Definition steady (h : srv -> step) : Prop :=
  forall s, exists s' out fl,
    h s = (s', out, fl) /\ frame_ok s s' /\ control_only out /\
    (authorized s = true -> authorized s' = true).

(** The frames the session code sends on the socket. *)
Definition sent_frames (a : Args) : list bytes :=
  [GETVER_CMD; GET_KA_TIMEOUT_CMD; srv_ver; my_ka a; srv_params a; ASK_CMD; BAD_PWD_MSG].

(** Every [sendall] of the receive loop sends one of them. *)
Definition sends_frames (a : Args) (out : list effect) : Prop :=
  forall d, In (SockSend d) out -> In d (sent_frames a).

(** A handler that sends nothing else. *)
Definition framed (a : Args) (h : srv -> step) : Prop :=
  forall s, sends_frames a (out_of (h s)).

(** The input is not the wake-up of a relay thread left from an ended
    session. *)
Definition live_input (i : input) : bool :=
  match i with
  | SerialData (Stale _) _ => false
  | _ => true
  end.

End Server.

(** ** The bridge: [serial_bridge_0.0.70_LinWin.py] *)

Module Bridge.

Definition CODE_VERSION : bytes := B "0.0.70".

Record Args := {
  pwd : option bytes;
  secauto : bool;
  sec : option bytes;
  comport : bytes;
  namedpipe : option bytes;
  baud : Z;
  line : bytes;
  keepalive : Z;
  debug : bool
}.

Inductive log :=
  | LogServerDisconnected        (* "Server disconnected." *)
  | LogDisconnectSignal          (* "SRV-->BR: Disconnect signal received." *)
  | LogBadPwd                    (* "Error: Server rejected authorization password." *)
  | LogSrvVer (v : bytes)        (* "Server version identified: .." *)
  | LogKaOk (n : Z)              (* "SRV-->BR: KeepAlive {n}s - OK" *)
  | LogKaRisk (n : Z)            (* "SRV-->BR: KeepAlive {n}s - RISK" *)
  | LogDebug (t : token)         (* "DEBUG: RX .." *)
  | LogRemoteParams (p : bytes). (* "SRV-->BR: Remote Params: .." *)

Inductive effect :=
  | LogMsg (m : log)
  | SockSend (d : bytes)      (* net_conn.sendall(d) *)
  | SerWrite (d : bytes).     (* ser_obj.write(d) or WriteFile(ser_obj, d) *)

(** The fields of [SerialBridgeNode] the session code uses. *)
Record node := {
  keep_running : bool;
  serial_ready : bool;
  awaiting_params : bool;
  is_sec : bool;
  pipe_connected : bool;
  remote_params : bytes;
  SRV_VER : bytes;
  in_count : Z;
  out_count : Z
}.

Definition init : node :=
  {| keep_running := true; serial_ready := false; awaiting_params := false;
     is_sec := false; pipe_connected := false; remote_params := B "?? ?? ??";
     SRV_VER := B "???"; in_count := 0; out_count := 0 |}.

Definition stop (n : node) : node :=
  {| keep_running := false; serial_ready := serial_ready n;
     awaiting_params := awaiting_params n; is_sec := is_sec n;
     pipe_connected := pipe_connected n; remote_params := remote_params n;
     SRV_VER := SRV_VER n; in_count := in_count n; out_count := out_count n |}.

Definition set_srv_ver (n : node) (v : bytes) : node :=
  {| keep_running := keep_running n; serial_ready := serial_ready n;
     awaiting_params := awaiting_params n; is_sec := is_sec n;
     pipe_connected := pipe_connected n; remote_params := remote_params n;
     SRV_VER := v; in_count := in_count n; out_count := out_count n |}.

(** [self.remote_params = p; self.serial_ready = True; self.awaiting_params = False]. *)
Definition set_params (n : node) (p : bytes) : node :=
  {| keep_running := keep_running n; serial_ready := true;
     awaiting_params := false; is_sec := is_sec n;
     pipe_connected := pipe_connected n; remote_params := p;
     SRV_VER := SRV_VER n; in_count := in_count n; out_count := out_count n |}.

(** [self.is_sec = True], once [ctx.wrap_socket] has returned. *)
Definition wrapped (n : node) : node :=
  {| keep_running := keep_running n; serial_ready := serial_ready n;
     awaiting_params := awaiting_params n; is_sec := true;
     pipe_connected := pipe_connected n; remote_params := remote_params n;
     SRV_VER := SRV_VER n; in_count := in_count n; out_count := out_count n |}.

(** [self.awaiting_params = True]. *)
Definition awaiting (n : node) : node :=
  {| keep_running := keep_running n; serial_ready := serial_ready n;
     awaiting_params := true; is_sec := is_sec n;
     pipe_connected := pipe_connected n; remote_params := remote_params n;
     SRV_VER := SRV_VER n; in_count := in_count n; out_count := out_count n |}.

(** [count_data]. *)
Definition count_data (n : node) (out : bool) (size : Z) : node :=
  {| keep_running := keep_running n; serial_ready := serial_ready n;
     awaiting_params := awaiting_params n; is_sec := is_sec n;
     pipe_connected := pipe_connected n; remote_params := remote_params n;
     SRV_VER := SRV_VER n;
     in_count := if out then in_count n else in_count n + size;
     out_count := if out then out_count n + size else out_count n |}.

Inductive flow := Go | Break.

Definition step : Type := node * list effect * flow.

Definition st_of (r : step) : node := fst (fst r).
Definition out_of (r : step) : list effect := snd (fst r).
Definition flow_of (r : step) : flow := snd r.

Definition andthen (f g : node -> step) : node -> step :=
  fun n =>
    let '(n1, o1, fl) := f n in
    match fl with
    | Break => (n1, o1, Break)
    | Go => let '(n2, o2, fl2) := g n1 in (n2, o1 ++ o2, fl2)
    end.

Notation "f >> g" := (andthen f g) (at level 65, right associativity).

(** [f"__#BR_VER_{__CODE_VERSION__}#__"]. *)
Definition id_msg : bytes := B "__#BR_VER_" ++ CODE_VERSION ++ B "#__".

(** [f"__#PWD_{pwd}#__"]. *)
Definition pwd_msg (p : bytes) : bytes := B "__#PWD_" ++ p ++ B "#__".

Definition port_name (a : Args) : bytes :=
  match namedpipe a with
  | Some p => B "PIPE:" ++ p
  | None => comport a
  end.

(** [f"__#COM_PARAMS_{port_name} {baud} {line}#__"]. *)
Definition com_params (a : Args) : bytes :=
  B "__#COM_PARAMS_" ++ port_name a ++ B " " ++ Py.str (baud a) ++ B " " ++ line a ++ B "#__".

(** *** Connection set-up in [run] *)

(** Whether [run] wraps the socket in TLS: [if self.args.secauto or self.args.sec]. *)
Definition tls (a : Args) : bool := secauto a || Py.truthy (sec a).

(** What the outside lets the set-up of [run] do: the platform, whether
    the serial port or the pipe opens (the first [try] goes through),
    whether the socket connects, whether [load_cert_chain] takes a
    certificate and a key file, whether [wrap_socket] completes the TLS
    handshake. *)
Record env := {
  win32 : bool;
  WIN32_AVAILABLE : bool;
  port_opens : bool;
  connects : bool;
  cert_loads : bytes -> bytes -> bool;
  handshake : bool
}.

(** [run] from its start to [self.net_conn = sock]; [None] stands for
    [self.cleanup(); return], after which nothing is sent.  With
    [--sec] the text must split at its commas into a certificate and a
    key, else the unpacking raises (SSL Cert Error). *)
Definition run_connect (a : Args) (e : env) (n : node) : option node :=
  let use_named_pipe := bool_decide (namedpipe a <> None) in
  if use_named_pipe && (negb (win32 e) || negb (WIN32_AVAILABLE e)) then None
  else if negb (port_opens e) then None
  else if negb (connects e) then None
  else if tls a then
    let certs :=
      match sec a with
      | Some (c :: t) =>
          match Py.split (B ",") (c :: t) with
          | [cp; kp] => cert_loads e (Py.strip cp) (Py.strip kp)
          | _ => false
          end
      | _ => true
      end in
    if certs && handshake e then Some (wrapped n) else None
  else Some n.

(** The frames [run] sends on the connected socket, before the main
    loop: the password goes out only on a wrapped socket. *)
Definition run_setup (a : Args) (n : node) : node * list effect :=
  (awaiting n,
   [SockSend id_msg] ++
   (if is_sec n && Py.truthy (pwd a)
    then [SockSend (pwd_msg (default [] (pwd a)))] else []) ++
   [SockSend GETVER_CMD; SockSend GET_KA_TIMEOUT_CMD; SockSend ASK_CMD]).

(** [run] up to the main loop: the node, if the set-up went through,
    and what was sent. *)
Definition run_start (a : Args) (e : env) (n : node) : option node * list effect :=
  match run_connect a e n with
  | Some n1 => let '(n2, out) := run_setup a n1 in (Some n2, out)
  | None => (None, [])
  end.

(** *** The network side of the main loop *)

(** [if BAD_PWD_MSG in data: log; break]. *)
Definition on_badpwd (data : bytes) : node -> step :=
  fun n =>
    if Py.contains BAD_PWD_MSG data then (n, [LogMsg LogBadPwd], Break) else (n, [], Go).

(** [if b"SRV_VER_" in data: try: .. except: pass]. *)
Definition on_srv_ver (a : Args) (data : bytes) : node -> step :=
  fun n =>
    if Py.contains (B "SRV_VER_") data then
      match Py.split_nth (B "SRV_VER_") data 1 with
      | None => (n, [], Go)
      | Some rest =>
          let n1 := set_srv_ver n (Py.split_hd (B "#") rest) in
          (n1, [LogMsg (LogSrvVer (SRV_VER n1)); SockSend (com_params a)], Go)
      end
    else (n, [], Go).

(** [int(data.decode().split(MY_KA_TIMEOUT_CMD.decode())[1].split("#")[0])]. *)
Definition srv_ka (data : bytes) : option Z :=
  Py.split_nth MY_KA_TIMEOUT_CMD data 1 ≫= fun rest => Py.int (Py.split_hd (B "#") rest).

(** [if MY_KA_TIMEOUT_CMD in data: try: .. except: pass]. *)
Definition on_my_ka (a : Args) (data : bytes) : node -> step :=
  fun n =>
    if Py.contains MY_KA_TIMEOUT_CMD data then
      match srv_ka data with
      | None => (n, [], Go)
      | Some k =>
          if keepalive a <? k
          then (n, [LogMsg (LogKaOk k)], Go)
          else (n, [LogMsg (LogKaRisk k)], Go)
      end
    else (n, [], Go).

(** [if self.args.debug: ..]. *)
Definition on_debug (a : Args) (data : bytes) : node -> step :=
  fun n =>
    if debug a then
      (n,
       (if Py.contains KEEPALIVE_CMD data then [LogMsg (LogDebug KEEPALIVE)] else []) ++
       (if Py.contains GETVER_CMD data then [LogMsg (LogDebug GETVER)] else []) ++
       (if Py.contains GET_KA_TIMEOUT_CMD data then [LogMsg (LogDebug GET_KA_TIMEOUT)] else []) ++
       (if Py.contains ASK_CMD data then [LogMsg (LogDebug ASK_COM_PARAMS)] else []) ++
       (if Py.contains (B "__#COM_PARAMS_") data then [LogMsg (LogDebug COM_PARAMS)] else []),
       Go)
    else (n, [], Go).

(** [if b"__#COM_PARAMS_" in data: try: .. except: pass], on the stripped text. *)
Definition on_com_params (data : bytes) : node -> step :=
  fun n =>
    if Py.contains (B "__#COM_PARAMS_") data then
      match Py.split_nth (B "__#COM_PARAMS_") (Py.strip data) 1 with
      | None => (n, [], Go)
      | Some rest =>
          let p := Py.strip (Py.split_hd (B "#__") rest) in
          (set_params n p, [LogMsg (LogRemoteParams p)], Go)
      end
    else (n, [], Go).

(** [if GETVER_CMD in data: .. elif ASK_CMD in data: ..]. *)
Definition on_requests (a : Args) (data : bytes) : node -> step :=
  fun n =>
    if Py.contains GETVER_CMD data then (n, [SockSend id_msg], Go)
    else if Py.contains ASK_CMD data then (n, [SockSend (com_params a)], Go)
    else (n, [], Go).

(** The handlers run when the data holds [__#]. *)
Definition control_branch (a : Args) (data : bytes) : node -> step :=
  on_badpwd data >> on_srv_ver a data >> on_my_ka a data >> on_debug a data >>
  on_com_params data >> on_requests a data.

(** [if self.serial_ready and data: ..]: the write to the serial port or
    the named pipe, and the count. *)
Definition forward (a : Args) (data : bytes) : node -> step :=
  fun n =>
    if serial_ready n && Py.truthy (Some data) then
      let use_named_pipe := bool_decide (namedpipe a <> None) in
      if pipe_connected n || negb use_named_pipe
      then (count_data n true (Z.of_nat (length data)), [SerWrite data], Go)
      else (n, [], Go)
    else (n, [], Go).

(** One pass of the main loop in which [net_conn.recv(16384)] returns
    [chunk]; the empty chunk is the server's close. *)
Definition run_recv (a : Args) (chunk : bytes) : node -> step :=
  fun n =>
    match chunk with
    | [] => (stop n, [LogMsg LogServerDisconnected], Break)
    | _ :: _ =>
        if Py.contains DISCONNECT_CMD chunk
        then (stop n, [LogMsg LogDisconnectSignal], Break)
        else if Py.contains (B "__#") chunk then
          (control_branch a chunk >>
           forward a (Py.re_sub Py.frame_nohash chunk)) n
        else forward a chunk n
    end.

(** *** The serial side of the main loop (serial port, not a pipe) *)

(** [s_data = ser_obj.read(in_waiting); if s_data: sendall; count_data("IN", ..)]. *)
Definition run_serial (s_data : bytes) (n : node) : node * list effect :=
  match s_data with
  | [] => (n, [])
  | _ :: _ => (count_data n false (Z.of_nat (length s_data)), [SockSend s_data])
  end.

(** The bytes written to the serial endpoint, in order. *)
Definition serial_written (out : list effect) : bytes :=
  flat_map (fun e => match e with SerWrite d => d | _ => [] end) out.


(** *** Predicates used in the properties *)


(** A handler of the control branch on [data]: it writes nothing, counts
    nothing and leaves the pipe alone; it never takes the serial side out
    of service, puts it into service only on [COM_PARAMS], and leaves the
    loop only on [BADPWD]. *)
Definition tame (data : bytes) (h : node -> step) : Prop :=
  forall n, exists n' o fl,
    h n = (n', o, fl) /\ serial_written o = [] /\
    out_count n' = out_count n /\ in_count n' = in_count n /\
    pipe_connected n' = pipe_connected n /\
    (serial_ready n = true -> serial_ready n' = true) /\
    (Py.contains (B "__#COM_PARAMS_") data = false -> serial_ready n' = serial_ready n) /\
    (Py.contains BAD_PWD_MSG data = false -> fl = Go).

(** *** The main loop as a whole *)

(** What a pass of the main loop finds: a chunk on the socket, or bytes
    waiting on the serial port. *)
Inductive input :=
  | NetRecv (chunk : bytes)
  | SerialRead (s_data : bytes).

(** The passes of [while self.keep_running], one input each; the loop is
    left on [break]. *)
Fixpoint run_loop (a : Args) (n : node) (ins : list input) : node * list effect :=
  match ins with
  | [] => (n, [])
  | NetRecv chunk :: ins' =>
      let '(n1, o1, fl) := run_recv a chunk n in
      match fl with
      | Break => (n1, o1)
      | Go => let '(n2, o2) := run_loop a n1 ins' in (n2, o1 ++ o2)
      end
  | SerialRead s_data :: ins' =>
      let '(n1, o1) := run_serial s_data n in
      let '(n2, o2) := run_loop a n1 ins' in (n2, o1 ++ o2)
  end.

(** The chunks read from the socket carry no [COM_PARAMS] frame. *)
Definition no_params (i : input) : bool :=
  match i with
  | NetRecv chunk => negb (Py.contains (B "__#COM_PARAMS_") chunk)
  | SerialRead _ => true
  end.

End Bridge.

(** ** The client: [serial_client_0.0.56_LinWin.py] *)

Module Client.

Definition CODE_VERSION : bytes := B "0.0.56".

Record Args := {
  pwd : option bytes;
  keepalive : Z
}.

Inductive effect :=
  | SockSend (d : bytes)      (* sock.sendall(d) *)
  | Stdout (d : bytes)        (* sys.stdout.write(d.decode(errors='replace')) *)
  | ErrInvalidPwd             (* "[ERROR] Invalid password." on stdout *)
  | SockClose                 (* sock.close() *)
  | Exit.                     (* sys.exit(0) *)

(** The fields of [SoEClient] the receive thread uses. *)
Record client := {
  keep_running : bool;
  remote_params : bytes;
  server_version : bytes;
  sent_count : Z;
  recv_count : Z
}.

Definition init : client :=
  {| keep_running := true; remote_params := B "?? ?? ??";
     server_version := B "?.?.?"; sent_count := 0; recv_count := 0 |}.

Definition add_recv (c : client) (n : Z) : client :=
  {| keep_running := keep_running c; remote_params := remote_params c;
     server_version := server_version c; sent_count := sent_count c;
     recv_count := recv_count c + n |}.

Definition add_sent (c : client) (n : Z) : client :=
  {| keep_running := keep_running c; remote_params := remote_params c;
     server_version := server_version c; sent_count := sent_count c + n;
     recv_count := recv_count c |}.

Definition set_server_version (c : client) (v : bytes) : client :=
  {| keep_running := keep_running c; remote_params := remote_params c;
     server_version := v; sent_count := sent_count c;
     recv_count := recv_count c |}.

Definition set_remote_params (c : client) (v : bytes) : client :=
  {| keep_running := keep_running c; remote_params := v;
     server_version := server_version c; sent_count := sent_count c;
     recv_count := recv_count c |}.

Definition stop (c : client) : client :=
  {| keep_running := false; remote_params := remote_params c;
     server_version := server_version c; sent_count := sent_count c;
     recv_count := recv_count c |}.

Inductive flow := Go | Break.

Definition step : Type := client * list effect * flow.

Definition st_of (r : step) : client := fst (fst r).
Definition out_of (r : step) : list effect := snd (fst r).
Definition flow_of (r : step) : flow := snd r.

Definition andthen (f g : client -> step) : client -> step :=
  fun c =>
    let '(c1, o1, fl) := f c in
    match fl with
    | Break => (c1, o1, Break)
    | Go => let '(c2, o2, fl2) := g c1 in (c2, o1 ++ o2, fl2)
    end.

Notation "f >> g" := (andthen f g) (at level 65, right associativity).

(** [f"__#CL_VER_{__CODE_VERSION__}#__"]. *)
Definition id_msg : bytes := B "__#CL_VER_" ++ CODE_VERSION ++ B "#__".

Definition pwd_msg (p : bytes) : bytes := B "__#PWD_" ++ p ++ B "#__".

Definition my_ka (a : Args) : bytes :=
  B "__#MY_KA_TIMEOUT_" ++ Py.str (keepalive a) ++ B "#__".

(** The frames [run] sends once the socket is connected, with or without
    TLS, before the threads start. *)
Definition run_setup (a : Args) : list effect :=
  [SockSend id_msg] ++
  (if Py.truthy (pwd a) then [SockSend (pwd_msg (default [] (pwd a)))] else []) ++
  [SockSend GETVER_CMD; SockSend ASK_CMD].

(** [run] (without [--ask]) up to the start of the threads.  [connected]
    tells whether the socket was connected and, with [--secauto] or
    [--sec], wrapped; if not, the exception leads to [shutdown] with no
    socket, and nothing is sent. *)
Definition run_start (connected : bool) (a : Args) : list effect :=
  if connected then run_setup a else [].

(** [shutdown]: it ends the thread through [sys.exit]. *)
Definition shutdown : client -> step :=
  fun c => (stop c, [SockSend DISCONNECT_CMD; SockClose; Exit], Break).

Definition on_getver (data : bytes) : client -> step :=
  fun c => if Py.contains GETVER_CMD data then (c, [SockSend id_msg], Go) else (c, [], Go).

Definition on_get_ka (a : Args) (data : bytes) : client -> step :=
  fun c =>
    if Py.contains GET_KA_TIMEOUT_CMD data then (c, [SockSend (my_ka a)], Go) else (c, [], Go).

Definition on_srv_ver (data : bytes) : client -> step :=
  fun c =>
    if Py.contains (B "SRV_VER_") data then
      match Py.split_nth (B "SRV_VER_") data 1 with
      | None => (c, [], Go)
      | Some rest => (set_server_version c (Py.split_hd (B "#") rest), [], Go)
      end
    else (c, [], Go).

Definition on_badpwd (data : bytes) : client -> step :=
  fun c =>
    if Py.contains BAD_PWD_MSG data
    then let '(c1, o, fl) := shutdown c in (c1, ErrInvalidPwd :: o, fl)
    else (c, [], Go).

Definition on_disconnect (data : bytes) : client -> step :=
  fun c => if Py.contains DISCONNECT_CMD data then shutdown c else (c, [], Go).

Definition on_com_params (data : bytes) : client -> step :=
  fun c =>
    if Py.contains (B "__#COM_PARAMS_") data then
      match Py.split_nth (B "__#COM_PARAMS_") data 1 with
      | None => (c, [], Go)
      | Some rest => (set_remote_params c (Py.strip (Py.split_hd (B "#__") rest)), [], Go)
      end
    else (c, [], Go).

(** The end of the branch: the frames are taken out of [decoded_part],
    the received bytes decoded with [errors='ignore'], and what is left
    is shown unless it is white space only.  The decoded text and
    [remaining_data] are held as their UTF-8 encodings, which is what
    [remaining_data.encode('utf-8')] hands to the write. *)
Definition show_remaining (data : bytes) : client -> step :=
  fun c =>
    let decoded_part := Py.utf8_ignore data in
    let remaining_data := Py.re_sub Py.frame_lazy decoded_part in
    if Py.utf8_blank remaining_data then (c, [], Go)
    else (c, [Stdout remaining_data], Go).

(** One iteration of [_receive_thread] in which [sock.recv(4096)] returns
    [chunk]; leaving the loop runs [shutdown]. *)
Definition _receive_thread (a : Args) (chunk : bytes) : client -> step :=
  fun c =>
    match chunk with
    | [] => let '(c1, o, _) := shutdown c in (c1, o, Break)
    | _ :: _ =>
        let c0 := add_recv c (Z.of_nat (length chunk)) in
        if Py.contains (B "__#") chunk then
          (on_getver chunk >> on_get_ka a chunk >> on_srv_ver chunk >>
           on_badpwd chunk >> on_disconnect chunk >> on_com_params chunk >>
           show_remaining chunk) c0
        else (c0, [Stdout chunk], Go)
    end.

(** One key of [_send_thread], after the translation of extended keys:
    [sock.sendall(char); self.sent_count += len(char)]. *)
Definition _send_thread (char : bytes) (c : client) : client * list effect :=
  (add_sent c (Z.of_nat (length char)), [SockSend char]).

(** The data written to the user's screen, in order. *)
Definition shown (out : list effect) : bytes :=
  flat_map (fun e => match e with Stdout d => d | _ => [] end) out.

(** *** Predicates used in the properties *)


(** A handler of the receive thread on [data]: it shows nothing, leaves
    the counters alone and ends the thread only on [BADPWD] or
    [DISCONNECT]. *)
Definition calm (data : bytes) (h : client -> step) : Prop :=
  forall c, exists c' o fl,
    h c = (c', o, fl) /\ shown o = [] /\
    recv_count c' = recv_count c /\ sent_count c' = sent_count c /\
    (Py.contains BAD_PWD_MSG data = false ->
     Py.contains DISCONNECT_CMD data = false -> fl = Go).

End Client.

(** ** The server's log windows: [log_msg], [log_transfer], [kb_handler],
    [render_window_content] *)

Module ServerUi.

(** The fields of [args] the windows read. *)
Record Args := {
  debug : bool;
  batch : bool;
  notui : bool;
  showtransfer : option bytes;
  logbufferlines : Z;
  transferbufferlines : Z
}.

(** The fields of the global [state] the windows use.  [scroll_offsets]
    is the two-element list of the source, indexed by the window. *)
Record ui := {
  log_buffer : list bytes;
  transfer_buffer : list bytes;
  active_window : Z;
  scroll_offsets : list Z;
  transfer_mode : bytes;
  transfer_filter : bytes
}.

(** The [GlobalState] at start-up. *)
Definition init : ui :=
  {| log_buffer := []; transfer_buffer := []; active_window := 0;
     scroll_offsets := [0; 0]; transfer_mode := B "ascii"; transfer_filter := B "all" |}.

Definition set_log_buffer (u : ui) (v : list bytes) : ui :=
  {| log_buffer := v; transfer_buffer := transfer_buffer u;
     active_window := active_window u; scroll_offsets := scroll_offsets u;
     transfer_mode := transfer_mode u; transfer_filter := transfer_filter u |}.

Definition set_transfer_buffer (u : ui) (v : list bytes) : ui :=
  {| log_buffer := log_buffer u; transfer_buffer := v;
     active_window := active_window u; scroll_offsets := scroll_offsets u;
     transfer_mode := transfer_mode u; transfer_filter := transfer_filter u |}.

Definition set_active_window (u : ui) (v : Z) : ui :=
  {| log_buffer := log_buffer u; transfer_buffer := transfer_buffer u;
     active_window := v; scroll_offsets := scroll_offsets u;
     transfer_mode := transfer_mode u; transfer_filter := transfer_filter u |}.

Definition set_transfer_mode (u : ui) (v : bytes) : ui :=
  {| log_buffer := log_buffer u; transfer_buffer := transfer_buffer u;
     active_window := active_window u; scroll_offsets := scroll_offsets u;
     transfer_mode := v; transfer_filter := transfer_filter u |}.

Definition set_transfer_filter (u : ui) (v : bytes) : ui :=
  {| log_buffer := log_buffer u; transfer_buffer := transfer_buffer u;
     active_window := active_window u; scroll_offsets := scroll_offsets u;
     transfer_mode := transfer_mode u; transfer_filter := v |}.

(** [state.scroll_offsets[i]], for the window [i] (0 or 1). *)
Definition offset (u : ui) (i : Z) : Z := default 0 (scroll_offsets u !! Z.to_nat i).

(** [state.scroll_offsets[i] = v]. *)
Definition set_offset (u : ui) (i v : Z) : ui :=
  {| log_buffer := log_buffer u; transfer_buffer := transfer_buffer u;
     active_window := active_window u;
     scroll_offsets := <[Z.to_nat i := v]> (scroll_offsets u);
     transfer_mode := transfer_mode u; transfer_filter := transfer_filter u |}.

(** The part of [main] that reads [--showtransfer MODE[,FILTER]]. *)
Definition main_showtransfer (a : Args) (u : ui) : ui :=
  match showtransfer a with
  | Some (c :: v) =>
      let parts := Py.split (B ",") (c :: v) in
      let u1 :=
        match parts !! 0%nat with
        | Some p =>
            let m := Py.lower p in
            if Py.eqb m (B "ascii") || Py.eqb m (B "hex") then set_transfer_mode u m else u
        | None => u
        end in
      match parts !! 1%nat with
      | Some p =>
          let f := Py.lower p in
          if Py.eqb f (B "in") || Py.eqb f (B "out") || Py.eqb f (B "all")
          then set_transfer_filter u1 f else u1
      | None => u1
      end
  | _ => u
  end.

(** [buf.append(line); if len(buf) > limit: buf.pop(0)]. *)
Definition push (limit : Z) (buf : list bytes) (line : bytes) : list bytes :=
  let buf1 := buf ++ [line] in
  if limit <? Z.of_nat (length buf1) then drop 1 buf1 else buf1.

(** [log_msg] on the formatted line [full_log_line] (time stamp, tags and
    message): what it does to the log window's buffer. *)
Definition log_msg (a : Args) (full_log_line : bytes) (is_debug : bool) (u : ui) : ui :=
  if is_debug && negb (debug a) then u
  else if batch a then u
  else if notui a then u
  else set_log_buffer u (push (logbufferlines a) (log_buffer u) full_log_line).

(** [log_transfer] on the formatted line [full_msg]. *)
Definition log_transfer (a : Args) (direction full_msg : bytes) (u : ui) : ui :=
  match showtransfer a with
  | None => u
  | Some _ =>
      if negb (Py.eqb (transfer_filter u) (B "all")) &&
         negb (Py.eqb (Py.lower direction) (transfer_filter u))
      then u
      else if batch a then u
      else if notui a then u
      else set_transfer_buffer u
             (push (transferbufferlines a) (transfer_buffer u) full_msg)
  end.

(** The keys [kb_handler] knows. *)
Definition key_tab : bytes := ["009"%char].
Definition key_up_win : bytes := ["224"%char; "H"%char].
Definition key_up : bytes := ["027"%char; "["%char; "A"%char].
Definition key_down_win : bytes := ["224"%char; "P"%char].
Definition key_down : bytes := ["027"%char; "["%char; "B"%char].
Definition key_ctrl_c : bytes := ["003"%char].

(** [handle_sigint] as the windows see it: it logs, through [log_msg], the
    lines [lines] (one when a client is connected, two otherwise). *)
Definition handle_sigint (a : Args) (lines : list bytes) (u : ui) : ui :=
  fold_left (fun u l => log_msg a l false u) lines u.

(** One turn of the loop of [kb_handler] on the key [key]. *)
Definition kb_handler (a : Args) (key : bytes) (sigint_lines : list bytes) (u : ui) : ui :=
  match key with
  | [] => u
  | _ :: _ =>
      if Py.eqb key key_tab && bool_decide (showtransfer a <> None)
      then set_active_window u (1 - active_window u)
      else
        let current_focus :=
          if bool_decide (showtransfer a <> None) then active_window u else 0 in
        if Py.eqb key key_up_win || Py.eqb key key_up then
          let u1 := set_offset u current_focus (offset u current_focus + 1) in
          let buf_len :=
            Z.of_nat (length (if current_focus =? 0 then log_buffer u1
                              else transfer_buffer u1)) in
          set_offset u1 current_focus
            (Z.max 0 (Z.min (offset u1 current_focus) (buf_len - 5)))
        else if Py.eqb key key_down_win || Py.eqb key key_down then
          set_offset u current_focus (Z.max 0 (offset u current_focus - 1))
        else if Py.eqb key key_ctrl_c then handle_sigint a sigint_lines u
        else u
  end.

(** The window [render_window_content(window_id)] draws on a terminal of
    [rows] lines: its height, its buffer and its scroll offset; [None]
    when the function returns before drawing. *)
Definition window (a : Args) (rows window_id : Z) (u : ui)
  : option (Z * list bytes * Z) :=
  if batch a || notui a then None
  else
    match showtransfer a with
    | None =>
        if negb (window_id =? 0) then None
        else Some (rows - 2, log_buffer u, offset u 0)
    | Some _ =>
        let mid := rows / 2 in
        if window_id =? 0 then Some (mid - 1, log_buffer u, offset u 0)
        else Some ((rows - 1) - (mid + 2) + 1, transfer_buffer u, offset u 1)
    end.

(** [display_lines] of [render_window_content]: the lines it writes,
    bottom-aligned, into the window. *)
Definition display_lines (height : Z) (buffer : list bytes) (offset : Z) : list bytes :=
  match buffer with
  | [] => []
  | _ :: _ =>
      let end_idx := Z.of_nat (length buffer) - offset in
      let start_idx := Z.max 0 (end_idx - height) in
      Py.slice buffer start_idx end_idx
  end.

Definition render_window_content (a : Args) (rows window_id : Z) (u : ui) : list bytes :=
  match window a rows window_id u with
  | None => []
  | Some (height, buffer, offset) => display_lines height buffer offset
  end.

(** What happens to the windows: a key is pressed, a line is logged, a
    transfer is logged. *)
Inductive event :=
  | Key (key : bytes) (sigint_lines : list bytes)
  | Log (full_log_line : bytes) (is_debug : bool)
  | Transfer (direction full_msg : bytes).

Definition step (a : Args) (u : ui) (e : event) : ui :=
  match e with
  | Key key lines => kb_handler a key lines u
  | Log l d => log_msg a l d u
  | Transfer dir m => log_transfer a dir m u
  end.

Definition run (a : Args) (u : ui) (evs : list event) : ui := fold_left (step a) evs u.

(** The lines [log_msg] takes into the log window during these events. *)
Definition logged (a : Args) (evs : list event) : list bytes :=
  flat_map (fun e =>
              match e with
              | Log l d => if d && negb (debug a) then [] else [l]
              | Key key lines => if Py.eqb key key_ctrl_c then lines else []
              | Transfer _ _ => []
              end) evs.

(** The last [k] elements of a list. *)
Definition latest {A : Type} (k : Z) (l : list A) : list A :=
  drop (length l - Z.to_nat k) l.

(** The scroll offsets are in range: there are two, and neither scrolls
    further back than to the fifth line of its buffer. *)
Definition in_range (u : ui) : Prop :=
  (active_window u = 0 \/ active_window u = 1) /\
  exists o0 o1, scroll_offsets u = [o0; o1] /\
    0 <= o0 <= Z.max 0 (Z.of_nat (length (log_buffer u)) - 5) /\
    0 <= o1 <= Z.max 0 (Z.of_nat (length (transfer_buffer u)) - 5).

End ServerUi.

(** ** Configuration values *)

Module Conf.

(** The values an option can hold. *)
Inductive value :=
  | VNone
  | VBool (b : bool)
  | VInt (n : Z)
  | VStr (s : bytes).

(** A [dict] from option names to values, in insertion order; it is
    also the [argparse.Namespace] built from it. *)
Definition config : Type := list (bytes * value).

(** [c[k]]; [None] stands for the [KeyError]. *)
Fixpoint get (c : config) (k : bytes) : option value :=
  match c with
  | [] => None
  | (k', v) :: c' => if Py.eqb k' k then Some v else get c' k
  end.

(** [c[k] = v]: the entry is replaced where it stands, or added at the end. *)
Fixpoint set (c : config) (k : bytes) (v : value) : config :=
  match c with
  | [] => [(k, v)]
  | (k', v') :: c' => if Py.eqb k' k then (k', v) :: c' else (k', v') :: set c' k v
  end.

(** [args.k], for an option every configuration has. *)
Definition attr (c : config) (k : bytes) : value := default VNone (get c k).

Definition is_none (v : value) : bool :=
  match v with VNone => true | _ => false end.

(** Truthiness. *)
Definition truthy (v : value) : bool :=
  match v with
  | VNone => false
  | VBool b => b
  | VInt n => negb (n =? 0)
  | VStr [] => false
  | VStr (_ :: _) => true
  end.

(** [isinstance(v, int)]: [bool] is a subclass of [int]. *)
Definition isinstance_int (v : value) : bool :=
  match v with VInt _ | VBool _ => true | _ => false end.

(** The number an [int] (or [bool]) counts as. *)
Definition num (v : value) : Z :=
  match v with
  | VInt n => n
  | VBool true => 1
  | _ => 0
  end.

(** [v in l] for a list of integers. *)
Definition in_ints (v : value) (l : list Z) : bool :=
  isinstance_int v && existsb (Z.eqb (num v)) l.

(** [s in l] for a list of texts. *)
Definition in_words (s : bytes) (l : list bytes) : bool := existsb (Py.eqb s) l.

(** [f"{v}"]. *)
Definition fmt (v : value) : bytes :=
  match v with
  | VNone => B "None"
  | VBool true => B "True"
  | VBool false => B "False"
  | VInt n => Py.str n
  | VStr s => s
  end.

(** An optional text of the namespace as the session code uses it
    ([if args.pwd: .. f"..{args.pwd}.."]): its truth value, and its text
    when it is put into a frame. *)
Definition text (v : value) : option bytes :=
  match v with
  | VNone => None
  | VStr s => Some s
  | _ => if truthy v then Some (fmt v) else None
  end.

Definition is_digit (c : ascii) : bool :=
  match Py.digit_val c with Some _ => true | None => false end.

(** [int(s)] as the configuration code calls it. *)
Definition int (s : bytes) : option Z := Py.int s.

End Conf.

(** ** The server's configuration: [load_hierarchical_config], [validate_args] *)

Module ServerConf.
Import Conf.

(** [DEFAULT_CONFIG]; [win32] is [sys.platform == "win32"]. *)
Definition DEFAULT_CONFIG (win32 : bool) : config :=
  [ (B "port", VNone);
    (B "address", VStr (B "0.0.0.0"));
    (B "comport", VStr (if win32 then B "COM1" else B "/dev/ttyS0"));
    (B "baud", VInt 9600);
    (B "line", VStr (B "8N1N"));
    (B "keepalive", VInt 120);
    (B "secauto", VBool false);
    (B "sec", VNone);
    (B "pwd", VNone);
    (B "log", VNone);
    (B "logmax", VInt 10);
    (B "logsizemax", VInt 4096);
    (B "logdata", VNone);
    (B "logdatamax", VInt 10);
    (B "logdatasizemax", VInt 8192);
    (B "logbufferlines", VInt 2000);
    (B "transferbufferlines", VInt 2000);
    (B "color", VBool false);
    (B "mono", VBool false);
    (B "count", VBool false);
    (B "debug", VBool false);
    (B "showtransfer", VNone);
    (B "cfgfile", VNone);
    (B "notui", VBool false);
    (B "batch", VBool false);
    (B "namedpipe", VNone);
    (B "h", VBool false);
    (B "help", VBool false);
    (B "version", VBool false) ].

Definition int_keys : list bytes :=
  [B "port"; B "baud"; B "keepalive"; B "logmax"; B "logsizemax"; B "logdatamax";
   B "logdatasizemax"; B "logbufferlines"; B "transferbufferlines"].

(** A section of the configuration file as the loop reads it: the option
    names [k] it iterates over, each with what [section_data[k]] gives:
    the text of the option, or [None] when the lookup raises (the parser
    cannot interpolate a [%] in the text). *)
Definition section : Type := list (bytes * option bytes).

(** The value stored for [key] on the text [val0] of the file; [None]
    when the conversion fails and the configuration is left as it is. *)
Definition convert (win32 : bool) (key val0 : bytes) : option value :=
  let val :=
    if Py.contains (B "#") val0 then Py.strip (Py.split_hd (B "#") val0) else val0 in
  if in_words key int_keys then VInt <$> int val
  else
    match get (DEFAULT_CONFIG win32) key with
    | Some (VBool _) =>
        let v_lower := Py.lower (Py.strip val) in
        if in_words v_lower [B "true"; B "1"; B "yes"; B "on"] then Some (VBool true)
        else if in_words v_lower [B "false"; B "0"; B "no"; B "off"] then Some (VBool false)
        else None
    | Some (VInt _) => VInt <$> int val
    | _ => Some (VStr (Py.strip val))
    end.

(** The body of [for key in config] for one section: the first option of
    the section whose name matches [key], whatever the case, is used.
    [None] stands for the exception of the lookup [section_data[k]]. *)
Definition scan_key (win32 : bool) (sec : section) (entry : bytes * value)
  : option (bytes * value) :=
  let '(key, old) := entry in
  if Py.eqb key (B "showtransfer") then Some entry
  else
    match find (fun kv => Py.eqb (Py.lower (fst kv)) (Py.lower key)) sec with
    | Some (_, Some val0) => Some (key, default old (convert win32 key val0))
    | Some (_, None) => None
    | None => Some entry
    end.

(** [for key in config: ..] on one section, the options taken in the
    order of the configuration.  The flag tells that a lookup raised:
    the options before it are done, the others are left as they were. *)
Fixpoint scan_section (win32 : bool) (sec : section) (c : config) : config * bool :=
  match c with
  | [] => ([], false)
  | entry :: c' =>
      match scan_key win32 sec entry with
      | None => (entry :: c', true)
      | Some e => let '(c1, raised) := scan_section win32 sec c' in (e :: c1, raised)
      end
  end.

(** [for section_data in sections_to_scan: for key in config: ..], inside
    the [try] of the file: an exception ends the scan ([except Exception:
    pass]) and the sections after it are not read. *)
Fixpoint scan_sections (win32 : bool) (c : config) (sections : list section) : config :=
  match sections with
  | [] => c
  | sec :: rest =>
      let '(c1, raised) := scan_section win32 sec c in
      if raised then c1 else scan_sections win32 c1 rest
  end.

(** [for key, value in vars(cli_args).items(): if value is not None: config[key] = value]. *)
Definition override (c : config) (cli : config) : config :=
  fold_left (fun c kv => if is_none (snd kv) then c else set c (fst kv) (snd kv)) cli c.

(** [load_hierarchical_config]: the defaults, then the sections of the
    file named by [--cfgfile] (none when there is no such file), then the
    options given on the command line. *)
Definition load_hierarchical_config
    (win32 : bool) (sections : list section) (cli : config) : config :=
  override (scan_sections win32 (DEFAULT_CONFIG win32) sections) cli.

Definition valid_bauds : list Z :=
  [300; 600; 1200; 2400; 4800; 9600; 14400; 19200; 38400; 57600; 115200; 230400;
   460800; 921600].

(** [not isinstance(v, int) or v < n]. *)
Definition below (v : value) (n : Z) : bool := negb (isinstance_int v) || (num v <? n).

(** The test of the [--showtransfer] text in [validate_args]: whether it
    is rejected. *)
Definition bad_showtransfer (s : bytes) : bool :=
  let parts := Py.split (B ",") s in
  match parts with
  | [] => false
  | fmt :: rest =>
      if negb (in_words (Py.lower fmt) [B "ascii"; B "hex"]) then true
      else
        match rest with
        | [] => false
        | direction :: _ =>
            negb (in_words (Py.lower direction) [B "in"; B "out"; B "all"])
        end
  end.

(** [validate_args(args)]; [inet_aton s] tells whether
    [socket.inet_aton(s)] succeeds.  [None] stands for an exception the
    function does not catch (a truthy [address] or [showtransfer] that is
    no text). *)
Definition validate_args (inet_aton : bytes -> bool) (win32 : bool) (args : config)
  : option bool :=
  let port := attr args (B "port") in
  let address := attr args (B "address") in
  let line := attr args (B "line") in
  let showtransfer := attr args (B "showtransfer") in
  let has_comport := negb (is_none (attr args (B "comport"))) in
  let has_namedpipe := negb (is_none (attr args (B "namedpipe"))) in
  if is_none port then Some false
  else if negb (isinstance_int port) || (num port <=? 0) || (65535 <? num port)
  then Some false
  else
    match (if truthy address
           then match address with VStr s => Some (inet_aton s) | _ => None end
           else Some true) with
    | None => None
    | Some false => Some false
    | Some true =>
        if has_comport && has_namedpipe then Some false
        else if negb has_comport && negb has_namedpipe then Some false
        else if has_namedpipe && negb win32 then Some false
        else if negb (in_ints (attr args (B "baud")) valid_bauds) then Some false
        else
          match line with
          | VStr [data_bits; parity; stop_bits; flow] =>
              if negb (existsb (Ascii.eqb data_bits) (B "5678")) then Some false
              else if negb (existsb (Ascii.eqb parity) (B "NOEMS")) then Some false
              else if negb (existsb (Ascii.eqb stop_bits) (B "12")) then Some false
              else if negb (existsb (Ascii.eqb flow) (B "NXHR")) then Some false
              else if below (attr args (B "keepalive")) 0 then Some false
              else if truthy (attr args (B "secauto")) && truthy (attr args (B "sec"))
              then Some false
              else if below (attr args (B "logmax")) 1 then Some false
              else if below (attr args (B "logsizemax")) 1 then Some false
              else if below (attr args (B "logdatamax")) 1 then Some false
              else if below (attr args (B "logdatasizemax")) 1 then Some false
              else if below (attr args (B "logbufferlines")) 10 then Some false
              else if below (attr args (B "transferbufferlines")) 10 then Some false
              else
                match (if truthy showtransfer
                       then match showtransfer with
                            | VStr s => Some (bad_showtransfer s)
                            | _ => None
                            end
                       else Some false) with
                | None => None
                | Some true => Some false
                | Some false =>
                    if truthy (attr args (B "color")) && truthy (attr args (B "mono"))
                    then Some false
                    else Some true
                end
          | _ => Some false
          end
    end.

End ServerConf.

(** ** The bridge's configuration: [validate_args] *)

Module BridgeConf.
Import Conf.

(** [validate_args(args)]; [win32] is [sys.platform == "win32"]. *)
Definition validate_args (win32 WIN32_AVAILABLE : bool) (args : config) : bool :=
  let is_ask := attr args (B "ask") in
  let is_namedpipe := negb (is_none (attr args (B "namedpipe"))) in
  let has_comport := negb (is_none (attr args (B "comport"))) in
  let has_serial := has_comport || is_namedpipe in
  if negb (truthy (attr args (B "host")) && truthy (attr args (B "port")) && has_serial)
     && negb (truthy is_ask)
  then false
  else if truthy is_ask &&
          negb (truthy (attr args (B "host")) && truthy (attr args (B "port")))
  then false
  else if (truthy (attr args (B "secauto")) || truthy (attr args (B "sec")))
          && negb (truthy (attr args (B "pwd")))
  then false
  else if is_namedpipe && negb win32 then false
  else if is_namedpipe && win32 && negb WIN32_AVAILABLE then false
  else true.

(** The options [SerialBridgeNode] reads, taken from the namespace. *)
Definition session_args (args : config) : Bridge.Args :=
  {| Bridge.pwd := text (attr args (B "pwd"));
     Bridge.secauto := truthy (attr args (B "secauto"));
     Bridge.sec := text (attr args (B "sec"));
     Bridge.comport := fmt (attr args (B "comport"));
     Bridge.namedpipe :=
       (if is_none (attr args (B "namedpipe")) then None
        else Some (fmt (attr args (B "namedpipe"))));
     Bridge.baud := num (attr args (B "baud"));
     Bridge.line := fmt (attr args (B "line"));
     Bridge.keepalive := num (attr args (B "keepalive"));
     Bridge.debug := truthy (attr args (B "debug")) |}.

End BridgeConf.

(** ** The client's configuration file and keys: [read_config_file],
    [parse_args], [_convert_windows_key] *)

Module ClientConf.
Import Conf.

(** [key, value = line.split('=', 1)], for a line that holds [=]; [None]
    when it holds none. *)
Fixpoint split1 (line : bytes) : option (bytes * bytes) :=
  match line with
  | [] => None
  | c :: line' =>
      if Ascii.eqb c "=" then Some ([], line')
      else (fun kv => (c :: fst kv, snd kv)) <$> split1 line'
  end.

(** [s.endswith(p)]. *)
Definition ends_with (p s : bytes) : bool := Py.starts_with (rev p) (rev s).

(** The removal of a pair of quotes around the value. *)
Definition unquote (value : bytes) : bytes :=
  if (Py.starts_with ["034"%char] value && ends_with ["034"%char] value) ||
     (Py.starts_with ["039"%char] value && ends_with ["039"%char] value)
  then Py.slice value 1 (-1)
  else value.

(** [value.isdigit()] on 8-bit characters: the decimal digits and the
    superscripts two, three and one of Latin-1. *)
Definition isdigit_char (c : ascii) : bool :=
  let n := nat_of_ascii c in
  ((48 <=? n) && (n <=? 57) || (n =? 178) || (n =? 179) || (n =? 185))%nat.

Definition isdigit (value : bytes) : bool :=
  match value with
  | [] => false
  | _ :: _ => forallb isdigit_char value
  end.

(** The conversion of a value; [None] stands for the [ValueError] of
    [int], on which [read_config_file] ends the program. *)
Definition parse_value (value : bytes) : option Conf.value :=
  let v := Py.lower value in
  if in_words v [B "true"; B "yes"; B "on"; B "1"] then Some (VBool true)
  else if in_words v [B "false"; B "no"; B "off"; B "0"] then Some (VBool false)
  else if isdigit value then VInt <$> int value
  else Some (VStr value).

(** The body of [for line in f]. *)
Definition read_line (cfg : config) (line0 : bytes) : option config :=
  let line := Py.strip line0 in
  match line with
  | [] => Some cfg
  | _ :: _ =>
      if Py.starts_with (B "#") line then Some cfg
      else
        match split1 line with
        | None => Some cfg
        | Some (k, v) =>
            let key := Py.strip k in
            let value := unquote (Py.strip v) in
            (fun x => set cfg key x) <$> parse_value value
        end
  end.

(** [read_config_file] on the lines of the file; [None] stands for
    [sys.exit(1)]. *)
Fixpoint read_lines (cfg : config) (lines : list bytes) : option config :=
  match lines with
  | [] => Some cfg
  | l :: lines' => read_line cfg l ≫= fun c => read_lines c lines'
  end.

Definition read_config_file (lines : list bytes) : option config := read_lines [] lines.

(** [args.pwd] after [parse_args]: the text of [--pwd] when it is given,
    else [config.get('pwd')]. *)
Definition pwd_arg (cli_pwd : option bytes) (cfg : config) : value :=
  match cli_pwd with
  | Some s => VStr s
  | None => attr cfg (B "pwd")
  end.

(** The options [SoEClient] reads, taken from the namespace. *)
Definition session_args (pwd keepalive : value) : Client.Args :=
  {| Client.pwd := text pwd; Client.keepalive := num keepalive |}.

(** [key_map] of [_convert_windows_key]. *)
Definition ESC : ascii := "027"%char.

Definition key_map : list (nat * bytes) :=
  [ (72, ESC :: B "[A"); (80, ESC :: B "[B"); (75, ESC :: B "[D"); (77, ESC :: B "[C");
    (71, ESC :: B "[H"); (79, ESC :: B "[F");
    (82, ESC :: B "[2~"); (83, ESC :: B "[3~");
    (73, ESC :: B "[5~"); (81, ESC :: B "[6~");
    (59, ESC :: B "OP"); (60, ESC :: B "OQ"); (61, ESC :: B "OR"); (62, ESC :: B "OS");
    (63, ESC :: B "[15~"); (64, ESC :: B "[17~"); (65, ESC :: B "[18~");
    (66, ESC :: B "[19~"); (67, ESC :: B "[20~"); (68, ESC :: B "[21~") ]%nat.

(** [key_map.get(key_code, key)]. *)
Fixpoint map_get (m : list (nat * bytes)) (key_code : nat) (key : bytes) : bytes :=
  match m with
  | [] => key
  | (k, v) :: m' => if (k =? key_code)%nat then v else map_get m' key_code key
  end.

Definition _convert_windows_key (key : bytes) : bytes :=
  match key with
  | [prefix; key_code] =>
      if (nat_of_ascii prefix =? 0)%nat || (nat_of_ascii prefix =? 224)%nat
      then map_get key_map (nat_of_ascii key_code) key
      else key
  | _ => key
  end.

(** The Windows branch of [_send_thread] for one key press: [char] is the
    byte of the first [getch()], [char2] that of the second, read only
    after a prefix byte. *)
Definition send_key_win (char char2 : ascii) (c : Client.client)
  : Client.client * list Client.effect :=
  let key :=
    if (nat_of_ascii char =? 0)%nat || (nat_of_ascii char =? 224)%nat
    then _convert_windows_key [char; char2]
    else [char] in
  Client._send_thread key c.

End ClientConf.

(** ** The bridge's windows: [_sanitize_for_tui], [log], [log_transfer],
    [_kb_handler], [draw_buffer] *)

Module BridgeUi.

(** The classes of the pattern [\x1b\[[0-9;?]*[a-zA-Z]]. *)
Definition is_param (c : ascii) : bool :=
  let n := nat_of_ascii c in
  ((48 <=? n) && (n <=? 57) || (n =? 59) || (n =? 63))%nat.

Definition is_letter (c : ascii) : bool :=
  let n := nat_of_ascii c in
  ((97 <=? n) && (n <=? 122) || (65 <=? n) && (n <=? 90))%nat.

(** Length of the match of [[0-9;?]*[a-zA-Z]] at the start of [s]: the
    two classes are disjoint, so the run of parameters is taken whole. *)
Fixpoint csi_end (s : bytes) : option nat :=
  match s with
  | [] => None
  | c :: s' =>
      if is_param c then S <$> csi_end s'
      else if is_letter c then Some 1%nat
      else None
  end.

(** The pattern [\x1b\[[0-9;?]*[a-zA-Z]]. *)
Definition csi (s : bytes) : option nat :=
  match s with
  | e :: b :: s' =>
      if Ascii.eqb e "027" && Ascii.eqb b "[" then (fun n => 2 + n)%nat <$> csi_end s'
      else None
  | _ => None
  end.

(** [text.replace('\n', ' ').replace('\r', '').replace('\t', '    ')]. *)
Definition replace_formatting (text : bytes) : bytes :=
  flat_map (fun c => if Ascii.eqb c "009" then B "    " else [c])
    (flat_map (fun c => if Ascii.eqb c "013" then [] else [c])
       (map (fun c => if Ascii.eqb c "010" then " "%char else c) text)).

(** [''.join(ch for ch in text if ord(ch) >= 32)]. *)
Definition printable (c : ascii) : bool := (32 <=? nat_of_ascii c)%nat.

(** [_sanitize_for_tui] on a [str] argument, its characters taken as
    8-bit codes. *)
Definition _sanitize_for_tui (text : bytes) : bytes :=
  flat_map (fun c => if printable c then [c] else [])
    (replace_formatting (Py.re_sub csi text)).

(** The fields of [args] the windows read. *)
Record Args := {
  debug : bool;
  batch : bool;
  notui : bool;
  showtransfer : option bytes;
  logbufferlines : Z;
  transferbufferlines : Z
}.

(** The fields of [SerialBridgeNode] the windows use. *)
Record ui := {
  log_buffer : list bytes;
  transfer_buffer : list bytes;
  active_window : Z;
  scroll_offsets : list Z;
  tm_format : bytes;
  tm_direction : bytes
}.

Definition set_log_buffer (u : ui) (v : list bytes) : ui :=
  {| log_buffer := v; transfer_buffer := transfer_buffer u;
     active_window := active_window u; scroll_offsets := scroll_offsets u;
     tm_format := tm_format u; tm_direction := tm_direction u |}.

Definition set_transfer_buffer (u : ui) (v : list bytes) : ui :=
  {| log_buffer := log_buffer u; transfer_buffer := v;
     active_window := active_window u; scroll_offsets := scroll_offsets u;
     tm_format := tm_format u; tm_direction := tm_direction u |}.

Definition set_active_window (u : ui) (v : Z) : ui :=
  {| log_buffer := log_buffer u; transfer_buffer := transfer_buffer u;
     active_window := v; scroll_offsets := scroll_offsets u;
     tm_format := tm_format u; tm_direction := tm_direction u |}.

Definition offset (u : ui) (i : Z) : Z := default 0 (scroll_offsets u !! Z.to_nat i).

Definition set_offset (u : ui) (i v : Z) : ui :=
  {| log_buffer := log_buffer u; transfer_buffer := transfer_buffer u;
     active_window := active_window u;
     scroll_offsets := <[Z.to_nat i := v]> (scroll_offsets u);
     tm_format := tm_format u; tm_direction := tm_direction u |}.

(** The fields as [__init__] sets them, [_parse_showtransfer] included. *)
Definition init (a : Args) : ui :=
  let parts :=
    match showtransfer a with
    | Some (c :: v) => Py.split (B ",") (c :: v)
    | _ => []
    end in
  {| log_buffer := []; transfer_buffer := []; active_window := 0;
     scroll_offsets := [0; 0];
     tm_format := match parts !! 0%nat with Some p => Py.lower p | None => B "ascii" end;
     tm_direction := match parts !! 1%nat with Some p => Py.lower p | None => B "all" end |}.

(** [log] on the formatted line [line]: what it does to the buffer. *)
Definition log (a : Args) (line : bytes) (is_debug : bool) (u : ui) : ui :=
  if is_debug && negb (debug a) then u
  else set_log_buffer u (ServerUi.push (logbufferlines a) (log_buffer u) line).

(** [log_transfer] on the formatted line [full_msg]. *)
Definition log_transfer (a : Args) (direction full_msg : bytes) (u : ui) : ui :=
  if negb (Py.truthy (showtransfer a)) then u
  else if negb (Py.eqb (tm_direction u) (B "all")) &&
          negb (Py.eqb (Py.lower direction) (tm_direction u))
  then u
  else set_transfer_buffer u
         (ServerUi.push (transferbufferlines a) (transfer_buffer u) full_msg).

(** One turn of the loop of [_kb_handler] on the key [key] (the thread
    ends at once with [--batch] or [--notui]); CTRL-C goes to
    [signal_handler], which leaves the windows alone. *)
Definition _kb_handler (a : Args) (key : bytes) (u : ui) : ui :=
  if batch a || notui a then u
  else
    match key with
    | [] => u
    | _ :: _ =>
        if Py.eqb key ServerUi.key_tab && Py.truthy (showtransfer a)
        then set_active_window u (1 - active_window u)
        else if Py.eqb key ServerUi.key_up_win || Py.eqb key ServerUi.key_up then
          let idx := active_window u in
          let buf_len :=
            Z.of_nat (length (if idx =? 0 then log_buffer u else transfer_buffer u)) in
          set_offset u idx (Z.min (offset u idx + 1) (Z.max 0 (buf_len - 1)))
        else if Py.eqb key ServerUi.key_down_win || Py.eqb key ServerUi.key_down then
          let idx := active_window u in
          set_offset u idx (Z.max 0 (offset u idx - 1))
        else u
    end.

(** The rows [draw_buffer] writes on a terminal of [cols] columns, top
    to bottom: [None] for a row that is only cleared, else whether the
    row carries the marker [>] and the text written after it. *)
Definition draw_buffer (cols : Z) (buffer : list bytes) (height offset : Z)
  : list (option (bool * bytes)) :=
  let cols1 := Z.max 1 (cols - 1) in
  let end_idx := Z.of_nat (length buffer) - offset in
  let start_idx := Z.max 0 (end_idx - height) in
  let display_lines := Py.slice buffer start_idx end_idx in
  let max_content_len := Z.max 0 (cols1 - 2) in
  map (fun i =>
         let line_idx := Z.of_nat i - (height - Z.of_nat (length display_lines)) in
         if 0 <=? line_idx then
           match display_lines !! Z.to_nat line_idx with
           | Some line =>
               let is_last_visible :=
                 (line_idx =? Z.of_nat (length display_lines) - 1) && (offset =? 0) in
               Some (is_last_visible, Py.slice line 0 max_content_len)
           | None => None
           end
         else None)
      (seq 0 (Z.to_nat height)).

(** What happens to the windows. *)
Inductive event :=
  | Key (key : bytes)
  | Log (line : bytes) (is_debug : bool)
  | Transfer (direction full_msg : bytes).

Definition step (a : Args) (u : ui) (e : event) : ui :=
  match e with
  | Key key => _kb_handler a key u
  | Log l d => log a l d u
  | Transfer dir m => log_transfer a dir m u
  end.

Definition run (a : Args) (u : ui) (evs : list event) : ui := fold_left (step a) evs u.

(** The scroll offsets are in range: there are two, and neither scrolls
    further back than to the first line of its buffer. *)
Definition in_range (u : ui) : Prop :=
  (active_window u = 0 \/ active_window u = 1) /\
  exists o0 o1, scroll_offsets u = [o0; o1] /\
    0 <= o0 <= Z.max 0 (Z.of_nat (length (log_buffer u)) - 1) /\
    0 <= o1 <= Z.max 0 (Z.of_nat (length (transfer_buffer u)) - 1).

End BridgeUi.

(** ** Concrete configurations used in the examples below *)

Module Ex.

(** A server with the password [secret] on port [SRV-A], 9600 8N1N. *)
Definition srv_args : Server.Args :=
  {| Server.pwd := Some (B "secret"); Server.comport := B "SRV-A";
     Server.baud := 9600; Server.line := B "8N1N"; Server.keepalive := 120 |}.

(** The server right after it accepted its first connection. *)
Definition accepted : Server.srv := fst (Server.main_accept srv_args Server.init).

(** The same session once the peer, a bridge, has sent the password. *)
Definition authorized_bridge : Server.srv :=
  fst (Server.run srv_args accepted
         [Server.Recv (B "__#BR_VER_0.0.70#__"); Server.Recv (B "__#PWD_secret#__")]).

(** A bridge on port [BR-A] with the password [secret], TLS off. *)
Definition br_args : Bridge.Args :=
  {| Bridge.pwd := Some (B "secret"); Bridge.secauto := false; Bridge.sec := None;
     Bridge.comport := B "BR-A"; Bridge.namedpipe := None; Bridge.baud := 9600;
     Bridge.line := B "8N1N"; Bridge.keepalive := 30; Bridge.debug := false |}.

(** The same bridge with [--secauto]. *)
Definition br_args_tls : Bridge.Args :=
  {| Bridge.pwd := Some (B "secret"); Bridge.secauto := true; Bridge.sec := None;
     Bridge.comport := B "BR-A"; Bridge.namedpipe := None; Bridge.baud := 9600;
     Bridge.line := B "8N1N"; Bridge.keepalive := 30; Bridge.debug := false |}.

(** The bridge once the server's [COM_PARAMS] frame has arrived. *)
Definition br_ready : Bridge.node :=
  Bridge.set_params (fst (Bridge.run_setup br_args Bridge.init)) (B "SRV-A 9600 8N1N").

Definition cl_args : Client.Args :=
  {| Client.pwd := Some (B "secret"); Client.keepalive := 30 |}.

(** A bridge with [--sec] and a text that names no key file. *)
Definition br_args_nokey : Bridge.Args :=
  {| Bridge.pwd := Some (B "secret"); Bridge.secauto := false;
     Bridge.sec := Some (B "nocomma");
     Bridge.comport := B "BR-A"; Bridge.namedpipe := None; Bridge.baud := 9600;
     Bridge.line := B "8N1N"; Bridge.keepalive := 30; Bridge.debug := false |}.

(** Surroundings in which every step of the bridge's set-up succeeds. *)
Definition br_env : Bridge.env :=
  {| Bridge.win32 := false; Bridge.WIN32_AVAILABLE := false; Bridge.port_opens := true;
     Bridge.connects := true; Bridge.cert_loads := fun _ _ => true;
     Bridge.handshake := true |}.

End Ex.

(** * Properties *)

(** ** The text primitives on examples *)

Example split_ex1 : Py.split (B "__#") (B "A__#GETVER#__B__#KEEPALIVE#__C")
                    = [B "A"; B "GETVER#__B"; B "KEEPALIVE#__C"].
Proof. reflexivity. Qed.

Example split_ex2 : Py.split (B ",") (B "a,,b,") = [B "a"; []; B "b"; []].
Proof. reflexivity. Qed.

Example split_ex3 : Py.split (B "aa") (B "aaa") = [[]; B "a"].
Proof. reflexivity. Qed.

Example int_ex1 : Py.int (B " 12_0 ") = Some 120.
Proof. reflexivity. Qed.

Example int_ex2 : Py.int (B "1__2") = None /\ Py.int (B "-7") = Some (-7) /\ Py.int ([]) = None.
Proof. repeat split; reflexivity. Qed.

Example re_sub_ex1 :
  Py.re_sub Py.frame_nohash (B "A__#GETVER#__B__#KEEPALIVE#__C") = B "ABC"
  /\ Py.re_sub Py.frame_nohash (B "x__#PWD_a#b#__y") = B "x__#PWD_a#b#__y"
  /\ Py.re_sub Py.frame_nohash (B "A__#GET") = B "A__#GET"
  /\ Py.re_sub Py.frame_lazy (B "x__#PWD_a#b#__y__#K#__") = B "xy".
Proof. repeat split; reflexivity. Qed.

Example str_ex1 : Py.str 9600 = B "9600" /\ Py.str 0 = B "0" /\ Py.str (-3) = B "-3".
Proof. repeat split; reflexivity. Qed.

Example commands_are_frames :
  GETVER_CMD = frame (B "GETVER") /\ KEEPALIVE_CMD = frame (B "KEEPALIVE") /\
  ASK_CMD = frame (B "ASK_COM_PARAMS") /\ DISCONNECT_CMD = frame (B "DISCONNECT") /\
  GET_KA_TIMEOUT_CMD = frame (B "GET_KA_TIMEOUT") /\ BAD_PWD_MSG = frame (B "BADPWD").
Proof. repeat split; reflexivity. Qed.

(** ** Facts about the text primitives *)

#[local] Arguments Ascii.eqb : simpl never.

Section PyFacts.

Lemma eqb_eq (x y : bytes) : Py.eqb x y = true <-> x = y.
Proof.
  revert y. induction x as [|c x IH]; intros [|d y]; simpl; split; try easy.
  - intros H. apply andb_true_iff in H as [Hc Hx].
    apply Ascii.eqb_eq in Hc. apply IH in Hx. congruence.
  - intros H. injection H as -> ->. apply andb_true_iff. split.
    + apply Ascii.eqb_refl.
    + now apply IH.
Qed.

Lemma starts_with_app (p s t : bytes) :
  Py.starts_with p s = true -> Py.starts_with p (s ++ t) = true.
Proof.
  revert s. induction p as [|c p IH]; intros [|d s]; simpl; try easy.
  intros H. apply andb_true_iff in H as [Hc Hs].
  rewrite Hc. simpl. now apply IH.
Qed.

Lemma starts_with_prefix (p r s : bytes) :
  Py.starts_with (p ++ r) s = true -> Py.starts_with p s = true.
Proof.
  revert s. induction p as [|c p IH]; intros [|d s]; simpl; try easy.
  intros H. apply andb_true_iff in H as [Hc Hs].
  rewrite Hc. simpl. now apply IH with (s := s).
Qed.

Lemma starts_with_self (p t : bytes) : Py.starts_with p (p ++ t) = true.
Proof.
  induction p as [|c p IH]; simpl; [easy|].
  now rewrite Ascii.eqb_refl.
Qed.

(** A text that starts with [p ++ r] holds [r] right after [p]. *)
Lemma starts_with_drop (p r s : bytes) :
  Py.starts_with (p ++ r) s = true -> Py.starts_with r (drop (length p) s) = true.
Proof.
  revert s. induction p as [|c p IH]; intros s; simpl.
  - now rewrite drop_0.
  - destruct s as [|d s]; [easy|]. intros H.
    apply andb_true_iff in H as [_ Hs]. now apply IH.
Qed.

Lemma contains_app_l (p s t : bytes) :
  Py.contains p s = true -> Py.contains p (s ++ t) = true.
Proof.
  induction s as [|d s IH]; simpl.
  - rewrite orb_false_r. intros H.
    destruct p; [now destruct t|]. easy.
  - intros H. apply orb_true_iff in H as [H|H].
    + apply (starts_with_app _ _ t) in H. simpl in H. now rewrite H.
    + rewrite (IH H). apply orb_true_r.
Qed.

Lemma contains_app_r (p s t : bytes) :
  Py.contains p t = true -> Py.contains p (s ++ t) = true.
Proof.
  induction s as [|d s IH]; simpl; [easy|].
  intros H. rewrite (IH H). apply orb_true_r.
Qed.

Lemma contains_drop (p s : bytes) (k : nat) :
  Py.contains p (drop k s) = true -> Py.contains p s = true.
Proof.
  revert s. induction k as [|k IH]; intros s; [now rewrite drop_0|].
  destruct s as [|d s]; simpl; [easy|].
  intros H. rewrite (IH _ H). apply orb_true_r.
Qed.

(** A text that holds [p ++ r] holds [p] and holds [r]. *)
Lemma contains_prefix (p r s : bytes) :
  Py.contains (p ++ r) s = true -> Py.contains p s = true.
Proof.
  induction s as [|d s IH]; simpl.
  - rewrite !orb_false_r. apply starts_with_prefix.
  - intros H. apply orb_true_iff in H as [H|H].
    + apply starts_with_prefix in H. simpl in H. now rewrite H.
    + rewrite (IH H). apply orb_true_r.
Qed.

Lemma contains_suffix (p r s : bytes) :
  Py.contains (p ++ r) s = true -> Py.contains r s = true.
Proof.
  induction s as [|d s IH].
  - simpl. rewrite !orb_false_r. intros H.
    apply starts_with_drop in H. now destruct p, r.
  - intros H. change (Py.starts_with (p ++ r) (d :: s) || Py.contains (p ++ r) s = true) in H.
    apply orb_true_iff in H as [H|H].
    + apply starts_with_drop in H.
      apply contains_drop with (k := length p).
      destruct (drop (length p) (d :: s)); simpl; now rewrite H.
    + change (Py.starts_with r (d :: s) || Py.contains r s = true).
      rewrite (IH H). apply orb_true_r.
Qed.

Lemma contains_false_app_l (p s t : bytes) :
  Py.contains p (s ++ t) = false -> Py.contains p s = false.
Proof.
  intros H. destruct (Py.contains p s) eqn:E; [|easy].
  apply (contains_app_l _ _ t) in E. congruence.
Qed.

(** [split] always yields a first piece. *)
Lemma split_go_nonempty (sep s : bytes) (k : nat) (cur : bytes) :
  Py.split_go sep s k cur <> [].
Proof.
  revert k cur. induction s as [|c s IH]; intros k cur; simpl; [easy|].
  destruct k; [|apply IH].
  destruct (Py.starts_with sep (c :: s)); [easy|apply IH].
Qed.

(** A separator that occurs gives a second piece: [s.split(sep)[1]] does
    not raise. *)
Lemma split_go_second (sep s cur : bytes) :
  sep <> [] -> Py.contains sep s = true ->
  exists p q rest, Py.split_go sep s O cur = p :: q :: rest.
Proof.
  intros Hsep. revert cur. induction s as [|c s IH]; intros cur H.
  - simpl in H. rewrite orb_false_r in H. destruct sep; easy.
  - change (Py.starts_with sep (c :: s) || Py.contains sep s = true) in H.
    simpl Py.split_go.
    destruct (Py.starts_with sep (c :: s)) eqn:E.
    + pose proof (split_go_nonempty sep s (Nat.pred (length sep)) []) as Hne.
      destruct (Py.split_go sep s (Nat.pred (length sep)) []) as [|q rest]; [easy|].
      now exists (rev cur), q, rest.
    + simpl in H. now apply IH.
Qed.

Lemma split_nth_1 (sep s : bytes) :
  sep <> [] -> Py.contains sep s = true -> is_Some (Py.split_nth sep s 1).
Proof.
  intros Hsep H. destruct (split_go_second sep s [] Hsep H) as (p & q & rest & E).
  unfold Py.split_nth, Py.split. rewrite E. now exists q.
Qed.

(** The first piece of a split at [#] holds no [#]. *)
Lemma split_go_hash_first (s cur : bytes) (x : ascii) :
  In x (hd [] (Py.split_go (B "#") s O cur)) -> In x cur \/ x <> "#"%char.
Proof.
  revert cur. induction s as [|c s IH]; intros cur; simpl.
  - intros H. left. now apply in_rev.
  - destruct (Ascii.eqb "#" c) eqn:E; simpl.
    + intros H. left. now apply in_rev.
    + intros H. apply IH in H as [[->|H]|H]; auto.
      right. intros ->. now rewrite Ascii.eqb_refl in E.
Qed.

(** The first piece of a split starts with what was collected so far. *)
Lemma split_go_first_cur (sep s cur : bytes) :
  hd [] (Py.split_go sep s O cur) = rev cur ++ hd [] (Py.split_go sep s O []).
Proof.
  revert cur. induction s as [|c s IH]; intros cur; cbn [Py.split_go].
  - cbn. now rewrite app_nil_r.
  - destruct (Py.starts_with sep (c :: s)).
    + cbn. now rewrite app_nil_r.
    + rewrite (IH (c :: cur)), (IH [c]). cbn [rev app]. now rewrite <- app_assoc.
Qed.

(** Passing over the rest of a matched separator. *)
Lemma split_go_skip (sep pre t cur : bytes) :
  Py.split_go sep (pre ++ t) (length pre) cur = Py.split_go sep t O cur.
Proof.
  induction pre as [|c pre IH]; cbn [app length Py.split_go]; [|exact IH].
  now destruct t.
Qed.

(** A text that starts with the separator: an empty first piece, then the
    split of the rest. *)
Lemma split_at_front (sep t : bytes) :
  sep <> [] -> Py.split sep (sep ++ t) = [] :: Py.split sep t.
Proof.
  intros Hsep. unfold Py.split. destruct sep as [|c sep]; [easy|].
  cbn [app Py.split_go]. change (c :: sep ++ t) with ((c :: sep) ++ t).
  rewrite starts_with_self. cbn [length Nat.pred rev].
  now rewrite split_go_skip.
Qed.

(** The first piece of a split at [#] of a text without [#] followed by
    [#] is that text. *)
Lemma split_hash_first (u v cur : bytes) :
  ~ In "#"%char u ->
  hd [] (Py.split_go (B "#") (u ++ "#"%char :: v) O cur) = rev cur ++ u.
Proof.
  change (B "#") with ["#"%char].
  revert cur. induction u as [|c u IH]; intros cur Hu.
  - cbn [app Py.split_go Py.starts_with].
    rewrite Ascii.eqb_refl. cbn. now rewrite app_nil_r.
  - cbn [app Py.split_go Py.starts_with].
    destruct (Ascii.eqb_spec "#" c) as [<-|Hc]; [now destruct Hu; left|].
    cbn [andb]. rewrite (IH (c :: cur)); [|intros H; apply Hu; now right].
    cbn [rev]. now rewrite <- app_assoc.
Qed.

End PyFacts.

(** ** Tokens behind other text, and numbers as text *)

Section TokenFacts.

Lemma starts_with_contains (p s : bytes) :
  Py.starts_with p s = true -> Py.contains p s = true.
Proof. intros H. destruct s; cbn [Py.contains]; now rewrite H. Qed.







End TokenFacts.

Section NumberFacts.

(** [str(n)] is made of decimal digits and, for a negative number, a
    leading minus sign. *)
Lemma uint_chars (d : Decimal.uint) (c : ascii) :
  In c (list_ascii_of_string (NilEmpty.string_of_uint d)) -> In c (B "0123456789").
Proof.
  induction d; cbn [NilEmpty.string_of_uint list_ascii_of_string];
    try (intros [<-|H]; [cbn; tauto|now apply IHd]).
  intros [].
Qed.

Lemma str_chars (n : Z) (c : ascii) : In c (Py.str n) -> In c (B "-0123456789").
Proof.
  unfold Py.str, B, NilZero.string_of_int.
  destruct (Z.to_int n) as [d|d].
  - unfold NilZero.string_of_uint. destruct d;
      try (intros H; apply uint_chars in H; now right).
    cbn. tauto.
  - cbn [list_ascii_of_string]. intros [<-|H]; [now left|].
    unfold NilZero.string_of_uint in H. destruct d;
      try (apply uint_chars in H; now right).
    cbn in H. cbn. tauto.
Qed.

Lemma str_no_hash (n : Z) : ~ In "#"%char (Py.str n).
Proof. intros H. apply str_chars in H. cbn in H. intuition discriminate. Qed.

Lemma str_no_newline (n : Z) : ~ In "010"%char (Py.str n).
Proof. intros H. apply str_chars in H. cbn in H. intuition discriminate. Qed.










End NumberFacts.

(** ** Facts about the server's receive loop *)

Module ServerFacts.
Import Server.

Lemma frame_ok_refl s : frame_ok s s.
Proof. now repeat split. Qed.

Lemma frame_ok_trans s1 s2 s3 : frame_ok s1 s2 -> frame_ok s2 s3 -> frame_ok s1 s3.
Proof. unfold frame_ok. intuition congruence. Qed.

Lemma serial_written_app o1 o2 :
  serial_written (o1 ++ o2) = serial_written o1 ++ serial_written o2.
Proof. unfold serial_written. now rewrite flat_map_app. Qed.

Lemma relayed_app o1 o2 : relayed (o1 ++ o2) = relayed o1 ++ relayed o2.
Proof. unfold relayed. now rewrite flat_map_app. Qed.

Lemma no_data_app o1 o2 : no_data o1 -> no_data o2 -> no_data (o1 ++ o2).
Proof.
  intros [H1 H2] [H3 H4]. split.
  - rewrite serial_written_app, H1, H3. reflexivity.
  - rewrite relayed_app, H2, H4. reflexivity.
Qed.

Lemma no_data_nil : no_data [].
Proof. now split. Qed.

Lemma andthen_assoc (f g h : srv -> step) s :
  ((f >> g) >> h) s = (f >> (g >> h)) s.
Proof.
  unfold andthen. destruct (f s) as [[s1 o1] [|]]; [|reflexivity].
  destruct (g s1) as [[s2 o2] [|]]; [|reflexivity].
  destruct (h s2) as [[s3 o3] f3]. now rewrite app_assoc.
Qed.

Lemma benign_andthen a f g : benign a f -> benign a g -> benign a (f >> g).
Proof.
  intros Hf Hg s. unfold andthen.
  destruct (Hf s) as (s1 & o1 & -> & F1 & D1 & A1).
  destruct (Hg s1) as (s2 & o2 & -> & F2 & D2 & A2).
  exists s2, (o1 ++ o2). repeat split; try apply (frame_ok_trans _ _ _ F1 F2).
  - apply no_data_app; [apply D1|apply D2].
  - apply no_data_app; [apply D1|apply D2].
  - intros Hp. rewrite (A2 Hp). now apply A1.
Qed.

Lemma benign_keepalive a data : benign a (on_keepalive data).
Proof.
  intros s. unfold on_keepalive. destruct (Py.contains _ _);
    eexists _, _; (split; [reflexivity|]); repeat split.
Qed.

Lemma benign_getver a data : benign a (on_getver data).
Proof.
  intros s. unfold on_getver. destruct (Py.contains _ _);
    eexists _, _; (split; [reflexivity|]); repeat split.
Qed.

Lemma benign_get_ka a data : benign a (on_get_ka a data).
Proof.
  intros s. unfold on_get_ka. destruct (Py.contains _ _);
    eexists _, _; (split; [reflexivity|]); repeat split.
Qed.

Lemma benign_ask a data : benign a (on_ask a data).
Proof.
  intros s. unfold on_ask. destruct (Py.contains _ _);
    eexists _, _; (split; [reflexivity|]); repeat split.
Qed.

Lemma benign_com_params a data : benign a (on_com_params data).
Proof.
  intros s. unfold on_com_params. destruct (Py.contains _ _);
    [destruct (Py.split_nth _ _ _)|];
    eexists _, _; (split; [reflexivity|]); repeat split.
Qed.

(** The loop over the parts of the data keeps the invariant of [benign]. *)
Lemma on_version_parts a parts s out raised :
  no_data out ->
  exists s' out' raised',
    fold_left (on_version_part a) parts (s, out, raised) = (s', out', raised') /\
    frame_ok s s' /\ no_data out' /\
    (Py.truthy (pwd a) = true -> authorized s' = authorized s).
Proof.
  revert s out raised. induction parts as [|part parts IH]; intros s out raised D.
  - exists s, out, raised. repeat split; apply D.
  - cbn [fold_left].
    assert (exists s1 out1 raised1,
      on_version_part a (s, out, raised) part = (s1, out1, raised1) /\
      frame_ok s s1 /\ no_data out1 /\
      (Py.truthy (pwd a) = true -> authorized s1 = authorized s)) as (s1 & o1 & r1 & -> & F1 & D1 & A1).
    { unfold on_version_part. destruct raised.
      { exists s, out, true. repeat split; apply D. }
      destruct (_ || _).
      2:{ exists s, out, false. repeat split; apply D. }
      destruct (Py.split_nth _ _ _).
      2:{ eexists _, _, _. split; [reflexivity|]. repeat split; apply D. }
      destruct (Py.truthy (pwd a)); cbn [negb].
      { eexists _, _, _. split; [reflexivity|].
        split; [now repeat split|]. split; [|reflexivity].
        apply no_data_app; [exact D|now split]. }
      destruct (Py.eqb _ _); eexists _, _, _; (split; [reflexivity|]);
        (split; [now repeat split|]); (split; [|easy]);
        repeat (apply no_data_app; [|now split]); exact D. }
    destruct (IH s1 o1 r1 D1) as (s2 & o2 & r2 & -> & F2 & D2 & A2).
    exists s2, o2, r2. repeat split; try apply (frame_ok_trans _ _ _ F1 F2); try apply D2.
    intros Hp. rewrite (A2 Hp). now apply A1.
Qed.

Lemma benign_version a data : benign a (on_version a data).
Proof.
  intros s. unfold on_version. destruct (Py.contains _ _).
  - destruct (on_version_parts a (Py.split (B "__#") data) s [Seen VERSION] false)
      as (s1 & o1 & r1 & -> & F & D & A); [now split|].
    now exists s1, o1.
  - exists s, []. repeat split.
Qed.

Lemma benign_replies a data : benign a (replies a data).
Proof.
  unfold replies.
  repeat (apply benign_andthen;
          [first [apply benign_keepalive|apply benign_version|apply benign_getver
                 |apply benign_get_ka|apply benign_ask]|]).
  apply benign_com_params.
Qed.

Lemma andthen_ext (f g g' : srv -> step) :
  (forall s, g s = g' s) -> forall s, (f >> g) s = (f >> g') s.
Proof.
  intros H s. unfold andthen. destruct (f s) as [[s1 o1] [|]]; [|reflexivity].
  now rewrite H.
Qed.

Lemma control_branch_replies a data s :
  control_branch a data s = (replies a data >> on_pwd a data >> on_disconnect data) s.
Proof.
  unfold control_branch, replies. revert s.
  do 5 (intros s; rewrite andthen_assoc; revert s; apply andthen_ext).
  reflexivity.
Qed.

End ServerFacts.

Example authorized_bridge_state :
  Server.authorized Ex.authorized_bridge = true
  /\ Server.client_type Ex.authorized_bridge = B "BR"
  /\ Server.client_active Ex.authorized_bridge = true
  /\ Server.packet_buffer Ex.authorized_bridge = [].
Proof. repeat split; reflexivity. Qed.

(** ** The claims *)

Section ServerClaims.
Import Server ServerFacts.

(** What the handlers ahead of the password check send in reply. *)
Lemma replies_sends a data s s1 o1 fl :
  replies a data s = (s1, o1, fl) ->
  fl = Go /\
  (Py.contains GETVER_CMD data = true -> In (SockSend srv_ver) o1) /\
  (Py.contains GET_KA_TIMEOUT_CMD data = true -> In (SockSend (my_ka a)) o1) /\
  (Py.contains ASK_CMD data = true -> In (SockSend (srv_params a)) o1).
Proof.
  unfold replies, andthen.
  destruct (benign_keepalive a data s) as (s2 & ok & -> & _).
  destruct (benign_version a data s2) as (s3 & ov & -> & _).
  unfold on_getver, on_get_ka, on_ask.
  destruct (Py.contains GETVER_CMD data), (Py.contains GET_KA_TIMEOUT_CMD data),
    (Py.contains ASK_CMD data);
    cbv beta iota zeta;
    destruct (benign_com_params a data s3) as (s4 & oc & -> & _);
    intros [= <- <- <-]; (split; [reflexivity|]);
    repeat split; intros E; try discriminate E;
    rewrite !in_app_iff; simpl; tauto.
Qed.

(** An iteration on data that holds a complete frame is the chain of the
    handlers, run on the state with the buffer emptied. *)
Lemma main_recv_control a chunk s :
  chunk <> [] ->
  Py.contains (B "__#") (packet_buffer s ++ chunk) = true ->
  Py.contains (B "#__") (packet_buffer s ++ chunk) = true ->
  main_recv a chunk s =
    (replies a (packet_buffer s ++ chunk) >> on_pwd a (packet_buffer s ++ chunk) >>
     on_disconnect (packet_buffer s ++ chunk)) (set_buffer s []).
Proof.
  intros Hc H1 H2. unfold main_recv. destruct chunk as [|c chunk]; [easy|].
  rewrite H1, H2. cbn [negb]. apply control_branch_replies.
Qed.

(** The text taken from a [PWD_] frame holds no [#]. *)
Lemma received_pwd_no_hash data x :
  received_pwd data = Some x -> ~ In "#"%char x.
Proof.
  unfold received_pwd. destruct (Py.split_nth _ data 1) as [rest|]; [|easy].
  intros [= <-] H. unfold Py.split_hd, Py.split in H.
  pose proof (split_go_hash_first rest [] "#"%char) as Hh.
  change (B "#") with ["#"%char] in *.
  destruct (Py.split_go ["#"%char] rest 0 []) as [|q qs]; cbn [hd] in *; [easy|].
  destruct (Hh H) as [[]|Hne]. now apply Hne.
Qed.

(** No [PWD_] frame starts inside a text without [#] that is followed by
    the closing [#__]. *)
Lemma no_pwd_start (x rest : bytes) :
  ~ In "#"%char x ->
  Py.starts_with (B "__#PWD_") (x ++ B "#__" ++ rest) = false.
Proof.
  intros Hx.
  destruct x as [|c1 [|c2 [|c3 x]]];
    cbn [app B list_ascii_of_string Py.starts_with];
    repeat match goal with
           | |- context [Ascii.eqb ?u ?v] =>
               destruct (Ascii.eqb_spec u v); cbn [andb]; try reflexivity;
               try discriminate
           end.
  subst. exfalso. apply Hx. cbn. tauto.
Qed.

(** The first piece of a split at [__#PWD_] of a text without [#] that is
    followed by [#__] goes beyond that text and its [#]. *)
Lemma pwd_piece (x rest cur : bytes) :
  ~ In "#"%char x ->
  exists more,
    hd [] (Py.split_go (B "__#PWD_") (x ++ B "#__" ++ rest) O cur) =
      rev cur ++ x ++ "#"%char :: more.
Proof.
  revert cur. induction x as [|c x IH]; intros cur Hx.
  - exists (hd [] (Py.split_go (B "__#PWD_") (B "__" ++ rest) O [])).
    change ([] ++ B "#__" ++ rest) with ("#"%char :: B "__" ++ rest).
    cbn [Py.split_go].
    change (Py.starts_with (B "__#PWD_") ("#"%char :: B "__" ++ rest)) with false.
    cbv iota. rewrite split_go_first_cur. cbn [rev app].
    now rewrite <- app_assoc.
  - assert (~ In "#"%char x) as Hx' by (intros H; apply Hx; now right).
    pose proof (no_pwd_start (c :: x) rest Hx) as Hn.
    cbn [app Py.split_go] in *. rewrite Hn.
    destruct (IH (c :: cur) Hx') as [more ->]. exists more.
    cbn [rev]. now rewrite <- app_assoc.
Qed.

(** From data that starts with the frame [__#PWD_<x>#__], where [x] holds
    no [#], the server takes [x]. *)
Lemma received_pwd_of_frame (x rest : bytes) :
  ~ In "#"%char x ->
  received_pwd (B "__#PWD_" ++ x ++ B "#__" ++ rest) = Some x.
Proof.
  intros Hx. unfold received_pwd, Py.split_nth.
  rewrite split_at_front by discriminate.
  unfold Py.split. destruct (pwd_piece x rest [] Hx) as [more Hp].
  pose proof (split_go_nonempty (B "__#PWD_") (x ++ B "#__" ++ rest) O []) as Hne.
  destruct (Py.split_go (B "__#PWD_") (x ++ B "#__" ++ rest) O []) as [|q qs];
    [easy|].
  cbn [hd rev app] in Hp. subst q. cbn.
  f_equal. unfold Py.split_hd, Py.split.
  pose proof (split_hash_first x more [] Hx) as Hh.
  pose proof (split_go_nonempty (B "#") (x ++ "#"%char :: more) O []) as Hne'.
  change (B "#") with ["#"%char] in *.
  destruct (Py.split_go ["#"%char] (x ++ "#"%char :: more) O []) as [|q' qs'];
    [easy|].
  exact Hh.
Qed.

Lemma received_pwd_frame (x rest : bytes) :
  ~ In "#"%char x ->
  received_pwd (frame (B "PWD_" ++ x) ++ rest) = Some x.
Proof.
  intros Hx. unfold frame. rewrite <- !app_assoc.
  now apply received_pwd_of_frame.
Qed.

Lemma pwd_eq_spec x p : pwd_eq x p = true <-> p = Some x.
Proof.
  destruct p as [y|]; simpl; [|easy].
  rewrite eqb_eq. split; congruence.
Qed.

(** The password check, case by case. *)
Lemma on_pwd_cases a data s :
  (Py.contains (B "__#PWD_") data = false /\ on_pwd a data s = (s, [], Go)) \/
  (exists x,
     Py.contains (B "__#PWD_") data = true /\ received_pwd data = Some x /\
     ((pwd a = Some x /\
       on_pwd a data s =
         (set_authorized s true,
          [Seen PWD; LogMsg LogPwdOk] ++
          (if Py.eqb (client_type s) (B "BR")
           then [SockSend (srv_params a); SockSend ASK_CMD] else []),
          Go)) \/
      (pwd a <> Some x /\
       on_pwd a data s =
         (s, [Seen PWD; LogMsg LogPwdBad; SockSend BAD_PWD_MSG; Sleep 500], Break)))).
Proof.
  unfold on_pwd. destruct (Py.contains (B "__#PWD_") data) eqn:Hc; [right|now left].
  destruct (split_nth_1 (B "__#PWD_") data ltac:(discriminate) Hc) as [rest Hr].
  unfold received_pwd. rewrite Hr. cbn [fmap option_fmap option_map].
  exists (Py.split_hd (B "#") rest). split; [reflexivity|]. split; [reflexivity|].
  destruct (pwd_eq (Py.split_hd (B "#") rest) (pwd a)) eqn:E.
  - left. apply pwd_eq_spec in E. split; [exact E|].
    cbn [client_type set_authorized]. now destruct (Py.eqb (client_type s) (B "BR")).
  - right. split; [|reflexivity]. intros Hp. apply pwd_eq_spec in Hp. congruence.
Qed.

Lemma on_disconnect_cases data s :
  exists o f, on_disconnect data s = (s, o, f) /\ no_data o /\
              (o = [] \/ o = [Seen DISCONNECT]).
Proof.
  unfold on_disconnect. destruct (Py.contains _ _); eexists _, _;
    (split; [reflexivity|]); (split; [now split|]); auto.
Qed.

(** An iteration on data that holds a complete frame, opened up: the
    handlers ahead of the password check, the password check, the test
    for [DISCONNECT]. *)
Lemma main_recv_control_cases a chunk s :
  chunk <> [] ->
  let data := packet_buffer s ++ chunk in
  Py.contains (B "__#") data = true -> Py.contains (B "#__") data = true ->
  exists s1 o1 s2 o2 f2 o3 f3,
    (Py.truthy (pwd a) = true -> authorized s1 = authorized s) /\
    client_active s1 = client_active s /\
    session_in s1 = session_in s /\ session_out s1 = session_out s /\
    stats_in s1 = stats_in s /\ stats_out s1 = stats_out s /\ stale s1 = stale s /\
    no_data o1 /\
    on_pwd a data s1 = (s2, o2, f2) /\
    (o3 = [] \/ o3 = [Seen DISCONNECT]) /\
    main_recv a chunk s =
      match f2 with
      | Break => (s2, o1 ++ o2, Break)
      | Go => (s2, o1 ++ o2 ++ o3, f3)
      end.
Proof.
  intros Hc data H1 H2.
  rewrite (main_recv_control a chunk s Hc H1 H2). fold data.
  unfold andthen.
  destruct (benign_replies a data (set_buffer s [])) as (s1 & o1 & -> & F1 & D1 & A1).
  destruct (on_pwd a data s1) as [[s2 o2] f2] eqn:E2.
  destruct (on_disconnect_cases data s2) as (o3 & f3 & -> & _ & H3).
  exists s1, o1, s2, o2, f2, o3, f3.
  destruct F1 as (Gi & Go & Fi & Fo & _ & Fs & Fa).
  repeat split; try assumption; try apply D1.
  now destruct f2.
Qed.

(** An iteration on data that opens a frame and does not close it keeps
    all of it, whatever its length, and does nothing else. *)
Lemma main_recv_buffers a chunk s :
  chunk <> [] ->
  Py.contains (B "__#") (packet_buffer s ++ chunk) = true ->
  Py.contains (B "#__") (packet_buffer s ++ chunk) = false ->
  main_recv a chunk s = (set_buffer s (packet_buffer s ++ chunk), [], Go).
Proof.
  intros Hc H1 H2. unfold main_recv. destruct chunk as [|c chunk]; [easy|].
  now rewrite H1, H2.
Qed.

(** Without a [PWD_] frame in the data, an unauthorized session with a
    password configured stays unauthorized. *)
Lemma main_recv_stays_unauthorized a chunk s :
  Py.truthy (pwd a) = true -> authorized s = false ->
  Py.contains (B "__#PWD_") (packet_buffer s ++ chunk) = false ->
  authorized (st_of (main_recv a chunk s)) = false.
Proof.
  intros Ht Hs Hn.
  destruct chunk as [|c chunk]; [exact Hs|].
  destruct (Py.contains (B "__#") (packet_buffer s ++ c :: chunk)) eqn:H1.
  - destruct (Py.contains (B "#__") (packet_buffer s ++ c :: chunk)) eqn:H2.
    2:{ now rewrite (main_recv_buffers a (c :: chunk) s ltac:(discriminate) H1 H2). }
    destruct (main_recv_control_cases a (c :: chunk) s ltac:(discriminate) H1 H2)
      as (s1 & o1 & s2 & o2 & f2 & o3 & f3 & A1 & _ & _ & _ & _ & _ & _ & _ & E2 & _ & ->).
    destruct (on_pwd_cases a (packet_buffer s ++ c :: chunk) s1)
      as [[_ En]|(x & Hc & _)]; [|congruence].
    rewrite En in E2. injection E2 as <- <- <-. cbn. now rewrite (A1 Ht).
  - unfold main_recv. rewrite H1. unfold payload_branch.
    cbn [authorized set_buffer packet_buffer]. rewrite Hs, Ht. cbn [negb andb].
    now destruct (_ && _).
Qed.

(** C9: answers to protocol queries are not gated by authentication.  For
    a server with a password configured and a peer not yet authorized, a
    received [GETVER], [GET_KA_TIMEOUT] or [ASK_COM_PARAMS] frame makes the
    iteration send the frame [SRV_VER_0.0.53], the frame [MY_KA_TIMEOUT_]
    with the server's keep-alive interval, or the frame [COM_PARAMS_] with
    the server's port name, baud rate and line setting; and unless the
    data also holds a [PWD_] frame the peer is still unauthorized
    afterwards. *)
Theorem C9_queries_answered_before_authentication (a : Args) (s : srv) (chunk : bytes) :
  Py.truthy (pwd a) = true -> authorized s = false -> chunk <> [] ->
  let data := packet_buffer s ++ chunk in
  let out := out_of (main_recv a chunk s) in
  (Py.contains GETVER_CMD data = true -> In (SockSend (B "__#SRV_VER_0.0.53#__")) out) /\
  (Py.contains GET_KA_TIMEOUT_CMD data = true ->
   In (SockSend (B "__#MY_KA_TIMEOUT_" ++ Py.str (keepalive a) ++ B "#__")) out) /\
  (Py.contains ASK_CMD data = true ->
   In (SockSend (B "__#COM_PARAMS_" ++ comport a ++ B " " ++ Py.str (baud a) ++ B " " ++
                 line a ++ B "#__")) out) /\
  (Py.contains (B "__#PWD_") data = false ->
   authorized (st_of (main_recv a chunk s)) = false).
Proof.
  intros Ht Hs Hc data out.
  assert (forall p, Py.contains (B "__#" ++ p ++ B "#__") data = true ->
            exists s1 o1 rest, replies a data (set_buffer s []) = (s1, o1, Go) /\
                               out = o1 ++ rest) as Hctl.
  { intros p Hp.
    pose proof (contains_prefix _ _ _ Hp) as H1.
    pose proof (contains_suffix _ _ _ Hp) as H2.
    apply contains_suffix in H2.
    subst out. unfold out_of. rewrite (main_recv_control a chunk s Hc H1 H2). fold data.
    unfold andthen at 1.
    destruct (benign_replies a data (set_buffer s [])) as (s1 & o1 & -> & _).
    destruct ((on_pwd a data >> on_disconnect data) s1) as [[s2 o2] f2].
    now exists s1, o1, o2. }
  split; [|split; [|split]]; intros E.
  - destruct (Hctl (B "GETVER") E) as (s1 & o1 & rest & Hr & ->).
    apply replies_sends in Hr. apply in_app_iff. left. now apply Hr.
  - destruct (Hctl (B "GET_KA_TIMEOUT") E) as (s1 & o1 & rest & Hr & ->).
    apply replies_sends in Hr. apply in_app_iff. left. now apply Hr.
  - destruct (Hctl (B "ASK_COM_PARAMS") E) as (s1 & o1 & rest & Hr & ->).
    apply replies_sends in Hr. apply in_app_iff. left. now apply Hr.
  - now apply main_recv_stays_unauthorized.
Qed.

Lemma C9_witness :
  let a := {| pwd := Some (B "pw"); comport := B "/dev/ttyUSB3"; baud := 115200;
              line := B "7E2N"; keepalive := 45 |} in
  let chunk := B "__#GETVER#____#GET_KA_TIMEOUT#____#ASK_COM_PARAMS#__" in
  let r := main_recv a chunk (fst (main_accept a init)) in
  let r' := main_recv Ex.srv_args chunk Ex.accepted in
  (In (SockSend (B "__#SRV_VER_0.0.53#__")) (out_of r) /\
   In (SockSend (B "__#MY_KA_TIMEOUT_45#__")) (out_of r) /\
   In (SockSend (B "__#COM_PARAMS_/dev/ttyUSB3 115200 7E2N#__")) (out_of r) /\
   authorized (st_of r) = false) /\
  (In (SockSend (B "__#MY_KA_TIMEOUT_120#__")) (out_of r') /\
   In (SockSend (B "__#COM_PARAMS_SRV-A 9600 8N1N#__")) (out_of r')).
Proof.
  intros a chunk r r'.
  pose proof (C9_queries_answered_before_authentication a (fst (main_accept a init))
                chunk eq_refl eq_refl ltac:(discriminate)) as (H1 & H2 & H3 & H4).
  pose proof (C9_queries_answered_before_authentication Ex.srv_args Ex.accepted
                chunk eq_refl eq_refl ltac:(discriminate)) as (_ & H2' & H3' & _).
  split; [split; [|split; [|split]]|split].
  - apply H1. reflexivity.
  - apply H2. reflexivity.
  - apply H3. reflexivity.
  - apply H4. reflexivity.
  - apply H2'. reflexivity.
  - apply H3'. reflexivity.
Defined.

(** C10: a configured password that holds [#] cannot be matched.  The
    server compares the configured password with the text of the [PWD_]
    frame up to its first [#]; so with a [#] in the configured password
    every [PWD_] frame is answered with [BADPWD] and ends the session, and
    an iteration can turn an unauthorized session into an authorized one
    only when the configured password holds no [#]. *)
Theorem C10_hash_in_password_never_authenticates
    (a : Args) (s : srv) (chunk p : bytes) :
  pwd a = Some p -> p <> [] ->
  let data := packet_buffer s ++ chunk in
  let r := main_recv a chunk s in
  (In "#"%char p -> chunk <> [] ->
   Py.contains (B "__#PWD_") data = true -> Py.contains (B "#__") data = true ->
   flow_of r = Break /\ In (SockSend BAD_PWD_MSG) (out_of r) /\
   authorized (st_of r) = authorized s) /\
  (authorized s = false -> authorized (st_of r) = true -> ~ In "#"%char p).
Proof.
  intros Hp Hne data r.
  assert (Py.truthy (pwd a) = true) as Ht by (rewrite Hp; now destruct p).
  subst r. split.
  - intros Hh Hc Hpwd H2.
    pose proof (contains_prefix (B "__#") (B "PWD_") data Hpwd) as H1.
    destruct (main_recv_control_cases a chunk s Hc H1 H2)
      as (s1 & o1 & s2 & o2 & f2 & o3 & f3 & A1 & _ & _ & _ & _ & _ & _ & _ & E2 & _ & ->).
    fold data in E2.
    destruct (on_pwd_cases a data s1) as [[Hn _]|(x & _ & Hx & [[Hm _]|[_ Hbad]])].
    + congruence.
    + apply received_pwd_no_hash in Hx. congruence.
    + rewrite Hbad in E2. injection E2 as <- <- <-.
      unfold st_of, out_of, flow_of. cbn [fst snd].
      repeat split; [|now apply A1]. rewrite in_app_iff. simpl. tauto.
  - intros Hs Hs' Hh.
    destruct chunk as [|c chunk]; [cbn in Hs'; congruence|].
    destruct (Py.contains (B "__#") data) eqn:H1.
    + destruct (Py.contains (B "#__") data) eqn:H2.
      2:{ unfold main_recv in Hs'. fold data in Hs'. rewrite H1, H2 in Hs'.
          cbn in Hs'. congruence. }
      destruct (main_recv_control_cases a (c :: chunk) s ltac:(discriminate) H1 H2)
        as (s1 & o1 & s2 & o2 & f2 & o3 & f3 & A1 & _ & _ & _ & _ & _ & _ & _ & E2 & _ & E).
      fold data in E2.
      assert (authorized s2 = true) as Hs2.
      { revert Hs'. rewrite E. now destruct f2. }
      destruct (on_pwd_cases a data s1) as [[_ En]|(x & _ & Hx & [[Hm _]|[_ Hbad]])].
      * rewrite En in E2. injection E2 as <- <- <-. rewrite (A1 Ht) in Hs2. congruence.
      * apply received_pwd_no_hash in Hx. congruence.
      * rewrite Hbad in E2. injection E2 as <- <- <-. rewrite (A1 Ht) in Hs2. congruence.
    + unfold main_recv in Hs'. fold data in Hs'. rewrite H1 in Hs'.
      unfold payload_branch in Hs'. cbn [authorized set_buffer packet_buffer] in Hs'.
      rewrite Hs, Ht in Hs'. cbn [negb andb] in Hs'.
      destruct (_ && _); cbn in Hs'; congruence.
Qed.

Lemma C10_witness :
  let a := {| pwd := Some (B "se#cret"); comport := B "SRV-A"; baud := 9600;
              line := B "8N1N"; keepalive := 120 |} in
  let r := main_recv a (B "__#PWD_se#cret#__") (fst (main_accept a init)) in
  let r' := main_recv Ex.srv_args (B "__#PWD_secret#__") Ex.accepted in
  (flow_of r = Break /\ In (SockSend BAD_PWD_MSG) (out_of r) /\
   authorized (st_of r) = false) /\
  (authorized (st_of r') = true /\ ~ In "#"%char (B "secret")).
Proof.
  intros a r r'. split.
  - apply (C10_hash_in_password_never_authenticates a (fst (main_accept a init))
             (B "__#PWD_se#cret#__") (B "se#cret") eq_refl ltac:(discriminate));
      [vm_compute; tauto|discriminate|reflexivity|reflexivity].
  - split; [reflexivity|].
    apply (C10_hash_in_password_never_authenticates Ex.srv_args Ex.accepted
             (B "__#PWD_secret#__") (B "secret") eq_refl ltac:(discriminate));
      reflexivity.
Defined.







(** C3, as stated, fails: the two chunks do not yield the five events of
    the specification; no payload event is among them, and the two control
    events come in the order of the loop's tests. *)
Lemma C3_counterexample :
  events (snd (run Ex.srv_args Ex.authorized_bridge
                 [Recv (B "A__#GET"); Recv (B "VER#__B__#KEEPALIVE#__C")]))
  <> [Payload (B "A"); Control GETVER; Payload (B "B"); Control KEEPALIVE;
      Payload (B "C")].
Proof.
  vm_compute. discriminate.
Qed.

(** C3 (amended): fed the chunk [A__#GET] and then the chunk
    [VER#__B__#KEEPALIVE#__C], the server's receive loop ends in the same
    state and with the same effects, hence the same events, as when it is
    fed the concatenated input at once; the control events are
    [KEEPALIVE], then [GETVER], the order in which the loop tests for the
    tokens. *)
Theorem C3_fragmented_frame_same_as_whole (a : Args) (s : srv) :
  client_active s = true -> packet_buffer s = [] ->
  let c1 := B "A__#GET" in
  let c2 := B "VER#__B__#KEEPALIVE#__C" in
  run a s [Recv c1; Recv c2] = run a s [Recv (c1 ++ c2)] /\
  events (snd (run a s [Recv c1; Recv c2])) = events (snd (run a s [Recv (c1 ++ c2)])) /\
  controls (snd (run a s [Recv c1; Recv c2])) = [KEEPALIVE; GETVER].
Proof.
  intros Hact Hbuf c1 c2.
  assert (run a s [Recv c1; Recv c2] = run a s [Recv (c1 ++ c2)]) as E.
  { cbn [run serve]. rewrite Hact.
    rewrite (main_recv_buffers a c1 s); [|discriminate|now rewrite Hbuf..].
    cbn [client_active set_buffer]. rewrite Hact.
    unfold main_recv. cbn [packet_buffer set_buffer]. rewrite Hbuf.
    reflexivity. }
  split; [exact E|]. split; [now rewrite E|].
  rewrite E. cbn [run serve]. rewrite Hact.
  unfold main_recv. rewrite Hbuf. reflexivity.
Qed.

Lemma C3_witness :
  let c1 := B "A__#GET" in
  let c2 := B "VER#__B__#KEEPALIVE#__C" in
  run Ex.srv_args Ex.authorized_bridge [Recv c1; Recv c2] =
    run Ex.srv_args Ex.authorized_bridge [Recv (c1 ++ c2)] /\
  events (snd (run Ex.srv_args Ex.authorized_bridge [Recv c1; Recv c2])) =
    events (snd (run Ex.srv_args Ex.authorized_bridge [Recv (c1 ++ c2)])) /\
  controls (snd (run Ex.srv_args Ex.authorized_bridge [Recv c1; Recv c2])) =
    [KEEPALIVE; GETVER].
Proof.
  apply (C3_fragmented_frame_same_as_whole Ex.srv_args Ex.authorized_bridge);
    reflexivity.
Defined.

(** Data that holds [__#] is never written to the serial endpoint nor
    counted, whatever else it holds. *)
Lemma control_chunk_not_written a chunk s :
  Py.contains (B "__#") (packet_buffer s ++ chunk) = true ->
  let r := main_recv a chunk s in
  serial_written (out_of r) = [] /\ session_in (st_of r) = session_in s /\
  relayed (out_of r) = [] /\ session_out (st_of r) = session_out s.
Proof.
  intros H1 r. subst r.
  destruct chunk as [|c chunk]; [now repeat split|].
  destruct (Py.contains (B "#__") (packet_buffer s ++ c :: chunk)) eqn:H2.
  - destruct (main_recv_control_cases a (c :: chunk) s ltac:(discriminate) H1 H2)
      as (s1 & o1 & s2 & o2 & f2 & o3 & f3 & _ & _ & Fi & Fo & _ & _ & _ & [Dw Dr] & E2 & H3 & ->).
    assert (serial_written o2 = [] /\ relayed o2 = [] /\
            session_in s2 = session_in s1 /\ session_out s2 = session_out s1)
      as (Dw2 & Dr2 & Fi2 & Fo2).
    { destruct (on_pwd_cases a (packet_buffer s ++ c :: chunk) s1)
        as [[_ En]|(x & _ & _ & [[_ En]|[_ En]])];
        rewrite En in E2; injection E2 as <- <- <-; repeat split.
      all: now destruct (Py.eqb _ _). }
    assert (serial_written o3 = [] /\ relayed o3 = []) as [Dw3 Dr3]
      by (destruct H3 as [-> | ->]; now split).
    unfold st_of, out_of.
    destruct f2; cbn [fst snd];
      rewrite ?serial_written_app, ?relayed_app, ?Dw, ?Dr, ?Dw2, ?Dr2, ?Dw3, ?Dr3;
      repeat split; congruence.
  - rewrite (main_recv_buffers a (c :: chunk) s ltac:(discriminate) H1 H2).
    now repeat split.
Qed.

(** C2: payload beside a control frame is lost on the server.  In an
    authorized session the chunk [A__#KEEPALIVE#__B] makes the server
    write nothing to its serial endpoint and count nothing: the payload
    bytes [A] and [B] around the frame never arrive.  The bridge, given
    the same chunk, strips the frame and writes [AB]. *)
Theorem C2_server_drops_payload_beside_frame :
  let chunk := B "A__#KEEPALIVE#__B" in
  let r := main_recv Ex.srv_args chunk Ex.authorized_bridge in
  authorized Ex.authorized_bridge = true /\
  serial_written (out_of r) = [] /\
  session_in (st_of r) = 0 /\
  packet_buffer (st_of r) = [] /\
  flow_of r = Go /\
  Bridge.serial_written (Bridge.out_of (Bridge.run_recv Ex.br_args chunk Ex.br_ready))
    = B "AB".
Proof.
  repeat split; reflexivity.
Qed.

(** The gate of the receive loop: with a password configured, an
    iteration that starts unauthorized writes nothing to the serial
    endpoint and counts nothing, even when it is the one that authorizes. *)
Lemma main_recv_gate a chunk s :
  Py.truthy (pwd a) = true -> authorized s = false ->
  let r := main_recv a chunk s in
  serial_written (out_of r) = [] /\ session_in (st_of r) = session_in s /\
  relayed (out_of r) = [] /\ session_out (st_of r) = session_out s.
Proof.
  intros Ht Hs r.
  destruct (Py.contains (B "__#") (packet_buffer s ++ chunk)) eqn:H1;
    [now apply control_chunk_not_written|].
  subst r. unfold main_recv. destruct chunk as [|c chunk]; [now repeat split|].
  rewrite H1. unfold payload_branch. cbn [authorized set_buffer packet_buffer].
  rewrite Hs, Ht. cbn [negb andb].
  destruct (_ && _); now repeat split.
Qed.

(** The gate of the relay thread: while its [b_state] is unauthorized it
    reads nothing, counts nothing and sends nothing. *)
Lemma serial_to_socket_gate conn_open data s :
  serial_to_socket false conn_open data s = (s, [], true).
Proof. reflexivity. Qed.

(** What an iteration of the receive loop leaves alone when a password
    is configured. *)
Lemma main_recv_summary a chunk s :
  Py.truthy (pwd a) = true ->
  let r := main_recv a chunk s in
  stale (st_of r) = stale s /\ client_active (st_of r) = client_active s /\
  stats_out (st_of r) = stats_out s /\ session_out (st_of r) = session_out s /\
  relayed (out_of r) = [] /\
  (authorized s = true -> authorized (st_of r) = true) /\
  (authorized s = false ->
   stats_in (st_of r) = stats_in s /\ session_in (st_of r) = session_in s /\
   serial_written (out_of r) = []).
Proof.
  intros Ht r. subst r.
  destruct chunk as [|c chunk]; [now repeat split|].
  destruct (Py.contains (B "__#") (packet_buffer s ++ c :: chunk)) eqn:H1.
  - destruct (Py.contains (B "#__") (packet_buffer s ++ c :: chunk)) eqn:H2.
    2:{ rewrite (main_recv_buffers a (c :: chunk) s ltac:(discriminate) H1 H2).
        now repeat split. }
    destruct (main_recv_control_cases a (c :: chunk) s ltac:(discriminate) H1 H2)
      as (s1 & o1 & s2 & o2 & f2 & o3 & f3 & A1 & Ac & Fi & Fo & Gi & Go & Fs &
          [Dw Dr] & E2 & H3 & ->).
    specialize (A1 Ht).
    assert (serial_written o3 = [] /\ relayed o3 = []) as [Dw3 Dr3]
      by (destruct H3 as [-> | ->]; now split).
    destruct (on_pwd_cases a (packet_buffer s ++ c :: chunk) s1)
      as [[_ En]|(x & _ & _ & [[_ En]|[_ En]])];
      rewrite En in E2; injection E2 as <- <- <-;
      unfold st_of, out_of; cbn [fst snd];
      rewrite ?serial_written_app, ?relayed_app, ?Dw, ?Dr, ?Dw3, ?Dr3;
      cbn [stale client_active stats_out session_out stats_in session_in
           authorized set_authorized app];
      repeat split; try congruence;
      now destruct (Py.eqb (client_type s1) _).
  - unfold main_recv. rewrite H1. unfold payload_branch.
    cbn [authorized set_buffer packet_buffer]. rewrite Ht.
    destruct (authorized s) eqn:Ha; cbn [negb andb].
    + unfold st_of, out_of. cbn [fst snd]. cbn. now repeat split.
    + destruct (_ && _); now repeat split.
Qed.

Local Ltac step_is_noop :=
  let Hn := fresh "Hn" in
  let Z := fresh "Z" in
  cbn [fst snd]; intros Hn; split;
  [exact Hn|intros Z; split; [exact Z|apply no_data_nil]].

(** One step of the server, read backwards: if no session has been
    authorized after it, none had been before it, and the step moved no
    data and left the counters at zero. *)
Lemma serve_silent a s i :
  Py.truthy (pwd a) = true ->
  never_authorized (fst (serve a s i)) ->
  never_authorized s /\
  (zeroed s -> zeroed (fst (serve a s i)) /\ no_data (snd (serve a s i))).
Proof.
  intros Ht. destruct i as [|chunk|[|i] data]; cbn [serve].
  - destruct (client_active s) eqn:Hact; [step_is_noop|].
    intros [_ Hst]. cbn in Hst. split; [split; [congruence|exact Hst]|].
    intros (Z1 & Z2 & Z3 & Z4). cbn. now repeat split.
  - destruct (client_active s) eqn:Hact; [|step_is_noop].
    pose proof (main_recv_summary a chunk s Ht) as Hsum. cbv zeta in Hsum.
    destruct (main_recv a chunk s) as [[s1 out] fl].
    unfold st_of, out_of in Hsum. cbn [fst snd] in Hsum.
    destruct Hsum as (Hs & Hc & Ho & Hso & Hr & Hmono & Hgate).
    assert (authorized s1 = false -> Forall (fun t => t_auth t = false) (stale s1) ->
            never_authorized s /\
            (zeroed s -> stats_in s1 = 0 /\ stats_out s1 = 0 /\
                         session_in s1 = 0 /\ session_out s1 = 0 /\ no_data out))
      as Hcore.
    { intros Ha Hf.
      assert (authorized s = false) as Has.
      { destruct (authorized s); [|reflexivity]. now rewrite Hmono in Ha. }
      destruct (Hgate Has) as (Hi & Hsi & Hw).
      split; [split; [easy|now rewrite <- Hs]|].
      intros (Z1 & Z2 & Z3 & Z4). repeat split; congruence. }
    destruct fl; cbn [main_end_session fst snd].
    + intros [Ha Hf]. rewrite Hc in Ha. destruct (Hcore (Ha Hact) Hf) as [Hn Hz].
      split; [exact Hn|]. intros Z. destruct (Hz Z) as (? & ? & ? & ? & D).
      split; [now repeat split|exact D].
    + intros [_ Hf]. cbn [stale] in Hf. apply Forall_app in Hf as [Hf Hl].
      apply Forall_cons in Hl as [Ha _]. cbn in Ha.
      destruct (Hcore Ha Hf) as [Hn Hz].
      split; [exact Hn|]. intros Z. destruct (Hz Z) as (? & ? & ? & ? & D).
      split; [now repeat split|]. apply no_data_app; [exact D|now split].
  - destruct (client_active s) eqn:Hact; [|step_is_noop].
    unfold serial_to_socket. destruct (authorized s) eqn:Ha; cbn [negb].
    + destruct data as [|d data]; cbn [fst snd].
      * step_is_noop.
      * intros [Hn _]. cbn in Hn. rewrite Hact, Ha in Hn. now specialize (Hn eq_refl).
    + step_is_noop.
  - destruct (stale s !! i) as [t|] eqn:Hi; [|step_is_noop].
    destruct (t_alive t); [|step_is_noop].
    destruct (serial_to_socket (t_auth t) false data s) as [[s1 out] alive] eqn:Er.
    cbn [fst snd]. intros [Ha Hf]. cbn [client_active authorized stale set_stale] in Ha, Hf.
    assert (t_auth t = false) as Ht0.
    { assert (i < length (stale s1))%nat as Hlt.
      { unfold serial_to_socket in Er. apply lookup_lt_Some in Hi.
        destruct (t_auth t); cbn [negb] in Er; [destruct data|];
          injection Er as <- <- <-; exact Hi. }
      eapply Forall_lookup_1 in Hf; [|now apply list_lookup_insert_eq]. exact Hf. }
    rewrite Ht0 in Er, Hf. cbn in Er. injection Er as <- <- <-.
    assert (Forall (fun t => t_auth t = false) (stale s)) as Hold.
    { apply Forall_lookup. intros j x Hj.
      destruct (decide (i = j)) as [<-|Hne].
      - congruence.
      - rewrite <- (list_lookup_insert_ne (stale s) i j
                     {| t_auth := false; t_alive := true |} Hne) in Hj.
        exact (Forall_lookup_1 _ _ _ _ Hf Hj). }
    split; [split; assumption|].
    intros Z. split; [exact Z|apply no_data_nil].
Qed.

(** Pre-authorization silence up to the first authorization: with a
    password configured, as long as no session of a run has been
    authorized, all counters are zero, nothing has been written to the
    serial endpoint and no serial byte has been relayed to a peer. *)
Lemma silent_until_first_authorization a ins :
  Py.truthy (pwd a) = true ->
  never_authorized (fst (run a init ins)) ->
  zeroed (fst (run a init ins)) /\ no_data (snd (run a init ins)).
Proof.
  intros Ht.
  assert (forall s0, never_authorized (fst (run a s0 ins)) ->
            never_authorized s0 /\
            (zeroed s0 -> zeroed (fst (run a s0 ins)) /\ no_data (snd (run a s0 ins))))
    as Hgen.
  { induction ins as [|i ins IH]; intros s0.
    - cbn. intros Hn. split; [exact Hn|]. intros Z. split; [exact Z|now split].
    - cbn [run].
      pose proof (serve_silent a s0 i Ht) as Hstep.
      destruct (serve a s0 i) as [s1 o1]. cbn [fst snd] in Hstep.
      specialize (IH s1). destruct (run a s1 ins) as [s2 o2]. cbn [fst snd] in *.
      intros Hn. destruct (IH Hn) as [Hn1 Hz1]. destruct (Hstep Hn1) as [Hn0 Hz0].
      split; [exact Hn0|]. intros Z. destruct (Hz0 Z) as [Z1 D1].
      destruct (Hz1 Z1) as [Z2 D2]. split; [exact Z2|now apply no_data_app]. }
  intros Hn. apply Hgen; [exact Hn|now repeat split].
Qed.

(** In every session of a run, [session_stats["in"]] is zero until the
    session is authorized. *)
Lemma in_bytes_zero_before_authorization a ins :
  Py.truthy (pwd a) = true ->
  let s := fst (run a init ins) in
  client_active s = false \/ authorized s = false -> session_in s = 0.
Proof.
  intros Ht.
  assert (forall s i,
            (client_active s = false \/ authorized s = false -> session_in s = 0) ->
            let s' := fst (serve a s i) in
            client_active s' = false \/ authorized s' = false -> session_in s' = 0)
    as Hstep.
  { intros s i J.
    assert (client_active s = false -> session_in s = 0) as J1
      by (intros H; apply J; now left).
    assert (authorized s = false -> session_in s = 0) as J2
      by (intros H; apply J; now right).
    clear J. destruct i as [|chunk|[|i] data]; cbn [serve].
    - destruct (client_active s) eqn:Hact; cbn.
      + intros [H|H]; [congruence|now apply J2].
      + intros _. now apply J1.
    - destruct (client_active s) eqn:Hact.
      2:{ cbn. intros [H|H]; [now apply J1|now apply J2]. }
      pose proof (main_recv_summary a chunk s Ht) as Hsum. cbv zeta in Hsum.
      destruct (main_recv a chunk s) as [[s1 out] fl].
      unfold st_of, out_of in Hsum. cbn [fst snd] in Hsum.
      destruct Hsum as (_ & Hc & _ & _ & _ & Hmono & Hgate).
      destruct fl; cbn; [|reflexivity].
      intros [H|H]; [congruence|].
      destruct (authorized s) eqn:Ha; [rewrite Hmono in H; congruence|].
      destruct (Hgate eq_refl) as (_ & -> & _). now apply J2.
    - destruct (client_active s) eqn:Hact.
      2:{ cbn. intros [H|H]; [now apply J1|now apply J2]. }
      unfold serial_to_socket. destruct (authorized s) eqn:Ha; cbn [negb].
      + destruct data; cbn; rewrite ?Hact, ?Ha; intros [H|H]; discriminate H.
      + cbn. intros _. now apply J2.
    - assert (client_active s = false \/ authorized s = false -> session_in s = 0)
        as J by (intros [H|H]; [now apply J1|now apply J2]).
      destruct (stale s !! i) as [t|]; [|exact J].
      destruct (t_alive t); [|exact J].
      unfold serial_to_socket. destruct (t_auth t); cbn [negb]; [destruct data|];
        cbn; exact J. }
  assert (forall s0,
            (client_active s0 = false \/ authorized s0 = false -> session_in s0 = 0) ->
            let s := fst (run a s0 ins) in
            client_active s = false \/ authorized s = false -> session_in s = 0)
    as Hgen.
  { induction ins as [|i ins IH]; intros s0 J; [exact J|].
    cbn [run]. specialize (Hstep s0 i J). cbv zeta in Hstep.
    destruct (serve a s0 i) as [s1 o1]. cbn [fst] in Hstep.
    specialize (IH s1 Hstep). cbv zeta in IH.
    destruct (run a s1 ins) as [s2 o2]. exact IH. }
  apply Hgen. reflexivity.
Qed.

(** In an authorized session with nothing buffered, a chunk without [__#]
    is written to the serial endpoint as it is and counted in full. *)
Lemma plain_chunk_written a chunk s :
  authorized s = true -> packet_buffer s = [] -> chunk <> [] ->
  Py.contains (B "__#") chunk = false ->
  main_recv a chunk s =
    (count_in (set_buffer s []) (Z.of_nat (length chunk)), [SerWrite chunk], Go).
Proof.
  intros Ha Hb Hc H1. unfold main_recv. destruct chunk as [|c chunk]; [easy|].
  rewrite Hb. cbn [app]. rewrite H1. unfold payload_branch.
  cbn [authorized set_buffer]. now rewrite Ha.
Qed.

(** C1: the gates hold within a session, but the relay thread of an
    ended session lives on.  A bridge connects, authenticates and drops
    the connection; a second peer connects; serial data arrives and is
    read by the first session's thread.  Nothing is written to the serial
    endpoint and nothing is relayed, but the second session, not yet
    authorized, now has [session_stats["out"] = 1]. *)
Theorem C1_stale_relay_counts_before_authorization :
  let r := run Ex.srv_args init
             [Accept; Recv (B "__#BR_VER_0.0.70#__"); Recv (B "__#PWD_secret#__");
              Recv []; Accept; SerialData (Stale 0) (B "x")] in
  Py.truthy (pwd Ex.srv_args) = true /\
  client_active (fst r) = true /\ authorized (fst r) = false /\
  session_in (fst r) = 0 /\ session_out (fst r) = 1 /\
  stale (fst r) = [{| t_auth := true; t_alive := false |}] /\
  serial_written (snd r) = [] /\ relayed (snd r) = [].
Proof.
  repeat split; reflexivity.
Qed.

End ServerClaims.

(** ** Facts about the bridge's main loop *)

Module BridgeFacts.
Import Bridge.

Lemma br_serial_written_app o1 o2 :
  serial_written (o1 ++ o2) = serial_written o1 ++ serial_written o2.
Proof. unfold serial_written. now rewrite flat_map_app. Qed.








Lemma count_data_0 n out : count_data n out 0 = n.
Proof.
  destruct n, out; unfold count_data; cbn [in_count out_count]; now rewrite Z.add_0_r.
Qed.



Lemma br_andthen_assoc (f g h : node -> step) n :
  ((f >> g) >> h) n = (f >> (g >> h)) n.
Proof.
  unfold andthen. destruct (f n) as [[n1 o1] [|]]; [|reflexivity].
  destruct (g n1) as [[n2 o2] [|]]; [|reflexivity].
  destruct (h n2) as [[n3 o3] f3]. now rewrite app_assoc.
Qed.

Lemma br_andthen_ext (f g g' : node -> step) :
  (forall n, g n = g' n) -> forall n, (f >> g) n = (f >> g') n.
Proof.
  intros H n. unfold andthen. destruct (f n) as [[n1 o1] [|]]; [|reflexivity].
  now rewrite H.
Qed.

(** An iteration on a chunk that holds [__#] and no [DISCONNECT], as one
    chain of handlers. *)
Lemma br_run_recv_control a chunk n :
  chunk <> [] -> Py.contains DISCONNECT_CMD chunk = false ->
  Py.contains (B "__#") chunk = true ->
  run_recv a chunk n =
    (on_badpwd chunk >> on_srv_ver a chunk >> on_my_ka a chunk >> on_debug a chunk >>
     on_com_params chunk >> on_requests a chunk >>
     forward a (Py.re_sub Py.frame_nohash chunk)) n.
Proof.
  intros Hc Hd H1. unfold run_recv. destruct chunk as [|c chunk]; [easy|].
  rewrite Hd, H1. unfold control_branch. revert n.
  do 5 (intros n; rewrite br_andthen_assoc; revert n; apply br_andthen_ext).
  reflexivity.
Qed.


End BridgeFacts.

(** ** Facts about the client's receive thread *)

Module ClientFacts.
Import Client.









End ClientFacts.

(** ** The claims on the bridge and the client *)

Section PeerClaims.

(** C6, as stated, fails: a bridge with a password configured and TLS off
    sets up its connection and sends no [PWD_] frame. *)
Lemma C6_counterexample :
  Py.truthy (Bridge.pwd Ex.br_args) = true /\
  fst (Bridge.run_start Ex.br_args Ex.br_env Bridge.init) <> None /\
  snd (Bridge.run_start Ex.br_args Ex.br_env Bridge.init) =
    [Bridge.SockSend (B "__#BR_VER_0.0.70#__"); Bridge.SockSend GETVER_CMD;
     Bridge.SockSend GET_KA_TIMEOUT_CMD; Bridge.SockSend ASK_CMD] /\
  ~ In (Bridge.SockSend (B "__#PWD_secret#__"))
       (snd (Bridge.run_start Ex.br_args Ex.br_env Bridge.init)).
Proof.
  repeat split; [discriminate|]. vm_compute. intuition discriminate.
Qed.

(** C6 (amended): with a password configured, a client whose connection
    is set up sends the [PWD_<secret>] frame whether or not TLS is on; a
    bridge whose connection is set up sends it exactly when TLS is on
    ([--secauto] or [--sec]), after its identification and before its
    queries.  A run whose set-up fails (no port, no connection, no
    certificate and key, no handshake) sends nothing. *)
Theorem C6_password_sent_on_connect (p : bytes) :
  p <> [] ->
  (forall a, Client.pwd a = Some p ->
     In (Client.SockSend (Client.pwd_msg p)) (Client.run_start true a) /\
     Client.run_start false a = []) /\
  (forall a e, Bridge.pwd a = Some p ->
     match Bridge.run_start a e Bridge.init with
     | (Some n, out) =>
         out = [Bridge.SockSend Bridge.id_msg] ++
               (if Bridge.tls a then [Bridge.SockSend (Bridge.pwd_msg p)] else []) ++
               [Bridge.SockSend GETVER_CMD; Bridge.SockSend GET_KA_TIMEOUT_CMD;
                Bridge.SockSend ASK_CMD] /\
         (In (Bridge.SockSend (Bridge.pwd_msg p)) out <-> Bridge.tls a = true) /\
         Bridge.is_sec n = Bridge.tls a
     | (None, out) => out = []
     end).
Proof.
  intros Hne. split.
  - intros a Hp. split; [|reflexivity].
    unfold Client.run_start, Client.run_setup. rewrite Hp.
    destruct p; [easy|]. cbn. tauto.
  - intros a e Hp. unfold Bridge.run_start.
    destruct (Bridge.run_connect a e Bridge.init) as [n1|] eqn:Ec; [|reflexivity].
    assert (Bridge.is_sec n1 = Bridge.tls a) as Hs.
    { revert Ec. unfold Bridge.run_connect.
      destruct (_ && _); [discriminate|].
      destruct (negb (Bridge.port_opens e)); [discriminate|].
      destruct (negb (Bridge.connects e)); [discriminate|].
      destruct (Bridge.tls a).
      - destruct (_ && _); [|discriminate]. now intros [= <-].
      - now intros [= <-]. }
    unfold Bridge.run_setup. rewrite Hs, Hp.
    destruct p as [|c p]; [easy|]. cbn [Py.truthy default andb].
    rewrite andb_true_r.
    split; [reflexivity|]. split; [|exact Hs].
    destruct (Bridge.tls a); cbn [app]; split; try easy.
    + intros _. cbn. tauto.
    + cbn. intros [H|[H|[H|[H|[]]]]]; discriminate H.
Qed.

Lemma C6_witness :
  In (Client.SockSend (B "__#PWD_secret#__")) (Client.run_start true Ex.cl_args) /\
  In (Bridge.SockSend (B "__#PWD_secret#__"))
     (snd (Bridge.run_start Ex.br_args_tls Ex.br_env Bridge.init)) /\
  ~ In (Bridge.SockSend (B "__#PWD_secret#__"))
       (snd (Bridge.run_start Ex.br_args Ex.br_env Bridge.init)) /\
  Bridge.run_start Ex.br_args_nokey Ex.br_env Bridge.init = (None, []).
Proof.
  destruct (C6_password_sent_on_connect (B "secret") ltac:(discriminate)) as [Hc Hb].
  split; [exact (proj1 (Hc Ex.cl_args eq_refl))|].
  pose proof (Hb Ex.br_args_tls Ex.br_env eq_refl) as H1.
  pose proof (Hb Ex.br_args Ex.br_env eq_refl) as H2.
  pose proof (Hb Ex.br_args_nokey Ex.br_env eq_refl) as H3.
  destruct (Bridge.run_start Ex.br_args_tls Ex.br_env Bridge.init) as [[n1|] o1] eqn:E1;
    [|discriminate E1].
  destruct (Bridge.run_start Ex.br_args Ex.br_env Bridge.init) as [[n2|] o2] eqn:E2;
    [|discriminate E2].
  destruct (Bridge.run_start Ex.br_args_nokey Ex.br_env Bridge.init) as [[n3|] o3] eqn:E3;
    [discriminate E3|].
  cbn [snd]. split; [|split].
  - apply H1. reflexivity.
  - intros H. apply H2 in H. discriminate H.
  - now rewrite H3.
Defined.





End PeerClaims.

(** ** The server over whole runs *)

Module ServerRunFacts.
Import Server ServerFacts.

Lemma control_only_nil : control_only [].
Proof. constructor. Qed.

Lemma control_only_app o1 o2 :
  control_only o1 -> control_only o2 -> control_only (o1 ++ o2).
Proof. apply Forall_app_2. Qed.

Lemma control_only_no_data out : control_only out -> no_data out.
Proof.
  induction 1 as [|e out He _ IH]; [now split|].
  destruct IH as [IH1 IH2].
  destruct e; try contradiction; split; cbn; assumption.
Qed.

Lemma control_only_no_write out d : control_only out -> ~ In (SerWrite d) out.
Proof.
  intros H Hin. unfold control_only in H. rewrite List.Forall_forall in H.
  exact (H _ Hin).
Qed.

Local Ltac control_only_list :=
  repeat first [apply control_only_nil | apply Forall_cons; split; [exact I|]
               | apply Forall_nil_2 ].

Lemma steady_andthen f g : steady f -> steady g -> steady (f >> g).
Proof.
  intros Hf Hg s. unfold andthen.
  destruct (Hf s) as (s1 & o1 & f1 & -> & F1 & D1 & A1). destruct f1.
  - destruct (Hg s1) as (s2 & o2 & f2 & -> & F2 & D2 & A2).
    exists s2, (o1 ++ o2), f2. split; [reflexivity|].
    split; [apply (frame_ok_trans _ _ _ F1 F2)|].
    split; [now apply control_only_app|]. auto.
  - exists s1, o1, Break. auto.
Qed.

Lemma steady_keepalive data : steady (on_keepalive data).
Proof.
  intros s. unfold on_keepalive. destruct (Py.contains _ _);
    eexists _, _, _; (split; [reflexivity|]);
    (split; [apply frame_ok_refl|]); (split; [control_only_list|easy]).
Qed.

Lemma steady_getver data : steady (on_getver data).
Proof.
  intros s. unfold on_getver. destruct (Py.contains _ _);
    eexists _, _, _; (split; [reflexivity|]);
    (split; [apply frame_ok_refl|]); (split; [control_only_list|easy]).
Qed.

Lemma steady_get_ka a data : steady (on_get_ka a data).
Proof.
  intros s. unfold on_get_ka. destruct (Py.contains _ _);
    eexists _, _, _; (split; [reflexivity|]);
    (split; [apply frame_ok_refl|]); (split; [control_only_list|easy]).
Qed.

Lemma steady_ask a data : steady (on_ask a data).
Proof.
  intros s. unfold on_ask. destruct (Py.contains _ _);
    eexists _, _, _; (split; [reflexivity|]);
    (split; [apply frame_ok_refl|]); (split; [control_only_list|easy]).
Qed.

Lemma steady_com_params data : steady (on_com_params data).
Proof.
  intros s. unfold on_com_params. destruct (Py.contains _ _);
    [destruct (Py.split_nth _ _ _)|];
    eexists _, _, _; (split; [reflexivity|]);
    (split; [now repeat split|]); (split; [control_only_list|easy]).
Qed.

Lemma steady_pwd a data : steady (on_pwd a data).
Proof.
  intros s. unfold on_pwd. destruct (Py.contains _ _);
    [destruct (received_pwd data);
       [destruct (pwd_eq _ _); [destruct (Py.eqb _ _)|]|]|];
    eexists _, _, _; (split; [reflexivity|]);
    (split; [now repeat split|]); (split; [control_only_list|easy]).
Qed.

Lemma steady_disconnect data : steady (on_disconnect data).
Proof.
  intros s. unfold on_disconnect. destruct (Py.contains _ _);
    eexists _, _, _; (split; [reflexivity|]);
    (split; [apply frame_ok_refl|]); (split; [control_only_list|easy]).
Qed.

(** The loop over the parts of the data keeps the invariant of [steady]. *)
Lemma on_version_parts_steady a parts s out raised :
  control_only out ->
  exists s' out' raised',
    fold_left (on_version_part a) parts (s, out, raised) = (s', out', raised') /\
    frame_ok s s' /\ control_only out' /\
    (authorized s = true -> authorized s' = true).
Proof.
  revert s out raised. induction parts as [|part parts IH]; intros s out raised D.
  - exists s, out, raised. repeat split; try exact D. easy.
  - cbn [fold_left].
    assert (exists s1 out1 raised1,
      on_version_part a (s, out, raised) part = (s1, out1, raised1) /\
      frame_ok s s1 /\ control_only out1 /\
      (authorized s = true -> authorized s1 = true))
      as (s1 & o1 & r1 & -> & F1 & D1 & A1).
    { unfold on_version_part. destruct raised.
      { exists s, out, true. repeat split; try exact D. easy. }
      destruct (_ || _).
      2:{ exists s, out, false. repeat split; try exact D. easy. }
      destruct (Py.split_nth _ _ _).
      2:{ eexists _, _, _. split; [reflexivity|]. repeat split; try exact D. easy. }
      destruct (Py.truthy (pwd a)); cbn [negb].
      { eexists _, _, _. split; [reflexivity|].
        split; [now repeat split|]. split; [|easy].
        apply control_only_app; [exact D|control_only_list]. }
      destruct (Py.eqb _ _); eexists _, _, _; (split; [reflexivity|]);
        (split; [now repeat split|]); (split; [|easy]);
        repeat (apply control_only_app; [|control_only_list]); exact D. }
    destruct (IH s1 o1 r1 D1) as (s2 & o2 & r2 & -> & F2 & D2 & A2).
    exists s2, o2, r2. split; [reflexivity|].
    split; [apply (frame_ok_trans _ _ _ F1 F2)|]. split; [exact D2|auto].
Qed.

Lemma steady_version a data : steady (on_version a data).
Proof.
  intros s. unfold on_version. destruct (Py.contains _ _).
  - destruct (on_version_parts_steady a (Py.split (B "__#") data) s [Seen VERSION] false)
      as (s1 & o1 & r1 & -> & F & D & A); [control_only_list|].
    now exists s1, o1, Go.
  - exists s, [], Go. split; [reflexivity|].
    split; [apply frame_ok_refl|]. split; [control_only_list|easy].
Qed.

Lemma steady_control_branch a data : steady (control_branch a data).
Proof.
  unfold control_branch.
  repeat (apply steady_andthen;
          [first [apply steady_keepalive|apply steady_version|apply steady_getver
                 |apply steady_get_ka|apply steady_ask|apply steady_com_params
                 |apply steady_pwd]|]).
  apply steady_disconnect.
Qed.

End ServerRunFacts.

Section ServerRuns.
Import Server ServerFacts ServerRunFacts.

(** What one iteration of the receive loop does to the books: either it
    moves no data at all, or it writes the whole of the joined data, which
    then holds no [__#], and counts its length. *)
Lemma main_recv_ledger a chunk s :
  let r := main_recv a chunk s in
  let data := packet_buffer s ++ chunk in
  stale (st_of r) = stale s /\ client_active (st_of r) = client_active s /\
  stats_out (st_of r) = stats_out s /\ session_out (st_of r) = session_out s /\
  (authorized s = true -> authorized (st_of r) = true) /\
  ((control_only (out_of r) /\ stats_in (st_of r) = stats_in s /\
    session_in (st_of r) = session_in s) \/
   (out_of r = [SerWrite data] /\ flow_of r = Go /\ chunk <> [] /\
    Py.contains (B "__#") data = false /\
    (authorized s = true \/ Py.truthy (pwd a) = false) /\
    stats_in (st_of r) = stats_in s + Z.of_nat (length data) /\
    session_in (st_of r) = session_in s + Z.of_nat (length data))).
Proof.
  cbv zeta. unfold main_recv. destruct chunk as [|c chunk].
  - cbn. repeat split; try easy. left. repeat split. constructor.
  - set (data := packet_buffer s ++ c :: chunk).
    destruct (Py.contains (B "__#") data) eqn:H1.
    + destruct (Py.contains (B "#__") data) eqn:H2; cbn [negb].
      * destruct (steady_control_branch a data (set_buffer s []))
          as (s1 & o1 & f1 & E & F & D & A).
        rewrite E. unfold st_of, out_of. cbn [fst snd].
        destruct F as (F1 & F2 & F3 & F4 & F5 & F6 & F7). cbn in F1, F2, F3, F4, F6, F7, A.
        repeat split; try congruence; auto.
      * unfold st_of, out_of. cbn. repeat split; try easy. left.
        repeat split. constructor.
    + unfold payload_branch, st_of, out_of, flow_of.
      change (authorized (set_buffer s [])) with (authorized s).
      destruct (authorized s) eqn:Ha; cbn [negb andb].
      * cbn. repeat split; try easy. right. repeat split; try easy. now left.
      * destruct (Py.truthy (pwd a)) eqn:Hp.
        -- destruct (_ && _); cbn; repeat split; try easy; left; repeat split;
             repeat constructor.
        -- cbn. repeat split; try easy. right. repeat split; try easy. now right.
Qed.

Local Ltac no_write :=
  let d := fresh "d" in
  let Hd := fresh "Hd" in
  intros d Hd; cbn in Hd; intuition discriminate.

(** The same for one step of the server, whatever the input is. *)
Lemma serve_ledger a s i :
  let s' := fst (serve a s i) in
  let out := snd (serve a s i) in
  stats_in s' = stats_in s + Z.of_nat (length (serial_written out)) /\
  (forall d, In (SerWrite d) out ->
     d <> [] /\ Py.contains (B "__#") d = false /\
     client_active s = true /\ (authorized s = true \/ Py.truthy (pwd a) = false)) /\
  stats_out s + Z.of_nat (length (relayed out)) <= stats_out s' /\
  (live_input i = true ->
   stats_out s' = stats_out s + Z.of_nat (length (relayed out))).
Proof.
  cbv zeta. destruct i as [|chunk|[|i] data]; cbn [serve live_input].
  - destruct (client_active s); cbn; (split; [lia|]); (split; [no_write|]); lia.
  - destruct (client_active s) eqn:Hact.
    2:{ cbn. split; [lia|]. split; [no_write|]. lia. }
    pose proof (main_recv_ledger a chunk s) as L. cbv zeta in L.
    destruct (main_recv a chunk s) as [[s1 out] fl].
    unfold st_of, out_of, flow_of in L. cbn [fst snd] in L.
    destruct L as (_ & _ & Ho & _ & _ & [(D & Hi & _)|(-> & -> & Hc & Hn & Hau & Hi & _)]).
    + assert (relayed out = [] /\ serial_written out = []) as [R W]
        by (destruct (control_only_no_data _ D); now split).
      assert (forall d, ~ In (SerWrite d) out) as N
        by (intros d; now apply control_only_no_write).
      destruct fl; cbn [fst snd main_end_session].
      * rewrite R, W. cbn. split; [lia|]. split; [|lia].
        intros d Hd. now destruct (N d).
      * rewrite serial_written_app, relayed_app, R, W. cbn.
        split; [lia|]. split; [|lia].
        intros d Hd. apply in_app_or in Hd as [Hd|Hd]; [now destruct (N d)|].
        cbn in Hd. intuition discriminate.
    + cbn [fst snd]. cbn [serial_written relayed flat_map]. rewrite !app_nil_r.
      cbn [length]. split; [lia|]. split; [|lia].
      intros d [[= <-]|[]]. repeat split; try assumption.
      destruct chunk; [easy|]. now destruct (packet_buffer s).
  - destruct (client_active s); [|cbn; split; [lia|]; split; [no_write|]; lia].
    unfold serial_to_socket. destruct (authorized s); cbn [negb].
    + destruct data as [|c data]; cbn; [split; [lia|]; split; [no_write|]; lia|].
      rewrite app_nil_r. split; [lia|]. split; [|lia]. intros d [H|[]]. discriminate H.
    + cbn. split; [lia|]. split; [no_write|]. lia.
  - destruct (stale s !! i) as [t|]; [|cbn; split; [lia|]; split; [no_write|]; lia].
    destruct (t_alive t); [|cbn; split; [lia|]; split; [no_write|]; lia].
    unfold serial_to_socket. destruct (t_auth t); cbn [negb].
    + destruct data as [|c data]; cbn; (split; [lia|]); (split; [no_write|]); lia.
    + cbn. split; [lia|]. split; [no_write|]. lia.
Qed.

(** And for a whole run. *)
Lemma run_ledger a ins s :
  let s' := fst (run a s ins) in
  let out := snd (run a s ins) in
  stats_in s' = stats_in s + Z.of_nat (length (serial_written out)) /\
  (forall d, In (SerWrite d) out -> d <> [] /\ Py.contains (B "__#") d = false) /\
  stats_out s + Z.of_nat (length (relayed out)) <= stats_out s' /\
  (forallb live_input ins = true ->
   stats_out s' = stats_out s + Z.of_nat (length (relayed out))).
Proof.
  cbv zeta. revert s. induction ins as [|i ins IH]; intros s.
  - cbn. split; [lia|]. split; [now intros|]. lia.
  - cbn [run forallb].
    pose proof (serve_ledger a s i) as L. cbv zeta in L.
    destruct (serve a s i) as [s1 o1]. cbn [fst snd] in L.
    specialize (IH s1). destruct (run a s1 ins) as [s2 o2]. cbn [fst snd] in *.
    destruct L as (L1 & L2 & L3 & L4). destruct IH as (I1 & I2 & I3 & I4).
    rewrite serial_written_app, relayed_app, !length_app, !Nat2Z.inj_add.
    split; [lia|]. split; [|split; [lia|]].
    + intros d Hd. apply in_app_or in Hd as [Hd|Hd].
      * destruct (L2 d Hd) as (? & ? & _). now split.
      * now apply I2.
    + intros H. apply andb_true_iff in H as [Hi Hins].
      specialize (L4 Hi). specialize (I4 Hins). lia.
Qed.

(** X1.  The lifetime counter [state.stats["in"]] is the number of bytes
    the server has written to its serial endpoint: over any run, from any
    state, it grows by exactly the length of what was written (the writes
    are taken to succeed).  Ended sessions do not reset it. *)
Theorem lifetime_in_equals_bytes_written (a : Args) (s : srv) (ins : list input) :
  stats_in (fst (run a s ins)) =
    stats_in s + Z.of_nat (length (serial_written (snd (run a s ins)))).
Proof. apply (run_ledger a ins s). Qed.

(** X2.  Nothing that holds the frame opener [__#] is ever written to the
    serial endpoint, and no write is empty: every [ser.write(d)] of a run
    has a non-empty [d] without [__#]. *)
Theorem serial_writes_hold_no_frame_opener
    (a : Args) (s : srv) (ins : list input) (d : bytes) :
  In (SerWrite d) (snd (run a s ins)) ->
  d <> [] /\ Py.contains (B "__#") d = false.
Proof. apply (run_ledger a ins s). Qed.

Lemma serial_writes_witness :
  let ins := [Recv (B "ls -l"); Recv (B "__#KEEPALIVE#__"); Recv (B "pwd")] in
  In (SerWrite (B "ls -l")) (snd (run Ex.srv_args Ex.authorized_bridge ins)) /\
  B "ls -l" <> [] /\ Py.contains (B "__#") (B "ls -l") = false.
Proof.
  assert (In (SerWrite (B "ls -l"))
            (snd (run Ex.srv_args Ex.authorized_bridge
                    [Recv (B "ls -l"); Recv (B "__#KEEPALIVE#__"); Recv (B "pwd")])))
    as H by (vm_compute; now left).
  split; [exact H|].
  exact (serial_writes_hold_no_frame_opener Ex.srv_args Ex.authorized_bridge _ _ H).
Defined.

(** X3.  The lifetime counter [state.stats["out"]] never falls behind the
    serial bytes relayed to peers; when no relay thread of an ended
    session wakes up during the run, it is exactly their number. *)
Theorem lifetime_out_bounds_bytes_relayed (a : Args) (s : srv) (ins : list input) :
  stats_out s + Z.of_nat (length (relayed (snd (run a s ins))))
    <= stats_out (fst (run a s ins)) /\
  (forallb live_input ins = true ->
   stats_out (fst (run a s ins)) =
     stats_out s + Z.of_nat (length (relayed (snd (run a s ins))))).
Proof. split; apply (run_ledger a ins s). Qed.

Lemma lifetime_out_witness :
  let ins := [SerialData Current (B "login: "); Recv (B "root"); SerialData Current (B "# ")] in
  stats_out (fst (run Ex.srv_args Ex.authorized_bridge ins)) =
    stats_out Ex.authorized_bridge +
    Z.of_nat (length (relayed (snd (run Ex.srv_args Ex.authorized_bridge ins)))).
Proof.
  apply (lifetime_out_bounds_bytes_relayed Ex.srv_args Ex.authorized_bridge). reflexivity.
Defined.

(** Without a password, a session is authorized from the moment it is
    accepted and stays so. *)
Lemma open_server_step a s i :
  Py.truthy (pwd a) = false ->
  (client_active s = true -> authorized s = true) ->
  client_active (fst (serve a s i)) = true -> authorized (fst (serve a s i)) = true.
Proof.
  intros Hp J. destruct i as [|chunk|[|i] data]; cbn [serve].
  - destruct (client_active s) eqn:Hact; cbn; [now rewrite Hact|].
    now rewrite Hp.
  - destruct (client_active s) eqn:Hact; [|cbn; congruence].
    pose proof (main_recv_ledger a chunk s) as L. cbv zeta in L.
    destruct (main_recv a chunk s) as [[s1 out] fl].
    unfold st_of in L. cbn [fst snd] in L. destruct L as (_ & Hc & _ & _ & Hm & _).
    destruct fl; cbn; [|discriminate]. intros _. apply Hm. now apply J.
  - destruct (client_active s) eqn:Hact; [|cbn; congruence].
    unfold serial_to_socket. destruct (authorized s) eqn:Ha; cbn [negb].
    + destruct data; cbn; now rewrite ?Ha.
    + cbn. intros _. rewrite Ha. now apply J.
  - destruct (stale s !! i) as [t|]; [|exact J].
    destruct (t_alive t); [|exact J].
    unfold serial_to_socket. destruct (t_auth t); cbn [negb]; [destruct data|];
      cbn; exact J.
Qed.

(** X4.  A server started without a password never turns raw data away:
    in every state a run can reach, a running session is authorized, and
    a non-empty chunk that (joined to the buffer) holds no [__#] is
    written to the serial endpoint in full. *)
Theorem open_server_takes_every_payload
    (a : Args) (ins : list input) (chunk : bytes) :
  Py.truthy (pwd a) = false ->
  let s := fst (run a init ins) in
  client_active s = true ->
  authorized s = true /\
  (chunk <> [] -> Py.contains (B "__#") (packet_buffer s ++ chunk) = false ->
   snd (serve a s (Recv chunk)) = [SerWrite (packet_buffer s ++ chunk)]).
Proof.
  intros Hp.
  assert (forall s0, (client_active s0 = true -> authorized s0 = true) ->
            client_active (fst (run a s0 ins)) = true ->
            authorized (fst (run a s0 ins)) = true) as Hgen.
  { induction ins as [|i ins IH]; intros s0 J; [exact J|].
    cbn [run]. pose proof (open_server_step a s0 i Hp J) as Hs.
    destruct (serve a s0 i) as [s1 o1]. cbn [fst] in Hs.
    specialize (IH s1 Hs). destruct (run a s1 ins) as [s2 o2]. exact IH. }
  cbv zeta. intros Hact.
  assert (authorized (fst (run a init ins)) = true) as Ha
    by (apply Hgen; [discriminate|exact Hact]).
  split; [exact Ha|]. intros Hc Hn. cbn [serve]. rewrite Hact.
  unfold main_recv. destruct chunk as [|c chunk]; [easy|].
  rewrite Hn. unfold payload_branch.
  change (authorized (set_buffer ?x [])) with (authorized x).
  rewrite Ha. reflexivity.
Qed.

Lemma open_server_witness :
  let a := {| pwd := None; comport := B "SRV-A"; baud := 9600;
              line := B "8N1N"; keepalive := 120 |} in
  let s := fst (run a init [Accept; Recv (B "__#CL_VER_0.0.56#__")]) in
  authorized s = true /\
  snd (serve a s (Recv (B "AT"))) = [SerWrite (B "AT")].
Proof.
  cbv zeta.
  destruct (open_server_takes_every_payload
              {| pwd := None; comport := B "SRV-A"; baud := 9600;
                 line := B "8N1N"; keepalive := 120 |}
              [Accept; Recv (B "__#CL_VER_0.0.56#__")] (B "AT") eq_refl eq_refl)
    as [Ha Hw].
  split; [exact Ha|]. apply Hw; [discriminate|reflexivity].
Defined.

(** X5.  A server with no password configured rejects every password
    frame: data with [__#PWD_] and a closing [#__] is answered with
    [BADPWD] and ends the session, although the session was authorized;
    nothing is written to the serial endpoint. *)
Theorem password_frame_rejected_without_password
    (a : Args) (s : srv) (chunk : bytes) :
  pwd a = None -> chunk <> [] ->
  let data := packet_buffer s ++ chunk in
  Py.contains (B "__#PWD_") data = true -> Py.contains (B "#__") data = true ->
  let r := main_recv a chunk s in
  flow_of r = Break /\ In (SockSend BAD_PWD_MSG) (out_of r) /\
  serial_written (out_of r) = [] /\
  (client_active s = true ->
   client_active (fst (serve a s (Recv chunk))) = false /\
   In SockClose (snd (serve a s (Recv chunk)))).
Proof.
  intros Hp Hc data H1 H2 r.
  assert (Py.contains (B "__#") data = true) as H0
    by (apply (contains_prefix (B "__#") (B "PWD_")); exact H1).
  destruct (main_recv_control_cases a chunk s Hc H0 H2)
    as (s1 & o1 & s2 & o2 & f2 & o3 & f3 & _ & _ & _ & _ & _ & _ & _ & D1 & E2 & _ & E).
  fold data in E2. fold r in E.
  destruct (on_pwd_cases a data s1) as [[Hf _]|(x & _ & _ & [[Hx _]|[_ Hr]])];
    [congruence|congruence|].
  rewrite E2 in Hr. injection Hr as -> -> ->.
  assert (serial_written (out_of r) = []) as W.
  { rewrite E. unfold out_of. cbn [fst snd]. rewrite serial_written_app.
    destruct D1 as [-> _]. reflexivity. }
  assert (flow_of r = Break) as Fb by now rewrite E.
  split; [exact Fb|]. split; [|split; [exact W|]].
  - rewrite E. unfold out_of. cbn [fst snd]. apply in_or_app. right. cbn. tauto.
  - intros Hact. cbn [serve]. rewrite Hact. fold r.
    destruct r as [[sr outr] flr]. unfold flow_of in Fb. cbn [snd] in Fb. subst flr.
    cbn. split; [reflexivity|]. apply in_or_app. right. cbn. tauto.
Qed.

Lemma password_frame_rejected_witness :
  let a := {| pwd := None; comport := B "SRV-A"; baud := 9600;
              line := B "8N1N"; keepalive := 120 |} in
  let s := fst (main_accept a init) in
  let r := main_recv a (Client.pwd_msg (B "secret")) s in
  authorized s = true /\
  flow_of r = Break /\ In (SockSend BAD_PWD_MSG) (out_of r) /\
  serial_written (out_of r) = [] /\
  client_active (fst (serve a s (Recv (Client.pwd_msg (B "secret"))))) = false.
Proof.
  cbv zeta.
  destruct (password_frame_rejected_without_password
              {| pwd := None; comport := B "SRV-A"; baud := 9600;
                 line := B "8N1N"; keepalive := 120 |}
              (fst (main_accept
                      {| pwd := None; comport := B "SRV-A"; baud := 9600;
                         line := B "8N1N"; keepalive := 120 |} init))
              (Client.pwd_msg (B "secret")) eq_refl ltac:(discriminate) eq_refl eq_refl)
    as (Hb & Hs & Hw & Hact).
  split; [reflexivity|]. split; [exact Hb|]. split; [exact Hs|]. split; [exact Hw|].
  apply Hact. reflexivity.
Defined.

(** X6.  A peer can always end its session: data that holds the
    [DISCONNECT] frame makes the receive loop leave, in any state of the
    session, authorized or not, with any configuration; nothing of that
    data is written to the serial endpoint and the socket is closed. *)
Theorem disconnect_frame_ends_session (a : Args) (s : srv) (chunk : bytes) :
  chunk <> [] -> Py.contains DISCONNECT_CMD (packet_buffer s ++ chunk) = true ->
  let r := main_recv a chunk s in
  flow_of r = Break /\ serial_written (out_of r) = [] /\
  (client_active s = true ->
   client_active (fst (serve a s (Recv chunk))) = false /\
   In SockClose (snd (serve a s (Recv chunk)))).
Proof.
  intros Hc Hd r. set (data := packet_buffer s ++ chunk) in *.
  assert (Py.contains (B "__#") data = true) as H1
    by (apply (contains_prefix (B "__#") (B "DISCONNECT#__")); exact Hd).
  assert (Py.contains (B "#__") data = true) as H2
    by (apply (contains_suffix (B "__#DISCONNECT") (B "#__")); exact Hd).
  assert (flow_of r = Break) as Fb.
  { unfold r. rewrite (main_recv_control a chunk s Hc H1 H2). fold data.
    unfold andthen.
    destruct (benign_replies a data (set_buffer s [])) as (s1 & o1 & -> & _).
    destruct (on_pwd a data s1) as [[s2 o2] [|]]; [|reflexivity].
    unfold on_disconnect. rewrite Hd. reflexivity. }
  assert (serial_written (out_of r) = []) as W
    by (destruct (control_chunk_not_written a chunk s H1) as (W & _); exact W).
  split; [exact Fb|]. split; [exact W|].
  intros Hact. cbn [serve]. rewrite Hact. fold r.
  destruct r as [[sr outr] flr]. unfold flow_of in Fb. cbn [snd] in Fb. subst flr.
  cbn. split; [reflexivity|]. apply in_or_app. right. cbn. tauto.
Qed.

Lemma disconnect_frame_witness :
  let r := main_recv Ex.srv_args (B "bye__#DISCONNECT#__") Ex.accepted in
  authorized Ex.accepted = false /\
  flow_of r = Break /\ serial_written (out_of r) = [] /\
  client_active (fst (serve Ex.srv_args Ex.accepted (Recv (B "bye__#DISCONNECT#__")))) = false.
Proof.
  cbv zeta.
  destruct (disconnect_frame_ends_session Ex.srv_args Ex.accepted
              (B "bye__#DISCONNECT#__") ltac:(discriminate) eq_refl)
    as (Hb & Hw & Hact).
  split; [reflexivity|]. split; [exact Hb|]. split; [exact Hw|].
  apply Hact. reflexivity.
Defined.

(** Chunks that reach the server while no session is running are not read. *)
Lemma run_recv_inactive a cs s :
  client_active s = false -> run a s (map Recv cs) = (s, []).
Proof.
  intros Hact. induction cs as [|c cs IH]; [reflexivity|].
  cbn [map run serve]. rewrite Hact, IH. reflexivity.
Qed.

(** Raw data of an unauthorized session, from any buffer. *)
Lemma raw_data_run a cs s :
  Py.truthy (pwd a) = true -> client_active s = true -> authorized s = false ->
  Forall (fun c => c <> []) cs ->
  Py.contains (B "__#") (packet_buffer s ++ concat cs) = false ->
  let r := run a s (map Recv cs) in
  ((length (packet_buffer s ++ concat cs) < 20)%nat ->
   r = (set_buffer s (packet_buffer s ++ concat cs), [])) /\
  ((20 <= length (packet_buffer s ++ concat cs))%nat -> cs <> [] ->
   client_active (fst r) = false /\ stats_in (fst r) = stats_in s /\
   snd r = [LogMsg LogRawRejected;
            LogMsg (LogSessionEnded (session_in s) (session_out s)); SockClose]).
Proof.
  intros Hp. revert s. induction cs as [|c cs IH]; intros s Hact Ha Hne Hn; cbv zeta.
  - cbn [concat map run]. rewrite app_nil_r. split; [|easy].
    intros _. now destruct s.
  - apply Forall_cons in Hne as [Hc Hcs].
    cbn [concat] in *. rewrite app_assoc in *.
    assert (Py.contains (B "__#") (packet_buffer s ++ c) = false) as Hn1
      by (apply contains_false_app_l in Hn; exact Hn).
    cbn [map run serve]. rewrite Hact.
    unfold main_recv. destruct c as [|x c]; [easy|]. rewrite Hn1.
    unfold payload_branch.
    change (authorized (set_buffer s [])) with (authorized s).
    change (packet_buffer (set_buffer s [])) with (@nil ascii).
    rewrite Ha, Hp. cbn [negb andb Py.truthy].
    destruct (length (packet_buffer s ++ x :: c) <? 20)%nat eqn:Hl; cbn [andb].
    + apply Nat.ltb_lt in Hl.
      specialize (IH (set_buffer (set_buffer s []) (packet_buffer s ++ x :: c))
                     Hact Ha Hcs Hn).
      cbv zeta in IH. cbn [packet_buffer set_buffer] in IH.
      destruct (run a _ (map Recv cs)) as [s2 o2]. cbn [fst snd] in *.
      destruct IH as [I1 I2]. split.
      * intros Hlt. specialize (I1 Hlt). injection I1 as -> ->. reflexivity.
      * intros Hge _. destruct cs as [|c' cs].
        { cbn [concat] in Hge. rewrite app_nil_r in Hge. lia. }
        apply I2; [exact Hge|discriminate].
    + apply Nat.ltb_ge in Hl. cbn [main_end_session fst snd].
      rewrite run_recv_inactive by reflexivity. cbn [fst snd]. split.
      * intros Hlt. rewrite length_app in Hlt. lia.
      * intros _ _. repeat split.
Qed.

(** X7.  Raw data ahead of the password: in a session that is not yet
    authorized, chunks without [__#] are held back, unwritten, while fewer
    than 20 bytes have come in; as soon as 20 bytes or more have
    accumulated the server logs the rejection and closes the session.  In
    neither case does a byte reach the serial endpoint. *)
Theorem raw_data_before_authorization (a : Args) (s : srv) (cs : list bytes) :
  Py.truthy (pwd a) = true -> client_active s = true -> authorized s = false ->
  packet_buffer s = [] -> Forall (fun c => c <> []) cs ->
  Py.contains (B "__#") (concat cs) = false ->
  let r := run a s (map Recv cs) in
  ((length (concat cs) < 20)%nat -> r = (set_buffer s (concat cs), [])) /\
  ((20 <= length (concat cs))%nat ->
   client_active (fst r) = false /\ stats_in (fst r) = stats_in s /\
   snd r = [LogMsg LogRawRejected;
            LogMsg (LogSessionEnded (session_in s) (session_out s)); SockClose]).
Proof.
  intros Hp Hact Ha Hb Hne Hn.
  pose proof (raw_data_run a cs s Hp Hact Ha Hne) as H.
  rewrite Hb in H. cbn [app] in H. specialize (H Hn). cbv zeta in *.
  destruct H as [H1 H2]. split; [exact H1|].
  intros Hge. apply H2; [exact Hge|]. intros ->. cbn in Hge. lia.
Qed.

Lemma raw_data_witness :
  run Ex.srv_args Ex.accepted (map Recv [B "root"; B "toor"]) =
    (set_buffer Ex.accepted (B "roottoor"), []) /\
  snd (run Ex.srv_args Ex.accepted
         (map Recv [B "cat /etc/"; B "passwd; "; B "uname -a"])) =
    [LogMsg LogRawRejected; LogMsg (LogSessionEnded 0 0); SockClose].
Proof.
  split.
  - apply (raw_data_before_authorization Ex.srv_args Ex.accepted [B "root"; B "toor"]);
      try reflexivity.
    + repeat constructor; discriminate.
    + cbn. lia.
  - apply (raw_data_before_authorization Ex.srv_args Ex.accepted
             [B "cat /etc/"; B "passwd; "; B "uname -a"]);
      try reflexivity.
    + repeat constructor; discriminate.
    + cbn. lia.
Defined.

End ServerRuns.

(** ** Frames and the two frame patterns *)

Section FrameFacts.

Lemma sub_go_skip m (pre rest : bytes) :
  Py.sub_go m (pre ++ rest) (length pre) = Py.sub_go m rest O.
Proof.
  induction pre as [|c pre IH]; [reflexivity|].
  cbn [app length Py.sub_go]. exact IH.
Qed.

(** Text without the opener is left alone by a pattern that starts with it. *)
Lemma sub_go_id m (s : bytes) :
  (forall u, Py.starts_with (B "__#") u = false -> m u = None) ->
  Py.contains (B "__#") s = false -> Py.sub_go m s O = s.
Proof.
  intros Hm. induction s as [|c s IH]; [reflexivity|].
  intros H. cbn [Py.contains] in H. apply orb_false_iff in H as [H1 H2].
  cbn [Py.sub_go]. rewrite (Hm _ H1). f_equal. now apply IH.
Qed.

(** No opener starts inside a piece that holds none, whatever follows the
    piece begins with [__]. *)
Lemma no_opener_at (c : ascii) (p rest : bytes) :
  Py.starts_with (B "__#") (c :: p) = false ->
  Py.starts_with (B "__#") (c :: p ++ B "__#" ++ rest) = false.
Proof.
  destruct p as [|d [|e p]]; cbn [app B list_ascii_of_string Py.starts_with].
  - intros _. destruct (Ascii.eqb _ c); reflexivity.
  - intros _. destruct (Ascii.eqb _ c); [|reflexivity].
    destruct (Ascii.eqb _ d); reflexivity.
  - intros H. exact H.
Qed.

Lemma sub_go_prefix m (p rest : bytes) :
  (forall u, Py.starts_with (B "__#") u = false -> m u = None) ->
  Py.contains (B "__#") p = false ->
  Py.sub_go m (p ++ B "__#" ++ rest) O = p ++ Py.sub_go m (B "__#" ++ rest) O.
Proof.
  intros Hm. induction p as [|c p IH]; [reflexivity|].
  intros H. cbn [Py.contains] in H. apply orb_false_iff in H as [H1 H2].
  change ((c :: p) ++ B "__#" ++ rest) with (c :: p ++ B "__#" ++ rest).
  cbn [Py.sub_go]. rewrite (Hm _ (no_opener_at c p rest H1)).
  cbn [app]. f_equal. now apply IH.
Qed.

Lemma frame_nohash_none (u : bytes) :
  Py.starts_with (B "__#") u = false -> Py.frame_nohash u = None.
Proof. unfold Py.frame_nohash. now intros ->. Qed.

Lemma frame_lazy_none (u : bytes) :
  Py.starts_with (B "__#") u = false -> Py.frame_lazy u = None.
Proof. unfold Py.frame_lazy. now intros ->. Qed.

Lemma nohash_end_body (t rest : bytes) :
  ~ In "#"%char t ->
  Py.nohash_end (t ++ B "#__" ++ rest) = Some (length t + 3)%nat.
Proof.
  induction t as [|c t IH]; intros H.
  - reflexivity.
  - assert (Ascii.eqb c "#" = false) as Hc
      by (apply Ascii.eqb_neq; intros ->; apply H; now left).
    assert (Ascii.eqb "#" c = false) as Hc'
      by (rewrite Ascii.eqb_sym; exact Hc).
    assert (Py.nohash_end ((c :: t) ++ B "#__" ++ rest) =
            if Ascii.eqb "#" c && Py.starts_with (B "__") (t ++ B "#__" ++ rest)
            then Some 3%nat
            else if Ascii.eqb c "#" then None
                 else S <$> Py.nohash_end (t ++ B "#__" ++ rest)) as E by reflexivity.
    rewrite E, Hc, Hc'. cbn [andb]. rewrite IH; [reflexivity|].
    intros Hin. apply H. now right.
Qed.

Lemma lazy_end_body (t rest : bytes) :
  ~ In "#"%char t -> ~ In "010"%char t ->
  Py.lazy_end (t ++ B "#__" ++ rest) = Some (length t + 3)%nat.
Proof.
  induction t as [|c t IH]; intros H Hnl.
  - reflexivity.
  - assert (Ascii.eqb "#" c = false) as Hc
      by (apply Ascii.eqb_neq; intros <-; apply H; now left).
    assert (Ascii.eqb c "010" = false) as Hn
      by (apply Ascii.eqb_neq; intros ->; apply Hnl; now left).
    assert (Py.lazy_end ((c :: t) ++ B "#__" ++ rest) =
            if Ascii.eqb "#" c && Py.starts_with (B "__") (t ++ B "#__" ++ rest)
            then Some 3%nat
            else if Ascii.eqb c "010" then None
                 else S <$> Py.lazy_end (t ++ B "#__" ++ rest)) as E by reflexivity.
    rewrite E, Hc, Hn. cbn [andb]. rewrite IH; [reflexivity| |].
    + intros Hin. apply H. now right.
    + intros Hin. apply Hnl. now right.
Qed.

(** A whole frame is dropped. *)
Lemma sub_go_frame m (t rest : bytes) :
  m (frame t ++ rest) = Some (length t + 6)%nat ->
  Py.sub_go m (frame t ++ rest) O = Py.sub_go m rest O.
Proof.
  intros Hm.
  assert (frame t ++ rest = "_"%char :: (B "_#" ++ t ++ B "#__") ++ rest) as E
    by (unfold frame; cbn; now rewrite <- !app_assoc).
  rewrite E in *. cbn [Py.sub_go]. rewrite Hm.
  replace (Nat.pred (length t + 6)) with (length (B "_#" ++ t ++ B "#__")).
  - apply sub_go_skip.
  - rewrite !length_app. cbn. lia.
Qed.

Lemma frame_nohash_frame (t rest : bytes) :
  ~ In "#"%char t -> Py.frame_nohash (frame t ++ rest) = Some (length t + 6)%nat.
Proof.
  intros H. unfold Py.frame_nohash, frame.
  rewrite <- !app_assoc. rewrite starts_with_self.
  change (drop 3 (B "__#" ++ t ++ B "#__" ++ rest)) with (t ++ B "#__" ++ rest).
  rewrite (nohash_end_body t rest H). cbn. f_equal. lia.
Qed.

Lemma frame_lazy_frame (t rest : bytes) :
  ~ In "#"%char t -> ~ In "010"%char t ->
  Py.frame_lazy (frame t ++ rest) = Some (length t + 6)%nat.
Proof.
  intros H Hn. unfold Py.frame_lazy, frame.
  rewrite <- !app_assoc. rewrite starts_with_self.
  change (drop 3 (B "__#" ++ t ++ B "#__" ++ rest)) with (t ++ B "#__" ++ rest).
  rewrite (lazy_end_body t rest H Hn). cbn. f_equal. lia.
Qed.

Lemma wire_opens (p0 : bytes) (fs : list (bytes * bytes)) :
  fs <> [] -> exists t rest, wire p0 fs = p0 ++ B "__#" ++ t ++ B "#__" ++ rest.
Proof.
  destruct fs as [|[t p] fs]; [easy|]. intros _. exists t, (wire p fs).
  cbn [wire]. unfold frame. now rewrite <- !app_assoc.
Qed.

(** [re.sub(b"__#[^#]*#__", b"", data)] on a well-framed stream leaves the
    payload. *)
Lemma re_sub_nohash_wire (p0 : bytes) (fs : list (bytes * bytes)) :
  well_framed p0 fs ->
  Py.re_sub Py.frame_nohash (wire p0 fs) = payload_of p0 fs.
Proof.
  unfold well_framed, payload_of, Py.re_sub. revert p0.
  induction fs as [|[t p] fs IH]; intros p0 [H0 Hfs].
  - cbn [wire map concat]. rewrite app_nil_r.
    apply sub_go_id; [apply frame_nohash_none|exact H0].
  - apply Forall_cons in Hfs as [[Ht Hp] Hfs]. cbn [fst snd] in Ht, Hp.
    cbn [wire map concat snd]. unfold frame at 1. rewrite <- !app_assoc.
    rewrite (sub_go_prefix _ p0 _ frame_nohash_none H0). f_equal.
    replace (B "__#" ++ t ++ B "#__" ++ wire p fs) with (frame t ++ wire p fs)
      by (unfold frame; now rewrite <- !app_assoc).
    rewrite (sub_go_frame _ t _ (frame_nohash_frame t _ Ht)).
    apply IH. now split.
Qed.

End FrameFacts.

(** ** The bridge's side of the stream *)

Module BridgeRunFacts.
Import Bridge BridgeFacts.

Lemma tame_andthen data f g : tame data f -> tame data g -> tame data (f >> g).
Proof.
  intros Hf Hg n. unfold andthen.
  destruct (Hf n) as (n1 & o1 & f1 & -> & W1 & O1 & I1 & P1 & R1 & C1 & B1).
  destruct f1.
  - destruct (Hg n1) as (n2 & o2 & f2 & -> & W2 & O2 & I2 & P2 & R2 & C2 & B2).
    exists n2, (o1 ++ o2), f2. rewrite br_serial_written_app, W1, W2.
    repeat split; try congruence; auto.
    intros H. rewrite (C2 H). auto.
  - exists n1, o1, Break. repeat split; auto.
Qed.

Lemma tame_badpwd data : tame data (on_badpwd data).
Proof.
  intros n. unfold on_badpwd. destruct (Py.contains _ _) eqn:E;
    eexists _, _, _; (split; [reflexivity|]); repeat split; auto; discriminate.
Qed.

Lemma tame_srv_ver a data : tame data (on_srv_ver a data).
Proof.
  intros n. unfold on_srv_ver. destruct (Py.contains _ _);
    [destruct (Py.split_nth _ _ _)|]; eexists _, _, _; (split; [reflexivity|]);
    repeat split; auto.
Qed.

Lemma tame_my_ka a data : tame data (on_my_ka a data).
Proof.
  intros n. unfold on_my_ka. destruct (Py.contains _ _);
    [destruct (srv_ka data); [destruct (_ <? _)|]|];
    eexists _, _, _; (split; [reflexivity|]); repeat split; auto.
Qed.

Lemma tame_debug a data : tame data (on_debug a data).
Proof.
  intros n. unfold on_debug. destruct (debug a);
    eexists _, _, _; (split; [reflexivity|]); repeat split; auto.
  now repeat (destruct (Py.contains _ data)).
Qed.

Lemma tame_com_params data : tame data (on_com_params data).
Proof.
  intros n. unfold on_com_params. destruct (Py.contains _ _) eqn:E;
    [destruct (Py.split_nth _ _ _)|]; eexists _, _, _; (split; [reflexivity|]);
    repeat split; auto; discriminate.
Qed.

Lemma tame_requests a data : tame data (on_requests a data).
Proof.
  intros n. unfold on_requests. repeat (destruct (Py.contains _ data));
    eexists _, _, _; (split; [reflexivity|]); repeat split; auto.
Qed.

Lemma tame_control_branch a data : tame data (control_branch a data).
Proof.
  unfold control_branch.
  repeat (apply tame_andthen;
          [first [apply tame_badpwd|apply tame_srv_ver|apply tame_my_ka
                 |apply tame_debug|apply tame_com_params]|]).
  apply tame_requests.
Qed.

End BridgeRunFacts.

Section BridgeRuns.
Import Bridge BridgeFacts BridgeRunFacts.

(** The write in [forward] once the serial side is in service. *)
Lemma forward_ready a data n :
  serial_ready n = true -> namedpipe a = None ->
  forward a data n =
    (count_data n true (Z.of_nat (length data)),
     match data with [] => [] | _ => [SerWrite data] end, Go).
Proof.
  intros Hr Hp. unfold forward. rewrite Hr, Hp.
  destruct data as [|c data]; cbn [andb Py.truthy].
  - cbn [length Z.of_nat]. now rewrite count_data_0.
  - rewrite orb_true_r. reflexivity.
Qed.

Lemma forward_not_ready a data n :
  serial_ready n = false -> forward a data n = (n, [], Go).
Proof. intros Hr. unfold forward. now rewrite Hr. Qed.

Lemma serial_written_forward (data : bytes) :
  serial_written (match data with [] => [] | _ => [SerWrite data] end) = data.
Proof. destruct data; cbn; [reflexivity|]. now rewrite app_nil_r. Qed.

(** X8.  The bridge is transparent for payload: when the serial port is
    in service, a chunk in which well-formed frames stand between pieces
    of payload has exactly its payload written to the port, in order, and
    counted as OUT; the frames are taken out.  (The chunk holds neither
    [DISCONNECT] nor [BADPWD], which end the loop.) *)
Theorem bridge_forwards_payload_between_frames
    (a : Args) (n : node) (p0 : bytes) (fs : list (bytes * bytes)) :
  serial_ready n = true -> namedpipe a = None ->
  well_framed p0 fs ->
  let chunk := wire p0 fs in
  chunk <> [] ->
  Py.contains DISCONNECT_CMD chunk = false -> Py.contains BAD_PWD_MSG chunk = false ->
  let r := run_recv a chunk n in
  flow_of r = Go /\
  serial_written (out_of r) = payload_of p0 fs /\
  out_count (st_of r) = out_count n + Z.of_nat (length (payload_of p0 fs)) /\
  in_count (st_of r) = in_count n.
Proof.
  intros Hr Hp Hw chunk Hc Hd Hb r.
  pose proof (re_sub_nohash_wire p0 fs Hw) as Hsub. fold chunk in Hsub.
  subst r. clearbody chunk. unfold run_recv.
  destruct chunk as [|c chunk]; [easy|]. rewrite Hd.
  destruct (Py.contains (B "__#") (c :: chunk)) eqn:H1.
  - unfold andthen.
    destruct (tame_control_branch a (c :: chunk) n)
      as (n1 & o1 & f1 & -> & W1 & O1 & I1 & P1 & R1 & _ & B1).
    rewrite (B1 Hb). rewrite Hsub.
    rewrite (forward_ready a _ n1 (R1 Hr) Hp).
    unfold flow_of, out_of, st_of. cbn [fst snd].
    rewrite br_serial_written_app, W1, serial_written_forward. cbn [app].
    repeat split; cbn [count_data out_count in_count]; congruence.
  - assert (payload_of p0 fs = c :: chunk) as <-.
    { rewrite <- Hsub. apply sub_go_id; [apply frame_nohash_none|exact H1]. }
    rewrite (forward_ready a _ n Hr Hp).
    unfold flow_of, out_of, st_of. cbn [fst snd].
    rewrite serial_written_forward. repeat split.
Qed.

Lemma bridge_forwards_payload_witness :
  let chunk := B "login: __#KEEPALIVE#____#GETVER#__root# " in
  let r := run_recv Ex.br_args chunk Ex.br_ready in
  chunk = wire (B "login: ") [(B "KEEPALIVE", []); (B "GETVER", B "root# ")] /\
  flow_of r = Go /\
  serial_written (out_of r) = B "login: root# " /\
  out_count (st_of r) = 13.
Proof.
  cbv zeta. split; [reflexivity|].
  destruct (bridge_forwards_payload_between_frames Ex.br_args Ex.br_ready
              (B "login: ") [(B "KEEPALIVE", []); (B "GETVER", B "root# ")])
    as (Hf & Hw & Ho & _); try reflexivity.
  - split; [reflexivity|]. repeat constructor; cbn; intuition discriminate.
  - discriminate.
  - split; [exact Hf|]. split; [exact Hw|exact Ho].
Defined.

(** One pass on a socket chunk while the serial side is out of service. *)
Lemma run_recv_not_ready a chunk n :
  serial_ready n = false -> Py.contains (B "__#COM_PARAMS_") chunk = false ->
  let r := run_recv a chunk n in
  serial_ready (st_of r) = false /\ serial_written (out_of r) = [] /\
  out_count (st_of r) = out_count n.
Proof.
  intros Hr Hc. cbv zeta. unfold run_recv. destruct chunk as [|c chunk].
  - now repeat split.
  - destruct (Py.contains DISCONNECT_CMD (c :: chunk)); [now repeat split|].
    destruct (Py.contains (B "__#") (c :: chunk)).
    + unfold andthen.
      destruct (tame_control_branch a (c :: chunk) n)
        as (n1 & o1 & f1 & -> & W1 & O1 & I1 & P1 & _ & C1 & _).
      specialize (C1 Hc). rewrite Hr in C1.
      destruct f1.
      * rewrite (forward_not_ready a _ n1 C1).
        unfold out_of, st_of. cbn [fst snd]. rewrite app_nil_r. now repeat split.
      * unfold out_of, st_of. cbn [fst snd]. now repeat split.
    + rewrite (forward_not_ready a _ n Hr). now repeat split.
Qed.

(** X9.  Until the server's [COM_PARAMS] frame has arrived, the bridge
    writes nothing to its serial port: whatever comes in from the socket
    in the meantime, payload included, is dropped and not counted. *)
Theorem bridge_drops_payload_until_params (a : Args) (n : node) (ins : list input) :
  serial_ready n = false -> forallb no_params ins = true ->
  let r := run_loop a n ins in
  serial_ready (fst r) = false /\ serial_written (snd r) = [] /\
  out_count (fst r) = out_count n.
Proof.
  cbv zeta. revert n. induction ins as [|i ins IH]; intros n Hr Hall.
  - now repeat split.
  - cbn [forallb] in Hall. apply andb_true_iff in Hall as [Hi Hall].
    destruct i as [chunk|s_data]; cbn [run_loop].
    + cbn [no_params] in Hi. apply negb_true_iff in Hi.
      pose proof (run_recv_not_ready a chunk n Hr Hi) as S. cbv zeta in S.
      destruct (run_recv a chunk n) as [[n1 o1] f1].
      unfold st_of, out_of in S. cbn [fst snd] in S. destruct S as (R1 & W1 & O1).
      destruct f1; [|now repeat split].
      specialize (IH n1 R1 Hall). destruct (run_loop a n1 ins) as [n2 o2].
      cbn [fst snd] in *. destruct IH as (R2 & W2 & O2).
      rewrite br_serial_written_app, W1, W2. repeat split; congruence.
    + unfold run_serial.
      destruct s_data as [|c s_data].
      * specialize (IH n Hr Hall). destruct (run_loop a n ins) as [n2 o2].
        exact IH.
      * specialize (IH (count_data n false (Z.of_nat (length (c :: s_data)))) Hr Hall).
        destruct (run_loop a _ ins) as [n2 o2]. cbn [fst snd] in *.
        destruct IH as (R2 & W2 & O2). cbn [app]. repeat split; assumption.
Qed.

Lemma bridge_drops_payload_witness :
  let n := fst (run_setup Ex.br_args init) in
  let r := run_loop Ex.br_args n
             [NetRecv (B "__#GETVER#__"); NetRecv (B "login: "); SerialRead (B "x");
              NetRecv (B "root# ")] in
  serial_ready (fst r) = false /\ serial_written (snd r) = [] /\ out_count (fst r) = 0.
Proof.
  apply (bridge_drops_payload_until_params Ex.br_args (fst (run_setup Ex.br_args init)));
    reflexivity.
Defined.

End BridgeRuns.

(** ** The client's side of the stream *)

Module ClientRunFacts.
Import Client ClientFacts.

Lemma shown_app o1 o2 : shown (o1 ++ o2) = shown o1 ++ shown o2.
Proof. unfold shown. now rewrite flat_map_app. Qed.

Lemma calm_andthen data f g : calm data f -> calm data g -> calm data (f >> g).
Proof.
  intros Hf Hg c. unfold andthen.
  destruct (Hf c) as (c1 & o1 & f1 & -> & S1 & R1 & T1 & G1). destruct f1.
  - destruct (Hg c1) as (c2 & o2 & f2 & -> & S2 & R2 & T2 & G2).
    exists c2, (o1 ++ o2), f2. rewrite shown_app, S1, S2.
    repeat split; try congruence. exact G2.
  - exists c1, o1, Break. repeat split; auto.
Qed.

Lemma calm_getver data : calm data (on_getver data).
Proof.
  intros c. unfold on_getver. destruct (Py.contains _ _);
    eexists _, _, _; (split; [reflexivity|]); repeat split.
Qed.

Lemma calm_get_ka a data : calm data (on_get_ka a data).
Proof.
  intros c. unfold on_get_ka. destruct (Py.contains _ _);
    eexists _, _, _; (split; [reflexivity|]); repeat split.
Qed.

Lemma calm_srv_ver data : calm data (on_srv_ver data).
Proof.
  intros c. unfold on_srv_ver. destruct (Py.contains _ _);
    [destruct (Py.split_nth _ _ _)|];
    eexists _, _, _; (split; [reflexivity|]); repeat split.
Qed.

Lemma calm_badpwd data : calm data (on_badpwd data).
Proof.
  intros c. unfold on_badpwd. destruct (Py.contains _ _) eqn:E;
    eexists _, _, _; (split; [reflexivity|]); repeat split; discriminate.
Qed.

Lemma calm_disconnect data : calm data (on_disconnect data).
Proof.
  intros c. unfold on_disconnect. destruct (Py.contains _ _) eqn:E;
    eexists _, _, _; (split; [reflexivity|]); repeat split; discriminate.
Qed.

Lemma calm_com_params data : calm data (on_com_params data).
Proof.
  intros c. unfold on_com_params. destruct (Py.contains _ _);
    [destruct (Py.split_nth _ _ _)|];
    eexists _, _, _; (split; [reflexivity|]); repeat split.
Qed.

Lemma calm_handlers a data :
  calm data (on_getver data >> on_get_ka a data >> on_srv_ver data >>
             on_badpwd data >> on_disconnect data >> on_com_params data).
Proof.
  repeat (apply calm_andthen;
          [first [apply calm_getver|apply calm_get_ka|apply calm_srv_ver
                 |apply calm_badpwd|apply calm_disconnect]|]).
  apply calm_com_params.
Qed.

Lemma cl_andthen_assoc (f g h : client -> step) c :
  ((f >> g) >> h) c = (f >> (g >> h)) c.
Proof.
  unfold andthen. destruct (f c) as [[c1 o1] [|]]; [|reflexivity].
  destruct (g c1) as [[c2 o2] [|]]; [|reflexivity].
  destruct (h c2) as [[c3 o3] f3]. now rewrite app_assoc.
Qed.

Lemma cl_andthen_ext (f g g' : client -> step) :
  (forall c, g c = g' c) -> forall c, (f >> g) c = (f >> g') c.
Proof.
  intros H c. unfold andthen. destruct (f c) as [[c1 o1] [|]]; [|reflexivity].
  now rewrite H.
Qed.

(** The handlers of the receive thread, with the display step set apart. *)
Lemma receive_chain a data c :
  (on_getver data >> on_get_ka a data >> on_srv_ver data >>
   on_badpwd data >> on_disconnect data >> on_com_params data >>
   show_remaining data) c =
  ((on_getver data >> on_get_ka a data >> on_srv_ver data >>
    on_badpwd data >> on_disconnect data >> on_com_params data) >>
   show_remaining data) c.
Proof.
  symmetry. revert c.
  do 5 (intros c; rewrite cl_andthen_assoc; revert c; apply cl_andthen_ext).
  reflexivity.
Qed.

Lemma andthen_go (f g : client -> step) c c1 o1 :
  f c = (c1, o1, Go) ->
  (f >> g) c = let '(c2, o2, f2) := g c1 in (c2, o1 ++ o2, f2).
Proof. intros E. unfold andthen. now rewrite E. Qed.

End ClientRunFacts.

Section FrameFactsLazy.

Lemma wire_has_opener (p0 : bytes) (fs : list (bytes * bytes)) :
  fs <> [] -> Py.contains (B "__#") (wire p0 fs) = true.
Proof.
  intros H. destruct (wire_opens p0 fs H) as (t & rest & ->).
  apply contains_app_r, starts_with_contains, starts_with_self.
Qed.

(** [re.sub(r'__#.*?#__', '', text)] on a well-framed stream whose frames
    hold no newline leaves the payload. *)
Lemma re_sub_lazy_wire (p0 : bytes) (fs : list (bytes * bytes)) :
  well_framed p0 fs -> Forall (fun f => ~ In "010"%char (fst f)) fs ->
  Py.re_sub Py.frame_lazy (wire p0 fs) = payload_of p0 fs.
Proof.
  unfold well_framed, payload_of, Py.re_sub. revert p0.
  induction fs as [|[t p] fs IH]; intros p0 [H0 Hfs] Hnl.
  - cbn [wire map concat]. rewrite app_nil_r.
    apply sub_go_id; [apply frame_lazy_none|exact H0].
  - apply Forall_cons in Hfs as [[Ht Hp] Hfs]. cbn [fst snd] in Ht, Hp.
    apply Forall_cons in Hnl as [Hn Hnl]. cbn [fst] in Hn.
    cbn [wire map concat snd]. unfold frame at 1. rewrite <- !app_assoc.
    rewrite (sub_go_prefix _ p0 _ frame_lazy_none H0). f_equal.
    replace (B "__#" ++ t ++ B "#__" ++ wire p fs) with (frame t ++ wire p fs)
      by (unfold frame; now rewrite <- !app_assoc).
    rewrite (sub_go_frame _ t _ (frame_lazy_frame t _ Ht Hn)).
    apply IH; [now split|exact Hnl].
Qed.

End FrameFactsLazy.

Section Utf8Facts.

Lemma utf8_go_start (c : ascii) (s : bytes) :
  Py.utf8_ignore_go (c :: s) 0 0 =
    if fst (Py.utf8_head (c :: s))
    then c :: Py.utf8_ignore_go s (Nat.pred (snd (Py.utf8_head (c :: s)))) 0
    else Py.utf8_ignore_go s 0 (Nat.pred (snd (Py.utf8_head (c :: s)))).
Proof.
  cbn [Py.utf8_ignore_go]. now destruct (Py.utf8_head (c :: s)) as [[|] n].
Qed.

Lemma utf8_keep (s : bytes) (k : nat) :
  (k <= length s)%nat ->
  Py.utf8_ignore_go s k 0 = take k s ++ Py.utf8_ignore_go (drop k s) 0 0.
Proof.
  revert s. induction k as [|k IH]; intros s Hk; [reflexivity|].
  destruct s as [|c s]; [cbn in Hk; lia|].
  cbn [Py.utf8_ignore_go take drop app]. f_equal. apply IH. cbn in Hk. lia.
Qed.

Lemma utf8_skip (s : bytes) (k : nat) :
  Py.utf8_ignore_go s 0 k = Py.utf8_ignore_go (drop k s) 0 0.
Proof.
  revert s. induction k as [|k IH]; intros s; [reflexivity|].
  destruct s as [|c s]; [reflexivity|]. cbn [Py.utf8_ignore_go drop]. apply IH.
Qed.

Lemma utf8_head_bound (s : bytes) :
  s <> [] -> (1 <= snd (Py.utf8_head s) <= length s)%nat.
Proof.
  destruct s as [|c1 s]; [easy|]. intros _. unfold Py.utf8_head.
  destruct (_ <? 128)%nat; [cbn; lia|].
  destruct (_ <? 194)%nat; [cbn; lia|].
  destruct (_ <? 224)%nat.
  { destruct s as [|c2 s]; [cbn; lia|]. destruct (Py.is_cont c2); cbn; lia. }
  destruct (_ <? 240)%nat.
  { destruct s as [|c2 s]; [cbn; lia|]. destruct (_ || _); [cbn; lia|].
    destruct s as [|c3 s]; [cbn; lia|]. destruct (Py.is_cont c3); cbn; lia. }
  destruct (_ <? 245)%nat; [|cbn; lia].
  destruct s as [|c2 s]; [cbn; lia|]. destruct (_ || _); [cbn; lia|].
  destruct s as [|c3 s]; [cbn; lia|]. destruct (negb _); [cbn; lia|].
  destruct s as [|c4 s]; [cbn; lia|]. destruct (Py.is_cont c4); cbn; lia.
Qed.

(** One step of the decoder. *)
Lemma utf8_ignore_unroll (s : bytes) :
  s <> [] ->
  Py.utf8_ignore s =
    (if fst (Py.utf8_head s) then take (snd (Py.utf8_head s)) s else []) ++
    Py.utf8_ignore (drop (snd (Py.utf8_head s)) s).
Proof.
  intros Hs. pose proof (utf8_head_bound s Hs) as Hb.
  destruct s as [|c s]; [easy|]. unfold Py.utf8_ignore. rewrite utf8_go_start.
  destruct (snd (Py.utf8_head (c :: s))) as [|n]; [lia|]. cbn [Nat.pred length] in *.
  destruct (fst (Py.utf8_head (c :: s))).
  - rewrite utf8_keep by lia. reflexivity.
  - rewrite utf8_skip. reflexivity.
Qed.

(** A byte that continues no sequence ends the look-ahead as the end of
    the data does. *)
Lemma utf8_head_sync (x : bytes) (c : ascii) (y : bytes) :
  x <> [] -> Py.is_cont c = false ->
  Py.utf8_head (x ++ c :: y) = Py.utf8_head x.
Proof.
  intros Hx Hc. destruct x as [|c1 x]; [easy|]. cbn [app]. unfold Py.utf8_head.
  destruct (_ <? 128)%nat; [reflexivity|].
  destruct (_ <? 194)%nat; [reflexivity|].
  destruct (_ <? 224)%nat.
  { destruct x as [|c2 x]; cbn [app]; [now rewrite Hc|reflexivity]. }
  destruct (_ <? 240)%nat.
  { destruct x as [|c2 x]; cbn [app]; [now rewrite Hc|].
    destruct (_ || _); [reflexivity|].
    destruct x as [|c3 x]; cbn [app]; [now rewrite Hc|reflexivity]. }
  destruct (_ <? 245)%nat; [|reflexivity].
  destruct x as [|c2 x]; cbn [app]; [now rewrite Hc|].
  destruct (_ || _); [reflexivity|].
  destruct x as [|c3 x]; cbn [app]; [now rewrite Hc|].
  destruct (negb _); [reflexivity|].
  destruct x as [|c4 x]; cbn [app]; [now rewrite Hc|reflexivity].
Qed.

Lemma ascii_not_cont (c : ascii) : (nat_of_ascii c < 128)%nat -> Py.is_cont c = false.
Proof.
  intros H. unfold Py.is_cont. apply andb_false_iff. left. apply Nat.leb_gt. exact H.
Qed.

Lemma utf8_ignore_cons (c : ascii) (s : bytes) :
  (nat_of_ascii c < 128)%nat -> Py.utf8_ignore (c :: s) = c :: Py.utf8_ignore s.
Proof.
  intros H. unfold Py.utf8_ignore. rewrite utf8_go_start. unfold Py.utf8_head.
  apply Nat.ltb_lt in H. now rewrite H.
Qed.

(** An ASCII byte is left in place, and the decoding of what stands
    before it and after it does not depend on the other side. *)
Lemma utf8_ignore_sync (x : bytes) (c : ascii) (y : bytes) :
  (nat_of_ascii c < 128)%nat ->
  Py.utf8_ignore (x ++ c :: y) = Py.utf8_ignore x ++ c :: Py.utf8_ignore y.
Proof.
  intros Hc. remember (length x) as n eqn:Hn. revert x Hn.
  induction n as [n IH] using lt_wf_ind. intros x Hn.
  destruct x as [|c1 x]; [now apply utf8_ignore_cons|].
  pose proof (utf8_head_bound (c1 :: x) ltac:(discriminate)) as Hb.
  rewrite (utf8_ignore_unroll ((c1 :: x) ++ c :: y)) by discriminate.
  rewrite (utf8_ignore_unroll (c1 :: x)) by discriminate.
  rewrite (utf8_head_sync (c1 :: x) c y ltac:(discriminate) (ascii_not_cont c Hc)).
  set (k := snd (Py.utf8_head (c1 :: x))) in *.
  rewrite take_app_le, drop_app_le by lia.
  rewrite (IH (length (drop k (c1 :: x)))); [now rewrite app_assoc| |reflexivity].
  rewrite length_drop. subst n. lia.
Qed.

Lemma utf8_ignore_ascii_app (a s : bytes) :
  Forall (fun c => (nat_of_ascii c < 128)%nat) a ->
  Py.utf8_ignore (a ++ s) = a ++ Py.utf8_ignore s.
Proof.
  induction 1 as [|c a Hc _ IH]; [reflexivity|].
  cbn [app]. rewrite utf8_ignore_cons by exact Hc. now rewrite IH.
Qed.

Lemma In_utf8_ignore_go (b : ascii) (s : bytes) (k j : nat) :
  In b (Py.utf8_ignore_go s k j) -> In b s.
Proof.
  revert k j. induction s as [|c s IH]; intros k j; [easy|].
  destruct k as [|k].
  - destruct j as [|j].
    + rewrite utf8_go_start. destruct (fst _).
      * intros [->|H]; [now left|right; eauto].
      * intros H. right. eauto.
    + cbn [Py.utf8_ignore_go]. intros H. right. eauto.
  - cbn [Py.utf8_ignore_go]. intros [->|H]; [now left|right; eauto].
Qed.

Lemma In_utf8_ignore (b : ascii) (s : bytes) : In b (Py.utf8_ignore s) -> In b s.
Proof. apply In_utf8_ignore_go. Qed.

Lemma utf8_ignore_frame (t rest : bytes) :
  Py.utf8_ignore (frame t ++ rest) = frame (Py.utf8_ignore t) ++ Py.utf8_ignore rest.
Proof.
  unfold frame. rewrite <- !app_assoc.
  rewrite (utf8_ignore_ascii_app (B "__#")) by (repeat constructor; apply Nat.ltb_lt; reflexivity).
  f_equal.
  change (t ++ B "#__" ++ rest) with (t ++ "#"%char :: B "__" ++ rest).
  rewrite utf8_ignore_sync by (apply Nat.ltb_lt; reflexivity).
  rewrite (utf8_ignore_ascii_app (B "__")) by (repeat constructor; apply Nat.ltb_lt; reflexivity).
  reflexivity.
Qed.

Lemma utf8_ignore_wire (p0 : bytes) (fs : list (bytes * bytes)) :
  Py.utf8_ignore (wire p0 fs) =
    wire (Py.utf8_ignore p0)
         (map (fun f => (Py.utf8_ignore (fst f), Py.utf8_ignore (snd f))) fs).
Proof.
  revert p0. induction fs as [|[t p] fs IH]; intros p0; [reflexivity|].
  cbn [wire map fst snd].
  assert (frame t ++ wire p fs = "_"%char :: (B "_#" ++ t ++ B "#__") ++ wire p fs) as E
    by reflexivity.
  rewrite E, utf8_ignore_sync by (apply Nat.ltb_lt; reflexivity).
  rewrite <- utf8_ignore_cons by (apply Nat.ltb_lt; reflexivity).
  rewrite <- E, utf8_ignore_frame, IH. reflexivity.
Qed.

(** The client's filter on a well-framed stream whose payload is valid
    UTF-8 and whose frames hold no newline: it leaves the payload. *)
Lemma decoded_wire_sub (p0 : bytes) (fs : list (bytes * bytes)) :
  well_framed p0 fs -> Forall (fun f => ~ In "010"%char (fst f)) fs ->
  Forall (fun p => Py.utf8_ignore p = p) (p0 :: map snd fs) ->
  Py.re_sub Py.frame_lazy (Py.utf8_ignore (wire p0 fs)) = payload_of p0 fs.
Proof.
  intros [H0 Hfs] Hnl Hv. apply Forall_cons in Hv as [V0 Vs].
  rewrite utf8_ignore_wire, re_sub_lazy_wire.
  - unfold payload_of. rewrite V0. f_equal. f_equal. rewrite map_map. cbn [snd].
    clear - Vs. induction fs as [|f fs IH]; [reflexivity|].
    cbn [map] in *. apply Forall_cons in Vs as [V Vs]. now rewrite V, IH.
  - split; [now rewrite V0|].
    clear - Hfs Vs. induction fs as [|f fs IH]; [constructor|].
    cbn [map] in *. apply Forall_cons in Vs as [V Vs]. apply Forall_cons in Hfs as [[Ht Hp] Hfs].
    constructor; [|now apply IH]. cbn [fst snd]. split; [|now rewrite V].
    intros Hin. now apply In_utf8_ignore in Hin.
  - clear - Hnl. induction fs as [|f fs IH]; [constructor|].
    cbn [map]. apply Forall_cons in Hnl as [Hn Hnl]. constructor; [|now apply IH].
    cbn [fst]. intros Hin. now apply In_utf8_ignore in Hin.
Qed.

(** Frames only: nothing is left. *)
Lemma decoded_frames_sub (fs : list (bytes * bytes)) :
  well_framed [] fs -> Forall (fun f => ~ In "010"%char (fst f)) fs ->
  payload_of [] fs = [] ->
  Py.re_sub Py.frame_lazy (Py.utf8_ignore (wire [] fs)) = [].
Proof.
  intros W Hnl Pl. rewrite decoded_wire_sub; [exact Pl|exact W|exact Hnl|].
  constructor; [reflexivity|]. unfold payload_of in Pl. cbn [app] in Pl.
  clear - Pl. induction fs as [|f fs IH]; [constructor|].
  cbn [map concat] in *. apply app_eq_nil in Pl as [P1 P2].
  constructor; [now rewrite P1|now apply IH].
Qed.

End Utf8Facts.

Section ClientRuns.
Import Client ClientFacts ClientRunFacts.

(** X10.  The client shows the payload that shares a chunk with frames:
    for a chunk in which well-formed one-line frames stand between pieces
    of payload that is valid UTF-8, the frames are taken out and the
    payload is written to the screen in order, unless frames were there
    and the payload is nothing but white space, in which case nothing is
    shown; the receive counter grows by the full length of the chunk
    either way. *)
Theorem client_shows_payload_between_frames
    (a : Args) (c : client) (p0 : bytes) (fs : list (bytes * bytes)) :
  well_framed p0 fs -> Forall (fun f => ~ In "010"%char (fst f)) fs ->
  Forall (fun p => Py.utf8_ignore p = p) (p0 :: map snd fs) ->
  let chunk := wire p0 fs in
  chunk <> [] ->
  Py.contains DISCONNECT_CMD chunk = false -> Py.contains BAD_PWD_MSG chunk = false ->
  let r := _receive_thread a chunk c in
  flow_of r = Go /\
  shown (out_of r) =
    (if bool_decide (fs <> []) && Py.utf8_blank (payload_of p0 fs) then []
     else payload_of p0 fs) /\
  recv_count (st_of r) = recv_count c + Z.of_nat (length chunk).
Proof.
  intros Hw Hnl Hv chunk Hc Hd Hb r.
  pose proof (decoded_wire_sub p0 fs Hw Hnl Hv) as Hsub. fold chunk in Hsub.
  assert (Py.contains (B "__#") chunk = match fs with [] => false | _ => true end) as H1.
  { destruct fs as [|f fs]; [exact (proj1 Hw)|]. now apply wire_has_opener. }
  assert (fs = [] -> payload_of p0 fs = chunk) as Hp0.
  { intros ->. unfold payload_of, chunk. cbn. apply app_nil_r. }
  subst r. clearbody chunk. unfold _receive_thread.
  destruct chunk as [|x chunk]; [easy|]. rewrite H1.
  destruct fs as [|f fs].
  - rewrite (Hp0 eq_refl). unfold flow_of, out_of, st_of. cbn [fst snd shown flat_map].
    rewrite app_nil_r. now repeat split.
  - rewrite receive_chain.
    destruct (calm_handlers a (x :: chunk) (add_recv c (Z.of_nat (length (x :: chunk)))))
      as (c1 & o1 & f1 & E & S1 & R1 & _ & G1).
    rewrite (G1 Hb Hd) in E. rewrite (andthen_go _ _ _ _ _ E).
    unfold show_remaining. rewrite Hsub.
    unfold flow_of, out_of, st_of.
    rewrite bool_decide_true by discriminate. cbn [andb].
    destruct (Py.utf8_blank (payload_of p0 (f :: fs))); cbn [fst snd];
      rewrite shown_app, S1; cbn [shown flat_map app]; rewrite ?app_nil_r;
      repeat split; exact R1.
Qed.

Lemma client_shows_payload_witness :
  let chunk := B "login: __#KEEPALIVE#____#GETVER#__root# " in
  let r := _receive_thread Ex.cl_args chunk init in
  chunk = wire (B "login: ") [(B "KEEPALIVE", []); (B "GETVER", B "root# ")] /\
  flow_of r = Go /\ shown (out_of r) = B "login: root# " /\
  recv_count (st_of r) = 40.
Proof.
  cbv zeta. split; [reflexivity|].
  destruct (client_shows_payload_between_frames Ex.cl_args init
              (B "login: ") [(B "KEEPALIVE", []); (B "GETVER", B "root# ")])
    as (Hf & Hs & Hr); try reflexivity.
  - split; [reflexivity|]. repeat constructor; cbn; intuition discriminate.
  - repeat constructor; cbn; intuition discriminate.
  - repeat constructor.
  - discriminate.
  - split; [exact Hf|]. split; [exact Hs|exact Hr].
Defined.

End ClientRuns.

(** ** What the counters count *)

Section CounterClaims.




End CounterClaims.


(** ** Frames sent by one program and read by another *)

Section Announcements.

(** Text without the separator is one piece. *)
Lemma split_go_no_sep (sep s cur : bytes) :
  Py.contains sep s = false -> Py.split_go sep s O cur = [rev cur ++ s].
Proof.
  revert cur. induction s as [|c s IH]; intros cur H.
  - cbn. now rewrite app_nil_r.
  - cbn [Py.contains] in H. apply orb_false_iff in H as [H1 H2].
    cbn [Py.split_go]. rewrite H1, (IH _ H2). cbn [rev].
    now rewrite <- app_assoc.
Qed.

(** The piece before the first [#__], when no [#] comes earlier. *)
Lemma split_go_closer (u v cur : bytes) :
  ~ In "#"%char u ->
  hd [] (Py.split_go (B "#__") (u ++ B "#__" ++ v) O cur) = rev cur ++ u.
Proof.
  revert cur. induction u as [|c u IH]; intros cur H.
  - cbn. now rewrite app_nil_r.
  - assert (Ascii.eqb "#" c = false) as Hc
      by (apply Ascii.eqb_neq; intros <-; apply H; now left).
    change ((c :: u) ++ B "#__" ++ v) with (c :: u ++ B "#__" ++ v).
    assert (Py.starts_with (B "#__") (c :: u ++ B "#__" ++ v) = false) as Hs.
    { change (Py.starts_with (B "#__") (c :: u ++ B "#__" ++ v)) with
        (Ascii.eqb "#" c && Py.starts_with (B "__") (u ++ B "#__" ++ v)).
      now rewrite Hc. }
    cbn [Py.split_go]. rewrite Hs, IH.
    + cbn [rev]. now rewrite <- app_assoc.
    + intros Hin. apply H. now right.
Qed.

Lemma starts_with_cons (a b : ascii) (p s : bytes) :
  Py.starts_with (a :: p) (b :: s) = Ascii.eqb a b && Py.starts_with p s.
Proof. reflexivity. Qed.

(** After a body without [#], the closing [#__] opens no frame named by
    a character other than [_]. *)
Lemma closer_opens_nothing (k : ascii) (pat body : bytes) :
  k <> "_"%char -> ~ In "#"%char body ->
  Py.contains (B "__#" ++ k :: pat) (body ++ B "#__") = false.
Proof.
  intros Hk. assert (Ascii.eqb k "_" = false) as Hk' by now apply Ascii.eqb_neq.
  induction body as [|c body IH]; intros H.
  - cbn [app B list_ascii_of_string Py.contains Py.starts_with].
    reflexivity.
  - change ((c :: body) ++ B "#__") with (c :: body ++ B "#__").
    cbn [Py.contains]. rewrite IH by (intros Hin; apply H; now right).
    rewrite orb_false_r.
    destruct body as [|d [|e body]];
      cbn [app B list_ascii_of_string Py.starts_with].
    + destruct (Ascii.eqb _ c); reflexivity.
    + destruct (Ascii.eqb _ c); [|reflexivity].
      destruct (Ascii.eqb _ d); [|reflexivity].
      change (Ascii.eqb "#" "#") with true. cbn [andb].
      rewrite Hk'. reflexivity.
    + assert (Ascii.eqb "#" e = false) as He
        by (apply Ascii.eqb_neq; intros <-; apply H; cbn; tauto).
      rewrite He. now rewrite !andb_false_r.
Qed.

(** A frame whose body holds no [#] contains the opener of no other
    frame: a pattern [__#k..] occurs in [__#body#__] only if the body
    starts with [k]. *)
Lemma frame_opens_once (k : ascii) (pat body : bytes) :
  k <> "_"%char -> k <> "#"%char -> ~ In "#"%char body ->
  hd_error body <> Some k ->
  Py.contains (B "__#" ++ k :: pat) (frame body) = false.
Proof.
  intros Hk Hh H Hhd. unfold frame.
  assert (Py.contains (B "__#" ++ k :: pat) (body ++ B "#__") = false) as Hc
    by now apply closer_opens_nothing.
  assert (Py.starts_with (k :: pat) (body ++ B "#__") = false) as Hs.
  { destruct body as [|c body].
    - cbn [app B list_ascii_of_string Py.starts_with].
      assert (Ascii.eqb k "#" = false) as -> by now apply Ascii.eqb_neq.
      reflexivity.
    - cbn [app Py.starts_with].
      assert (Ascii.eqb k c = false) as ->; [|reflexivity].
      apply Ascii.eqb_neq. intros <-. now apply Hhd. }
  change (B "__#" ++ body ++ B "#__") with
    ("_"%char :: "_"%char :: "#"%char :: body ++ B "#__").
  cbn [Py.contains]. rewrite Hc.
  change (B "__#" ++ k :: pat) with ("_"%char :: "_"%char :: "#"%char :: k :: pat).
  rewrite !starts_with_cons, Hs.
  change (Ascii.eqb "_" "_") with true. change (Ascii.eqb "#" "#") with true.
  change (Ascii.eqb "_" "#") with false. cbn [andb orb]. reflexivity.
Qed.

(** Text that begins and ends with a character other than white space is
    its own [strip()]. *)
Lemma strip_tight (c d : ascii) (s : bytes) :
  Py.is_space c = false -> Py.is_space d = false ->
  Py.strip (c :: s ++ [d]) = c :: s ++ [d].
Proof.
  intros Hc Hd. unfold Py.strip. cbn [Py.lstrip]. rewrite Hc.
  change (c :: s ++ [d]) with ((c :: s) ++ [d]). rewrite rev_app_distr.
  cbn [rev app Py.lstrip]. rewrite Hd.
  change (d :: rev s ++ [c]) with ([d] ++ rev (c :: s)).
  rewrite rev_app_distr, rev_involutive. reflexivity.
Qed.

(** How the three programs read a [COM_PARAMS] frame whose body holds no
    [#]: the text after the opener, up to the closing [#__]. *)
Lemma params_frame_read (body : bytes) :
  ~ In "#"%char body ->
  let data := B "__#COM_PARAMS_" ++ body ++ B "#__" in
  Py.contains (B "__#COM_PARAMS_") data = true /\
  Py.split_nth (B "__#COM_PARAMS_") data 1 = Some (body ++ B "#__") /\
  Py.split_hd (B "#__") (body ++ B "#__") = body /\
  Py.strip data = data.
Proof.
  intros H data. split; [|split; [|split]].
  - apply starts_with_contains, starts_with_self.
  - unfold Py.split_nth, data. rewrite split_at_front by discriminate.
    unfold Py.split.
    rewrite split_go_no_sep
      by (apply (closer_opens_nothing "C" (B "OM_PARAMS_")); [discriminate|exact H]).
    reflexivity.
  - unfold Py.split_hd, Py.split.
    pose proof (split_go_closer body [] [] H) as E. rewrite app_nil_r in E.
    destruct (Py.split_go (B "#__") (body ++ B "#__") 0 []); exact E.
  - unfold data.
    change (B "__#COM_PARAMS_" ++ body ++ B "#__") with
      ("_"%char :: (B "_#COM_PARAMS_" ++ body ++ B "#__")).
    replace (B "_#COM_PARAMS_" ++ body ++ B "#__") with
      ((B "_#COM_PARAMS_" ++ body ++ B "#_") ++ ["_"%char])
      by (rewrite <- !app_assoc; reflexivity).
    now apply strip_tight.
Qed.

End Announcements.

Section ParamsExchange.
Import ServerFacts BridgeFacts BridgeRunFacts ClientFacts ClientRunFacts.

Lemma br_andthen_go (f g : Bridge.node -> Bridge.step) n n1 o1 :
  f n = (n1, o1, Bridge.Go) ->
  Bridge.andthen f g n = let '(n2, o2, f2) := g n1 in (n2, o1 ++ o2, f2).
Proof. intros E. unfold Bridge.andthen. now rewrite E. Qed.

Lemma srv_andthen_go (f g : Server.srv -> Server.step) s s1 o1 :
  f s = (s1, o1, Server.Go) ->
  Server.andthen f g s = let '(s2, o2, f2) := g s1 in (s2, o1 ++ o2, f2).
Proof. intros E. unfold Server.andthen. now rewrite E. Qed.

(** A [COM_PARAMS] frame as a frame, and what it does not contain. *)
Lemma params_frame_facts (body : bytes) :
  ~ In "#"%char body ->
  let data := B "__#COM_PARAMS_" ++ body ++ B "#__" in
  data <> [] /\
  Py.contains (B "__#") data = true /\ Py.contains (B "#__") data = true /\
  Py.contains DISCONNECT_CMD data = false /\ Py.contains BAD_PWD_MSG data = false /\
  Py.contains (B "__#PWD_") data = false /\
  Py.re_sub Py.frame_nohash data = [] /\
  (~ In "010"%char body -> Py.re_sub Py.frame_lazy data = []).
Proof.
  intros H data.
  assert (data = frame (B "COM_PARAMS_" ++ body)) as E
    by (unfold data, frame; now rewrite <- !app_assoc).
  assert (~ In "#"%char (B "COM_PARAMS_" ++ body)) as Hb.
  { intros Hin. apply in_app_or in Hin as [Hin|Hin]; [|now apply H].
    cbn in Hin. intuition discriminate. }
  split; [discriminate|]. split; [apply starts_with_contains; reflexivity|].
  split.
  { unfold data. rewrite app_assoc. apply contains_app_r, starts_with_contains.
    reflexivity. }
  rewrite E.
  split; [apply (frame_opens_once "D" (B "ISCONNECT#__")); try discriminate; exact Hb|].
  split; [apply (frame_opens_once "B" (B "ADPWD#__")); try discriminate; exact Hb|].
  split; [apply (frame_opens_once "P" (B "WD_")); try discriminate; exact Hb|].
  split.
  - unfold Py.re_sub. rewrite <- (app_nil_r (frame _)).
    now rewrite (sub_go_frame _ _ _ (frame_nohash_frame _ _ Hb)).
  - intros Hn.
    assert (~ In "010"%char (B "COM_PARAMS_" ++ body)) as Hn'.
    { intros Hin. apply in_app_or in Hin as [Hin|Hin]; [|now apply Hn].
      cbn in Hin. intuition discriminate. }
    unfold Py.re_sub. rewrite <- (app_nil_r (frame _)).
    now rewrite (sub_go_frame _ _ [] (frame_lazy_frame _ _ Hb Hn')).
Qed.

Lemma params_body_no_hash (port line : bytes) (baud : Z) :
  ~ In "#"%char port -> ~ In "#"%char line ->
  ~ In "#"%char (port ++ B " " ++ Py.str baud ++ B " " ++ line).
Proof.
  intros Hp Hl Hin. rewrite !in_app_iff in Hin.
  destruct Hin as [Hin|[Hin|[Hin|[Hin|Hin]]]]; auto.
  - cbn in Hin. intuition discriminate.
  - now apply str_no_hash in Hin.
  - cbn in Hin. intuition discriminate.
Qed.

Lemma params_body_no_newline (port line : bytes) (baud : Z) :
  ~ In "010"%char port -> ~ In "010"%char line ->
  ~ In "010"%char (port ++ B " " ++ Py.str baud ++ B " " ++ line).
Proof.
  intros Hp Hl Hin. rewrite !in_app_iff in Hin.
  destruct Hin as [Hin|[Hin|[Hin|[Hin|Hin]]]]; auto.
  - cbn in Hin. intuition discriminate.
  - now apply str_no_newline in Hin.
  - cbn in Hin. intuition discriminate.
Qed.

(** X11.  The bridge records the serial parameters as the server
    announces them: on the server's [COM_PARAMS] frame (port name and line
    setting free of [#]) it stores the stripped text [port baud line],
    puts its serial side into service and writes nothing to the port. *)
Theorem bridge_reads_server_params
    (sa : Server.Args) (a : Bridge.Args) (n : Bridge.node) :
  ~ In "#"%char (Server.comport sa) -> ~ In "#"%char (Server.line sa) ->
  let body := Server.comport sa ++ B " " ++ Py.str (Server.baud sa) ++ B " " ++
              Server.line sa in
  let r := Bridge.run_recv a (Server.srv_params sa) n in
  Bridge.flow_of r = Bridge.Go /\
  Bridge.remote_params (Bridge.st_of r) = Py.strip body /\
  Bridge.serial_ready (Bridge.st_of r) = true /\
  Bridge.awaiting_params (Bridge.st_of r) = false /\
  Bridge.serial_written (Bridge.out_of r) = [].
Proof.
  intros Hp Hl body r.
  pose proof (params_body_no_hash _ _ (Server.baud sa) Hp Hl) as Hb. fold body in Hb.
  assert (Server.srv_params sa = B "__#COM_PARAMS_" ++ body ++ B "#__") as E
    by (unfold Server.srv_params, body; now rewrite <- !app_assoc).
  destruct (params_frame_facts body Hb) as (Hne & H1 & _ & Hd & Hbad & _ & Hsub & _).
  destruct (params_frame_read body Hb) as (Hc & Hs1 & Hs2 & Hst).
  subst r. rewrite E. set (data := B "__#COM_PARAMS_" ++ body ++ B "#__") in *.
  rewrite (br_run_recv_control a data n Hne Hd H1).
  destruct (tame_badpwd data n) as (n1 & o1 & f1 & E1 & W1 & _ & _ & _ & _ & _ & G1).
  rewrite (G1 Hbad) in E1. rewrite (br_andthen_go _ _ _ _ _ E1).
  destruct (tame_srv_ver a data n1) as (n2 & o2 & f2 & E2 & W2 & _ & _ & _ & _ & _ & G2).
  rewrite (G2 Hbad) in E2. rewrite (br_andthen_go _ _ _ _ _ E2).
  destruct (tame_my_ka a data n2) as (n3 & o3 & f3 & E3 & W3 & _ & _ & _ & _ & _ & G3).
  rewrite (G3 Hbad) in E3. rewrite (br_andthen_go _ _ _ _ _ E3).
  destruct (tame_debug a data n3) as (n4 & o4 & f4 & E4 & W4 & _ & _ & _ & _ & _ & G4).
  rewrite (G4 Hbad) in E4. rewrite (br_andthen_go _ _ _ _ _ E4).
  assert (Bridge.on_com_params data n4 =
            (Bridge.set_params n4 (Py.strip body),
             [Bridge.LogMsg (Bridge.LogRemoteParams (Py.strip body))], Bridge.Go)) as E5.
  { unfold Bridge.on_com_params. rewrite Hc, Hst, Hs1, Hs2. reflexivity. }
  rewrite (br_andthen_go _ _ _ _ _ E5).
  destruct (tame_requests a data (Bridge.set_params n4 (Py.strip body)))
    as (n6 & o6 & f6 & E6 & W6 & _ & _ & _ & _ & _ & G6).
  rewrite (G6 Hbad) in E6. rewrite (br_andthen_go _ _ _ _ _ E6).
  assert (n6 = Bridge.set_params n4 (Py.strip body)) as ->.
  { revert E6. unfold Bridge.on_requests.
    repeat (destruct (Py.contains _ data)); now intros [= <- _]. }
  rewrite Hsub. unfold Bridge.forward, Bridge.flow_of, Bridge.st_of, Bridge.out_of.
  cbn [Bridge.serial_ready Bridge.set_params Py.truthy andb fst snd].
  rewrite !br_serial_written_app, W1, W2, W3, W4, W6. now repeat split.
Qed.

Lemma bridge_reads_server_params_witness :
  let r := Bridge.run_recv Ex.br_args (B "__#COM_PARAMS_SRV-A 9600 8N1N#__") Bridge.init in
  Bridge.flow_of r = Bridge.Go /\
  Bridge.remote_params (Bridge.st_of r) = B "SRV-A 9600 8N1N" /\
  Bridge.serial_ready (Bridge.st_of r) = true /\
  Bridge.awaiting_params (Bridge.st_of r) = false /\
  Bridge.serial_written (Bridge.out_of r) = [].
Proof.
  apply (bridge_reads_server_params Ex.srv_args Ex.br_args Bridge.init);
    cbn; intuition discriminate.
Defined.

(** X12.  The server records the serial parameters as the bridge
    announces them: on the bridge's [COM_PARAMS] frame (port name and line
    setting free of [#]; nothing buffered) it stores the stripped text
    [port baud line], stays in the loop and writes nothing to its serial
    endpoint. *)
Theorem server_reads_bridge_params
    (a : Bridge.Args) (sa : Server.Args) (s : Server.srv) :
  ~ In "#"%char (Bridge.port_name a) -> ~ In "#"%char (Bridge.line a) ->
  Server.packet_buffer s = [] ->
  let body := Bridge.port_name a ++ B " " ++ Py.str (Bridge.baud a) ++ B " " ++
              Bridge.line a in
  let r := Server.main_recv sa (Bridge.com_params a) s in
  Server.flow_of r = Server.Go /\
  Server.remote_params (Server.st_of r) = Py.strip body /\
  Server.serial_written (Server.out_of r) = [].
Proof.
  intros Hp Hl Hbuf body r.
  pose proof (params_body_no_hash _ _ (Bridge.baud a) Hp Hl) as Hb. fold body in Hb.
  assert (Bridge.com_params a = B "__#COM_PARAMS_" ++ body ++ B "#__") as E
    by (unfold Bridge.com_params, body; now rewrite <- !app_assoc).
  destruct (params_frame_facts body Hb) as (Hne & H1 & H2 & Hd & _ & Hpwd & _ & _).
  destruct (params_frame_read body Hb) as (Hc & Hs1 & Hs2 & _).
  subst r. rewrite E. set (data := B "__#COM_PARAMS_" ++ body ++ B "#__") in *.
  assert (Server.serial_written (Server.out_of (Server.main_recv sa data s)) = []) as W.
  { apply control_chunk_not_written. now rewrite Hbuf. }
  assert (Server.main_recv sa data s = Server.control_branch sa data (Server.set_buffer s []))
    as Em.
  { pose proof (main_recv_control sa data s Hne) as Em. rewrite Hbuf in Em.
    cbn [app] in Em. rewrite control_branch_replies. now apply Em. }
  rewrite Em in *. clear Em.
  split; [|split; [|exact W]].
  - clear W. unfold Server.control_branch.
    destruct (benign_keepalive sa data (Server.set_buffer s [])) as (s1 & o1 & E1 & _).
    rewrite (srv_andthen_go _ _ _ _ _ E1).
    destruct (benign_version sa data s1) as (s2 & o2 & E2 & _).
    rewrite (srv_andthen_go _ _ _ _ _ E2).
    destruct (benign_getver sa data s2) as (s3 & o3 & E3 & _).
    rewrite (srv_andthen_go _ _ _ _ _ E3).
    destruct (benign_get_ka sa data s3) as (s4 & o4 & E4 & _).
    rewrite (srv_andthen_go _ _ _ _ _ E4).
    destruct (benign_ask sa data s4) as (s5 & o5 & E5 & _).
    rewrite (srv_andthen_go _ _ _ _ _ E5).
    destruct (benign_com_params sa data s5) as (s6 & o6 & E6 & _).
    rewrite (srv_andthen_go _ _ _ _ _ E6).
    unfold Server.andthen, Server.on_pwd, Server.on_disconnect. rewrite Hpwd, Hd.
    reflexivity.
  - clear W. unfold Server.control_branch.
    destruct (benign_keepalive sa data (Server.set_buffer s [])) as (s1 & o1 & E1 & _).
    rewrite (srv_andthen_go _ _ _ _ _ E1).
    destruct (benign_version sa data s1) as (s2 & o2 & E2 & _).
    rewrite (srv_andthen_go _ _ _ _ _ E2).
    destruct (benign_getver sa data s2) as (s3 & o3 & E3 & _).
    rewrite (srv_andthen_go _ _ _ _ _ E3).
    destruct (benign_get_ka sa data s3) as (s4 & o4 & E4 & _).
    rewrite (srv_andthen_go _ _ _ _ _ E4).
    destruct (benign_ask sa data s4) as (s5 & o5 & E5 & _).
    rewrite (srv_andthen_go _ _ _ _ _ E5).
    unfold Server.andthen, Server.on_com_params, Server.on_pwd, Server.on_disconnect.
    rewrite Hc, Hs1, Hs2, Hpwd, Hd. reflexivity.
Qed.

Lemma server_reads_bridge_params_witness :
  let r := Server.main_recv Ex.srv_args (B "__#COM_PARAMS_BR-A 9600 8N1N#__") Ex.accepted in
  Server.flow_of r = Server.Go /\
  Server.remote_params (Server.st_of r) = B "BR-A 9600 8N1N" /\
  Server.serial_written (Server.out_of r) = [].
Proof.
  apply (server_reads_bridge_params Ex.br_args Ex.srv_args Ex.accepted);
    cbn; try reflexivity; intuition discriminate.
Defined.

(** X13.  The client records the serial parameters as the server
    announces them, and keeps the frame off the screen: on the server's
    [COM_PARAMS] frame (port name and line setting free of [#] and of
    newlines) it stores the stripped text [port baud line] and shows
    nothing. *)
Theorem client_reads_server_params
    (sa : Server.Args) (a : Client.Args) (c : Client.client) :
  ~ In "#"%char (Server.comport sa) -> ~ In "#"%char (Server.line sa) ->
  ~ In "010"%char (Server.comport sa) -> ~ In "010"%char (Server.line sa) ->
  let body := Server.comport sa ++ B " " ++ Py.str (Server.baud sa) ++ B " " ++
              Server.line sa in
  let r := Client._receive_thread a (Server.srv_params sa) c in
  Client.flow_of r = Client.Go /\
  Client.remote_params (Client.st_of r) = Py.strip body /\
  Client.shown (Client.out_of r) = [].
Proof.
  intros Hp Hl Hpn Hln body r.
  pose proof (params_body_no_hash _ _ (Server.baud sa) Hp Hl) as Hb. fold body in Hb.
  pose proof (params_body_no_newline _ _ (Server.baud sa) Hpn Hln) as Hn.
  fold body in Hn.
  assert (Server.srv_params sa = B "__#COM_PARAMS_" ++ body ++ B "#__") as E
    by (unfold Server.srv_params, body; now rewrite <- !app_assoc).
  destruct (params_frame_facts body Hb) as (Hne & H1 & _ & Hd & Hbad & _ & _ & _).
  destruct (params_frame_read body Hb) as (Hc & Hs1 & Hs2 & _).
  assert (Py.re_sub Py.frame_lazy
            (Py.utf8_ignore (B "__#COM_PARAMS_" ++ body ++ B "#__")) = []) as Hdec.
  { replace (B "__#COM_PARAMS_" ++ body ++ B "#__")
      with (wire [] [(B "COM_PARAMS_" ++ body, [])])
      by (cbn [wire app]; unfold frame; now rewrite app_nil_r, <- !app_assoc).
    apply decoded_frames_sub; [|constructor; [|constructor]|].
    - split; [reflexivity|]. constructor; [|constructor]. split; [|reflexivity].
      cbn [fst]. intros Hin. apply in_app_or in Hin as [Hin|Hin]; [|now apply Hb].
      cbn in Hin. intuition discriminate.
    - cbn [fst]. intros Hin. apply in_app_or in Hin as [Hin|Hin]; [|now apply Hn].
      cbn in Hin. intuition discriminate.
    - reflexivity. }
  subst r. rewrite E. set (data := B "__#COM_PARAMS_" ++ body ++ B "#__") in *.
  clearbody data. unfold Client._receive_thread. destruct data as [|x data]; [easy|].
  rewrite H1. set (c0 := Client.add_recv c _). set (d := x :: data) in *.
  destruct (calm_getver d c0) as (c1 & o1 & f1 & E1 & S1 & _ & _ & G1).
  rewrite (G1 Hbad Hd) in E1. rewrite (andthen_go _ _ _ _ _ E1).
  destruct (calm_get_ka a d c1) as (c2 & o2 & f2 & E2 & S2 & _ & _ & G2).
  rewrite (G2 Hbad Hd) in E2. rewrite (andthen_go _ _ _ _ _ E2).
  destruct (calm_srv_ver d c2) as (c3 & o3 & f3 & E3 & S3 & _ & _ & G3).
  rewrite (G3 Hbad Hd) in E3. rewrite (andthen_go _ _ _ _ _ E3).
  destruct (calm_badpwd d c3) as (c4 & o4 & f4 & E4 & S4 & _ & _ & G4).
  rewrite (G4 Hbad Hd) in E4. rewrite (andthen_go _ _ _ _ _ E4).
  destruct (calm_disconnect d c4) as (c5 & o5 & f5 & E5 & S5 & _ & _ & G5).
  rewrite (G5 Hbad Hd) in E5. rewrite (andthen_go _ _ _ _ _ E5).
  unfold Client.andthen, Client.on_com_params, Client.show_remaining.
  rewrite Hc, Hs1, Hs2, Hdec.
  unfold Client.flow_of, Client.st_of, Client.out_of.
  cbn [Py.utf8_blank Py.utf8_blank_go fst snd].
  rewrite !shown_app, S1, S2, S3, S4, S5. now repeat split.
Qed.

Lemma client_reads_server_params_witness :
  let r := Client._receive_thread Ex.cl_args (B "__#COM_PARAMS_SRV-A 9600 8N1N#__")
             Client.init in
  Client.flow_of r = Client.Go /\
  Client.remote_params (Client.st_of r) = B "SRV-A 9600 8N1N" /\
  Client.shown (Client.out_of r) = [].
Proof.
  apply (client_reads_server_params Ex.srv_args Ex.cl_args Client.init);
    cbn; intuition discriminate.
Defined.

End ParamsExchange.

(** ** The server's frames at its peers *)

Module ServerSendFacts.
Import Server ServerFacts.

Lemma sends_frames_nil a : sends_frames a [].
Proof. intros d []. Qed.

Lemma sends_frames_app a o1 o2 :
  sends_frames a o1 -> sends_frames a o2 -> sends_frames a (o1 ++ o2).
Proof. intros H1 H2 d Hd. apply in_app_or in Hd as [Hd|Hd]; auto. Qed.

Local Ltac sends_list :=
  let d := fresh "d" in
  let Hd := fresh "Hd" in
  intros d Hd; cbn in Hd;
  repeat (destruct Hd as [Hd|Hd];
          [try discriminate Hd; injection Hd as <-; cbn; tauto|]);
  destruct Hd.

Lemma framed_andthen a f g : framed a f -> framed a g -> framed a (f >> g).
Proof.
  intros Hf Hg s. unfold andthen. specialize (Hf s).
  destruct (f s) as [[s1 o1] [|]]; [|exact Hf].
  specialize (Hg s1). destruct (g s1) as [[s2 o2] f2].
  unfold out_of in *. cbn [fst snd] in *. now apply sends_frames_app.
Qed.

Lemma framed_keepalive a data : framed a (on_keepalive data).
Proof. intros s. unfold on_keepalive. destruct (Py.contains _ _); cbn; sends_list. Qed.

Lemma framed_getver a data : framed a (on_getver data).
Proof. intros s. unfold on_getver. destruct (Py.contains _ _); cbn; sends_list. Qed.

Lemma framed_get_ka a data : framed a (on_get_ka a data).
Proof. intros s. unfold on_get_ka. destruct (Py.contains _ _); cbn; sends_list. Qed.

Lemma framed_ask a data : framed a (on_ask a data).
Proof. intros s. unfold on_ask. destruct (Py.contains _ _); cbn; sends_list. Qed.

Lemma framed_com_params a data : framed a (on_com_params data).
Proof.
  intros s. unfold on_com_params. destruct (Py.contains _ _);
    [destruct (Py.split_nth _ _ _)|]; cbn; sends_list.
Qed.

Lemma framed_pwd a data : framed a (on_pwd a data).
Proof.
  intros s. unfold on_pwd. destruct (Py.contains _ _);
    [destruct (received_pwd data);
       [destruct (pwd_eq _ _); [destruct (Py.eqb _ _)|]|]|]; cbn; sends_list.
Qed.

Lemma framed_disconnect a data : framed a (on_disconnect data).
Proof. intros s. unfold on_disconnect. destruct (Py.contains _ _); cbn; sends_list. Qed.

Lemma on_version_parts_framed a parts s out raised :
  sends_frames a out ->
  sends_frames a (snd (fst (fold_left (on_version_part a) parts (s, out, raised)))).
Proof.
  revert s out raised. induction parts as [|part parts IH]; intros s out raised D.
  - exact D.
  - cbn [fold_left].
    destruct (on_version_part a (s, out, raised) part) as [[s1 o1] r1] eqn:E.
    apply IH. revert E. unfold on_version_part. destruct raised.
    { now intros [= _ <- _]. }
    destruct (_ || _); [|now intros [= _ <- _]].
    destruct (Py.split_nth _ _ _); [|now intros [= _ <- _]].
    destruct (negb _).
    + destruct (Py.eqb _ _); intros [= _ <- _];
        repeat (apply sends_frames_app; [|sends_list]); exact D.
    + intros [= _ <- _]. apply sends_frames_app; [exact D|sends_list].
Qed.

Lemma framed_version a data : framed a (on_version a data).
Proof.
  intros s. unfold on_version. destruct (Py.contains _ _); [|apply sends_frames_nil].
  pose proof (on_version_parts_framed a (Py.split (B "__#") data) s [Seen VERSION] false)
    as H.
  destruct (fold_left _ _ _) as [[s1 o1] r1]. apply H. sends_list.
Qed.

Lemma framed_control_branch a data : framed a (control_branch a data).
Proof.
  unfold control_branch.
  repeat (apply framed_andthen;
          [first [apply framed_keepalive|apply framed_version|apply framed_getver
                 |apply framed_get_ka|apply framed_ask|apply framed_com_params
                 |apply framed_pwd]|]).
  apply framed_disconnect.
Qed.

Lemma framed_main_recv a chunk : framed a (main_recv a chunk).
Proof.
  intros s. unfold main_recv. destruct chunk as [|c chunk]; [apply sends_frames_nil|].
  destruct (Py.contains _ _).
  - destruct (negb _); [apply sends_frames_nil|apply framed_control_branch].
  - unfold payload_branch. destruct (_ && _); [destruct (_ && _)|]; cbn; sends_list.
Qed.

Lemma serve_sends_frames a s i : sends_frames a (snd (serve a s i)).
Proof.
  destruct i as [|chunk|[|i] data]; cbn [serve].
  - destruct (client_active s); cbn; sends_list.
  - destruct (client_active s); [|apply sends_frames_nil].
    pose proof (framed_main_recv a chunk s) as H.
    destruct (main_recv a chunk s) as [[s1 o1] [|]]; unfold out_of in H; cbn [fst snd] in *.
    + exact H.
    + apply sends_frames_app; [exact H|sends_list].
  - destruct (client_active s); [|apply sends_frames_nil].
    unfold serial_to_socket. destruct (negb _); [apply sends_frames_nil|].
    destruct data; cbn; sends_list.
  - destruct (stale s !! i) as [t|]; [|apply sends_frames_nil].
    destruct (t_alive t); [|apply sends_frames_nil].
    unfold serial_to_socket. destruct (negb _); [apply sends_frames_nil|].
    destruct data; cbn; sends_list.
Qed.

Lemma run_sends_frames a ins s : sends_frames a (snd (run a s ins)).
Proof.
  revert s. induction ins as [|i ins IH]; intros s; [apply sends_frames_nil|].
  cbn [run]. pose proof (serve_sends_frames a s i) as H.
  destruct (serve a s i) as [s1 o1]. specialize (IH s1).
  destruct (run a s1 ins) as [s2 o2]. now apply sends_frames_app.
Qed.

End ServerSendFacts.

Section HiddenFrames.
Import ServerSendFacts BridgeFacts BridgeRunFacts ClientFacts ClientRunFacts.

(** Every frame the server sends is well formed when the port name and
    the line setting hold neither [#] nor a newline. *)
Lemma sent_frames_well_formed (sa : Server.Args) (d : bytes) :
  ~ In "#"%char (Server.comport sa) -> ~ In "#"%char (Server.line sa) ->
  In d (Server.sent_frames sa) ->
  exists t, d = frame t /\ ~ In "#"%char t /\
    (~ In "010"%char (Server.comport sa) -> ~ In "010"%char (Server.line sa) ->
     ~ In "010"%char t).
Proof.
  intros Hp Hl Hd. unfold Server.sent_frames in Hd. cbn [In] in Hd.
  destruct Hd as [<-|[<-|[<-|[<-|[<-|[<-|[<-|[]]]]]]]].
  - exists (B "GETVER"). repeat split; cbn; intuition discriminate.
  - exists (B "GET_KA_TIMEOUT"). repeat split; cbn; intuition discriminate.
  - exists (B "SRV_VER_" ++ Server.CODE_VERSION). repeat split; cbn; intuition discriminate.
  - exists (B "MY_KA_TIMEOUT_" ++ Py.str (Server.keepalive sa)).
    split; [unfold Server.my_ka, frame; now rewrite <- !app_assoc|]. split.
    + intros Hin. apply in_app_or in Hin as [Hin|Hin];
        [cbn in Hin; intuition discriminate|now apply str_no_hash in Hin].
    + intros _ _ Hin. apply in_app_or in Hin as [Hin|Hin];
        [cbn in Hin; intuition discriminate|now apply str_no_newline in Hin].
  - exists (B "COM_PARAMS_" ++ Server.comport sa ++ B " " ++ Py.str (Server.baud sa) ++
            B " " ++ Server.line sa).
    split; [unfold Server.srv_params, frame; now rewrite <- !app_assoc|]. split.
    + intros Hin. apply in_app_or in Hin as [Hin|Hin];
        [cbn in Hin; intuition discriminate|].
      now apply (params_body_no_hash _ _ _ Hp Hl) in Hin.
    + intros Hpn Hln Hin. apply in_app_or in Hin as [Hin|Hin];
        [cbn in Hin; intuition discriminate|].
      now apply (params_body_no_newline _ _ _ Hpn Hln) in Hin.
  - exists (B "ASK_COM_PARAMS"). repeat split; cbn; intuition discriminate.
  - exists (B "BADPWD"). repeat split; cbn; intuition discriminate.
Qed.

(** Frames sent back to back make a well-framed stream without payload. *)
Lemma frames_wire (ds : list bytes) (P : bytes -> Prop) :
  Forall (fun d => exists t, d = frame t /\ ~ In "#"%char t /\ P t) ds ->
  exists fs, concat ds = wire [] fs /\ well_framed [] fs /\
             Forall (fun f => P (fst f)) fs /\ payload_of [] fs = [].
Proof.
  induction 1 as [|d ds (t & -> & Ht & HP) _ (fs & E & [_ W] & N & Pl)].
  - exists []. repeat split; constructor.
  - exists ((t, []) :: fs). cbn [concat wire app]. rewrite E.
    split; [reflexivity|]. split; [|split].
    + split; [reflexivity|]. constructor; [now split|exact W].
    + constructor; [exact HP|exact N].
    + unfold payload_of in *. cbn [map concat snd app] in *. exact Pl.
Qed.

(** The bridge writes nothing for a chunk that its filter empties. *)
Lemma bridge_writes_nothing a chunk n :
  Py.re_sub Py.frame_nohash chunk = [] ->
  Bridge.serial_written (Bridge.out_of (Bridge.run_recv a chunk n)) = [].
Proof.
  intros Hsub. unfold Bridge.run_recv. destruct chunk as [|c chunk]; [reflexivity|].
  destruct (Py.contains DISCONNECT_CMD _); [reflexivity|].
  destruct (Py.contains (B "__#") (c :: chunk)) eqn:H1.
  - rewrite Hsub. unfold Bridge.andthen.
    destruct (tame_control_branch a (c :: chunk) n) as (n1 & o1 & f1 & -> & W1 & _).
    destruct f1; [|exact W1].
    unfold Bridge.forward. rewrite andb_false_r. unfold Bridge.out_of. cbn [fst snd].
    now rewrite app_nil_r.
  - unfold Py.re_sub in Hsub.
    rewrite (sub_go_id _ _ frame_nohash_none H1) in Hsub. discriminate.
Qed.

(** The client shows nothing for a chunk with frames that its filter
    empties. *)
Lemma client_shows_nothing a chunk c :
  chunk = [] \/ Py.contains (B "__#") chunk = true ->
  Py.re_sub Py.frame_lazy (Py.utf8_ignore chunk) = [] ->
  Client.shown (Client.out_of (Client._receive_thread a chunk c)) = [].
Proof.
  intros Hc Hsub. unfold Client._receive_thread.
  destruct chunk as [|x chunk]; [reflexivity|].
  destruct Hc as [Hc|H1]; [discriminate|]. rewrite H1.
  rewrite receive_chain. unfold Client.andthen at 1.
  destruct (calm_handlers a (x :: chunk)
              (Client.add_recv c (Z.of_nat (length (x :: chunk)))))
    as (c1 & o1 & f1 & -> & S1 & _).
  destruct f1; [|exact S1].
  unfold Client.show_remaining. rewrite Hsub. unfold Client.out_of.
  cbn [Py.utf8_blank Py.utf8_blank_go fst snd]. now rewrite app_nil_r.
Qed.

(** X14.  No control frame of the server reaches the serial port behind
    a bridge: when the server's port name and line setting hold no [#],
    whatever the server sends from its session code in a run, one frame
    per chunk or several back to back, leaves the bridge's serial port
    untouched. *)
Theorem server_frames_stay_off_the_bridge_port
    (sa : Server.Args) (s : Server.srv) (ins : list Server.input) (ds : list bytes)
    (a : Bridge.Args) (n : Bridge.node) :
  ~ In "#"%char (Server.comport sa) -> ~ In "#"%char (Server.line sa) ->
  Forall (fun d => In (Server.SockSend d) (snd (Server.run sa s ins))) ds ->
  Bridge.serial_written (Bridge.out_of (Bridge.run_recv a (concat ds) n)) = [].
Proof.
  intros Hp Hl Hds.
  destruct (frames_wire ds (fun _ => True)) as (fs & E & W & _ & Pl).
  { eapply Forall_impl; [exact Hds|]. cbn beta. intros d Hd.
    apply (run_sends_frames sa ins s) in Hd.
    destruct (sent_frames_well_formed sa d Hp Hl Hd) as (t & -> & Ht & _).
    now exists t. }
  apply bridge_writes_nothing. rewrite E, (re_sub_nohash_wire [] fs W). exact Pl.
Qed.

Lemma server_frames_bridge_witness :
  let out := snd (Server.run Ex.srv_args Server.init
                    [Server.Accept; Server.Recv (B "__#BR_VER_0.0.70#____#GETVER#__")]) in
  let ds := [GETVER_CMD; GET_KA_TIMEOUT_CMD; Server.srv_ver] in
  Forall (fun d => In (Server.SockSend d) out) ds /\
  Bridge.serial_written
    (Bridge.out_of (Bridge.run_recv Ex.br_args (concat ds) Ex.br_ready)) = [].
Proof.
  cbv zeta.
  assert (Forall (fun d => In (Server.SockSend d)
                             (snd (Server.run Ex.srv_args Server.init
                                     [Server.Accept;
                                      Server.Recv (B "__#BR_VER_0.0.70#____#GETVER#__")])))
                 [GETVER_CMD; GET_KA_TIMEOUT_CMD; Server.srv_ver]) as H
    by (repeat constructor; vm_compute; tauto).
  split; [exact H|].
  apply (server_frames_stay_off_the_bridge_port Ex.srv_args Server.init
           [Server.Accept; Server.Recv (B "__#BR_VER_0.0.70#____#GETVER#__")]
           [GETVER_CMD; GET_KA_TIMEOUT_CMD; Server.srv_ver]
           Ex.br_args Ex.br_ready); [cbn; intuition discriminate..|exact H].
Defined.

(** X15.  No control frame of the server reaches the client's screen:
    when the server's port name and line setting hold neither [#] nor a
    newline, whatever the server sends from its session code in a run,
    one frame per chunk or several back to back, is not shown. *)
Theorem server_frames_stay_off_the_client_screen
    (sa : Server.Args) (s : Server.srv) (ins : list Server.input) (ds : list bytes)
    (a : Client.Args) (c : Client.client) :
  ~ In "#"%char (Server.comport sa) -> ~ In "#"%char (Server.line sa) ->
  ~ In "010"%char (Server.comport sa) -> ~ In "010"%char (Server.line sa) ->
  Forall (fun d => In (Server.SockSend d) (snd (Server.run sa s ins))) ds ->
  Client.shown (Client.out_of (Client._receive_thread a (concat ds) c)) = [].
Proof.
  intros Hp Hl Hpn Hln Hds.
  destruct (frames_wire ds (fun t => ~ In "010"%char t)) as (fs & E & W & N & Pl).
  { eapply Forall_impl; [exact Hds|]. cbn beta. intros d Hd.
    apply (run_sends_frames sa ins s) in Hd.
    destruct (sent_frames_well_formed sa d Hp Hl Hd) as (t & -> & Ht & Hn).
    exists t. auto. }
  rewrite E. apply client_shows_nothing.
  - destruct fs as [|f fs]; [now left|right]. now apply wire_has_opener.
  - now apply decoded_frames_sub.
Qed.

Lemma server_frames_client_witness :
  let out := snd (Server.run Ex.srv_args Server.init
                    [Server.Accept; Server.Recv (B "__#CL_VER_0.0.56#____#ASK_COM_PARAMS#__")]) in
  let ds := [GETVER_CMD; GET_KA_TIMEOUT_CMD; Server.srv_params Ex.srv_args] in
  Forall (fun d => In (Server.SockSend d) out) ds /\
  Client.shown
    (Client.out_of (Client._receive_thread Ex.cl_args (concat ds) Client.init)) = [].
Proof.
  cbv zeta.
  assert (Forall (fun d => In (Server.SockSend d)
                             (snd (Server.run Ex.srv_args Server.init
                                     [Server.Accept;
                                      Server.Recv
                                        (B "__#CL_VER_0.0.56#____#ASK_COM_PARAMS#__")])))
                 [GETVER_CMD; GET_KA_TIMEOUT_CMD; Server.srv_params Ex.srv_args]) as H
    by (repeat constructor; vm_compute; tauto).
  split; [exact H|].
  apply (server_frames_stay_off_the_client_screen Ex.srv_args Server.init
           [Server.Accept; Server.Recv (B "__#CL_VER_0.0.56#____#ASK_COM_PARAMS#__")]
           [GETVER_CMD; GET_KA_TIMEOUT_CMD; Server.srv_params Ex.srv_args]
           Ex.cl_args Client.init); [cbn; intuition discriminate..|exact H].
Defined.

End HiddenFrames.

(** ** The server's log windows *)

Module ServerUiFacts.
Import ServerUi.

Lemma length_push limit buf line :
  (length buf <= length (push limit buf line) <= S (length buf))%nat.
Proof.
  unfold push. destruct (_ <? _); rewrite ?length_drop, length_app; cbn; lia.
Qed.

(** The buffer keeps the latest [limit] lines. *)
Lemma push_latest limit (l : list bytes) line :
  0 <= limit -> push limit (latest limit l) line = latest limit (l ++ [line]).
Proof.
  intros Hl. unfold push, latest.
  assert (exists k, Z.to_nat limit = k /\ Z.of_nat k = limit) as (k & -> & Hk)
    by (exists (Z.to_nat limit); lia).
  rewrite !length_app, length_drop. cbn [length].
  destruct (limit <? _) eqn:E.
  - apply Z.ltb_lt in E.
    rewrite !drop_app, drop_drop, length_drop. f_equal; f_equal; lia.
  - apply Z.ltb_ge in E.
    replace (length l - k)%nat with 0%nat in * by lia. cbn [drop] in *.
    replace (length l + 1 - k)%nat with 0%nat by lia. reflexivity.
Qed.

Lemma latest_all {A} limit (l : list A) :
  (length l <= Z.to_nat limit)%nat -> latest limit l = l.
Proof. intros H. unfold latest. now replace (length l - _)%nat with 0%nat by lia. Qed.

Lemma log_msg_buffer a l d u :
  batch a = false -> notui a = false ->
  log_buffer (log_msg a l d u) =
    if d && negb (debug a) then log_buffer u
    else push (logbufferlines a) (log_buffer u) l.
Proof. intros Hb Hn. unfold log_msg. rewrite Hb, Hn. now destruct (_ && _). Qed.

Lemma log_msg_rest a l d u :
  transfer_buffer (log_msg a l d u) = transfer_buffer u /\
  active_window (log_msg a l d u) = active_window u /\
  scroll_offsets (log_msg a l d u) = scroll_offsets u /\
  (length (log_buffer u) <= length (log_buffer (log_msg a l d u)))%nat.
Proof.
  unfold log_msg. destruct (_ && _); [now repeat split|].
  destruct (batch a); [now repeat split|]. destruct (notui a); [now repeat split|].
  cbn. repeat split. apply length_push.
Qed.

Lemma handle_sigint_rest a lines u :
  transfer_buffer (handle_sigint a lines u) = transfer_buffer u /\
  active_window (handle_sigint a lines u) = active_window u /\
  scroll_offsets (handle_sigint a lines u) = scroll_offsets u /\
  (length (log_buffer u) <= length (log_buffer (handle_sigint a lines u)))%nat.
Proof.
  unfold handle_sigint. revert u. induction lines as [|l lines IH]; intros u.
  - now repeat split.
  - cbn [fold_left]. destruct (IH (log_msg a l false u)) as (T & A & S & L).
    destruct (log_msg_rest a l false u) as (T' & A' & S' & L').
    repeat split; try congruence. lia.
Qed.

Lemma log_transfer_rest a dir m u :
  log_buffer (log_transfer a dir m u) = log_buffer u /\
  active_window (log_transfer a dir m u) = active_window u /\
  scroll_offsets (log_transfer a dir m u) = scroll_offsets u /\
  (length (transfer_buffer u) <= length (transfer_buffer (log_transfer a dir m u)))%nat.
Proof.
  unfold log_transfer. destruct (showtransfer a); [|now repeat split].
  destruct (_ && _); [now repeat split|].
  destruct (batch a); [now repeat split|]. destruct (notui a); [now repeat split|].
  cbn. repeat split. apply length_push.
Qed.

(** What a key does to the log buffer. *)
Lemma kb_handler_log_buffer a key lines u :
  log_buffer (kb_handler a key lines u) =
    if Py.eqb key key_ctrl_c then log_buffer (handle_sigint a lines u) else log_buffer u.
Proof.
  unfold kb_handler. destruct key as [|c key]; [reflexivity|].
  destruct (Py.eqb (c :: key) key_tab) eqn:Et.
  { apply eqb_eq in Et. rewrite Et. cbn [andb].
    destruct (bool_decide _); [reflexivity|]. reflexivity. }
  cbn [andb].
  destruct (Py.eqb (c :: key) key_up_win) eqn:E1.
  { apply eqb_eq in E1. rewrite E1. reflexivity. }
  destruct (Py.eqb (c :: key) key_up) eqn:E2.
  { apply eqb_eq in E2. rewrite E2. reflexivity. }
  cbn [orb].
  destruct (Py.eqb (c :: key) key_down_win) eqn:E3.
  { apply eqb_eq in E3. rewrite E3. reflexivity. }
  destruct (Py.eqb (c :: key) key_down) eqn:E4.
  { apply eqb_eq in E4. rewrite E4. reflexivity. }
  cbn [orb]. now destruct (Py.eqb (c :: key) key_ctrl_c).
Qed.

Lemma handle_sigint_buffer a lines u :
  batch a = false -> notui a = false -> 0 <= logbufferlines a ->
  forall l0, log_buffer u = latest (logbufferlines a) l0 ->
  log_buffer (handle_sigint a lines u) = latest (logbufferlines a) (l0 ++ lines).
Proof.
  intros Hb Hn Hl. unfold handle_sigint. revert u.
  induction lines as [|l lines IH]; intros u l0 E.
  - cbn. now rewrite app_nil_r.
  - cbn [fold_left]. rewrite (IH _ (l0 ++ [l])).
    + now rewrite <- app_assoc.
    + rewrite log_msg_buffer by assumption. cbn [andb]. rewrite E.
      now apply push_latest.
Qed.

End ServerUiFacts.

Section ServerWindows.
Import ServerUi ServerUiFacts.

(** X16.  With the windows on, the log window's buffer holds exactly the
    latest [logbufferlines] lines that were logged, oldest first, whatever
    keys are pressed in between: older lines are dropped from the front,
    debug lines are taken only with [--debug]. *)
Theorem log_buffer_holds_latest_lines (a : Args) (evs : list event) :
  batch a = false -> notui a = false -> 0 <= logbufferlines a ->
  log_buffer (run a init evs) = latest (logbufferlines a) (logged a evs).
Proof.
  intros Hb Hn Hl.
  assert (forall u l0, log_buffer u = latest (logbufferlines a) l0 ->
            log_buffer (run a u evs) = latest (logbufferlines a) (l0 ++ logged a evs))
    as Hgen.
  { unfold run, logged. induction evs as [|e evs IH]; intros u l0 E.
    - cbn. now rewrite app_nil_r.
    - cbn [fold_left flat_map]. rewrite app_assoc. apply IH.
      destruct e as [key lines|l d|dir m]; cbn [step].
      + rewrite kb_handler_log_buffer. destruct (Py.eqb key key_ctrl_c).
        * now apply handle_sigint_buffer.
        * now rewrite app_nil_r.
      + rewrite log_msg_buffer by assumption. destruct (d && negb (debug a)).
        * now rewrite app_nil_r.
        * rewrite E. now apply push_latest.
      + destruct (log_transfer_rest a dir m u) as (-> & _). now rewrite app_nil_r. }
  apply (Hgen init []). reflexivity.
Qed.

Lemma log_buffer_witness :
  let a := {| debug := false; batch := false; notui := false; showtransfer := None;
              logbufferlines := 3; transferbufferlines := 3 |} in
  log_buffer (run a init [Log (B "one") false; Log (B "two") false; Key key_up [];
                           Log (B "dbg") true; Log (B "three") false;
                           Log (B "four") false]) =
    [B "two"; B "three"; B "four"].
Proof.
  apply (log_buffer_holds_latest_lines
           {| debug := false; batch := false; notui := false; showtransfer := None;
              logbufferlines := 3; transferbufferlines := 3 |});
    [reflexivity..|cbn; lia].
Defined.

Lemma in_range_init : in_range init.
Proof. split; [now left|]. exists 0, 0. cbn. repeat split; lia. Qed.

(** Buffers only grow, so offsets that were in range stay in range. *)
Lemma in_range_grow u u' :
  in_range u ->
  active_window u' = active_window u -> scroll_offsets u' = scroll_offsets u ->
  (length (log_buffer u) <= length (log_buffer u'))%nat ->
  (length (transfer_buffer u) <= length (transfer_buffer u'))%nat ->
  in_range u'.
Proof.
  intros (Ha & o0 & o1 & Es & B0 & B1) Ea Eo L T. split; [now rewrite Ea|].
  exists o0, o1. split; [congruence|]. lia.
Qed.

Lemma in_range_kb_handler a key lines u : in_range u -> in_range (kb_handler a key lines u).
Proof.
  intros H. unfold kb_handler. destruct key as [|c key]; [exact H|].
  destruct (Py.eqb (c :: key) key_tab && bool_decide (showtransfer a <> None)).
  { destruct H as (Ha & o0 & o1 & Es & B0 & B1). split.
    - cbn. destruct Ha as [-> | ->]; [now right|now left].
    - now exists o0, o1. }
  assert ((if bool_decide (showtransfer a <> None) then active_window u else 0) = 0 \/
          (if bool_decide (showtransfer a <> None) then active_window u else 0) = 1) as Hf.
  { destruct (bool_decide _); [apply H|now left]. }
  set (focus := if bool_decide (showtransfer a <> None) then active_window u else 0) in *.
  clearbody focus.
  destruct (Py.eqb (c :: key) key_up_win || Py.eqb (c :: key) key_up).
  { destruct H as (Ha & o0 & o1 & Es & B0 & B1). split; [exact Ha|].
    unfold set_offset, offset. cbn [scroll_offsets log_buffer transfer_buffer].
    rewrite Es. destruct Hf as [-> | ->].
    - change (Z.to_nat 0) with 0%nat. cbn. eexists _, _. split; [reflexivity|]. lia.
    - change (Z.to_nat 1) with 1%nat. cbn. eexists _, _. split; [reflexivity|]. lia. }
  destruct (Py.eqb (c :: key) key_down_win || Py.eqb (c :: key) key_down).
  { destruct H as (Ha & o0 & o1 & Es & B0 & B1). split; [exact Ha|].
    unfold set_offset, offset. cbn [scroll_offsets log_buffer transfer_buffer].
    rewrite Es. destruct Hf as [-> | ->].
    - change (Z.to_nat 0) with 0%nat. cbn. eexists _, _. split; [reflexivity|]. lia.
    - change (Z.to_nat 1) with 1%nat. cbn. eexists _, _. split; [reflexivity|]. lia. }
  destruct (Py.eqb (c :: key) key_ctrl_c); [|exact H].
  destruct (handle_sigint_rest a lines u) as (T & A & S & L).
  apply (in_range_grow u); auto. rewrite T. lia.
Qed.

Lemma in_range_step a u e : in_range u -> in_range (step a u e).
Proof.
  intros H. destruct e as [key lines|l d|dir m]; cbn [step].
  - now apply in_range_kb_handler.
  - destruct (log_msg_rest a l d u) as (T & A & S & L).
    apply (in_range_grow u); auto. rewrite T. lia.
  - destruct (log_transfer_rest a dir m u) as (Lg & A & S & T).
    apply (in_range_grow u); auto. rewrite Lg. lia.
Qed.

Lemma in_range_run a evs u : in_range u -> in_range (run a u evs).
Proof.
  unfold run. revert u. induction evs as [|e evs IH]; intros u H; [exact H|].
  cbn [fold_left]. apply IH. now apply in_range_step.
Qed.

(** The number of lines drawn for an offset inside the buffer. *)
Lemma length_display_lines height (buffer : list bytes) off :
  0 <= off <= Z.of_nat (length buffer) ->
  length (display_lines height buffer off) =
    Z.to_nat (Z.min height (Z.of_nat (length buffer) - off)).
Proof.
  intros Ho. unfold display_lines. destruct buffer as [|x buffer].
  - cbn in *. lia.
  - set (l := x :: buffer) in *. unfold Py.slice, Py.clip.
    set (n := Z.of_nat (length l)) in *.
    rewrite length_take, length_drop.
    destruct (Z.max 0 (n - off - height) <? 0) eqn:E1; [apply Z.ltb_lt in E1; lia|].
    destruct (n - off <? 0) eqn:E2; [apply Z.ltb_lt in E2; lia|].
    unfold n in *. lia.
Qed.

(** X17.  The operator cannot scroll a window out of its buffer: after
    any keys, log lines and transfers, each window that is drawn has a
    scroll offset between 0 and five lines short of the buffer's length,
    so the slice that is drawn is taken from inside the buffer, never
    has more lines than the window is high, and shows at least one line
    (at offset 0, the newest) once the buffer is not empty. *)
Theorem windows_stay_in_view
    (a : Args) (evs : list event) (rows window_id height off : Z) (buffer : list bytes) :
  window a rows window_id (run a init evs) = Some (height, buffer, off) ->
  let shown := render_window_content a rows window_id (run a init evs) in
  0 <= off <= Z.max 0 (Z.of_nat (length buffer) - 5) /\
  length shown = Z.to_nat (Z.min height (Z.of_nat (length buffer) - off)) /\
  (buffer <> [] -> 1 <= height -> shown <> []) /\
  (off = 0 -> 1 <= height -> last shown = last buffer).
Proof.
  intros Hw shown.
  pose proof (in_range_run a evs init in_range_init) as (_ & o0 & o1 & Es & B0 & B1).
  set (u := run a init evs) in *.
  assert (0 <= off <= Z.max 0 (Z.of_nat (length buffer) - 5)) as Ho.
  { revert Hw. unfold window, offset. rewrite Es.
    destruct (batch a || notui a); [discriminate|].
    destruct (showtransfer a).
    - destruct (window_id =? 0); intros [= <- <- <-]; cbn; lia.
    - destruct (negb _); [discriminate|]. intros [= <- <- <-]. cbn. lia. }
  assert (shown = display_lines height buffer off) as ->
    by (unfold shown, render_window_content; now rewrite Hw).
  assert (length (display_lines height buffer off) =
          Z.to_nat (Z.min height (Z.of_nat (length buffer) - off))) as Hlen
    by (apply length_display_lines; lia).
  split; [exact Ho|]. split; [exact Hlen|]. split.
  - intros Hne Hh Habs. rewrite Habs in Hlen. cbn [length] in Hlen.
    destruct buffer; [easy|]. cbn [length] in *. lia.
  - intros -> Hh. unfold display_lines. destruct buffer as [|x buffer]; [reflexivity|].
    set (l := x :: buffer). unfold Py.slice, Py.clip.
    set (n := Z.of_nat (length l)).
    assert (0 < n) by (unfold n, l; cbn [length]; lia).
    destruct (Z.max 0 (n - 0 - height) <? 0) eqn:E1; [apply Z.ltb_lt in E1; lia|].
    destruct (n - 0 <? 0) eqn:E2; [apply Z.ltb_lt in E2; lia|].
    rewrite take_ge by (rewrite length_drop; unfold n; lia).
    rewrite !last_lookup, length_drop, lookup_drop. f_equal. unfold n. lia.
Qed.

Lemma windows_stay_in_view_witness :
  let a := {| debug := false; batch := false; notui := false; showtransfer := None;
              logbufferlines := 10; transferbufferlines := 10 |} in
  let evs := [Log (B "l1") false; Log (B "l2") false; Log (B "l3") false;
              Log (B "l4") false; Log (B "l5") false; Log (B "l6") false;
              Log (B "l7") false; Key key_up []; Key key_up []; Key key_up []] in
  render_window_content a 5 0 (run a init evs) = [B "l3"; B "l4"; B "l5"] /\
  length (render_window_content a 5 0 (run a init evs)) = 3%nat.
Proof.
  cbv zeta. split; [reflexivity|].
  destruct (windows_stay_in_view
              {| debug := false; batch := false; notui := false; showtransfer := None;
                 logbufferlines := 10; transferbufferlines := 10 |}
              [Log (B "l1") false; Log (B "l2") false; Log (B "l3") false;
               Log (B "l4") false; Log (B "l5") false; Log (B "l6") false;
               Log (B "l7") false; Key key_up []; Key key_up []; Key key_up []]
              5 0 3 2
              [B "l1"; B "l2"; B "l3"; B "l4"; B "l5"; B "l6"; B "l7"] eq_refl)
    as (_ & Hlen & _).
  exact Hlen.
Defined.

End ServerWindows.

(** ** The server's configuration *)

Module ConfFacts.
Import Conf.

Lemma eqb_refl (x : bytes) : Py.eqb x x = true.
Proof. now apply eqb_eq. Qed.

Lemma eqb_false (x y : bytes) : Py.eqb x y = false <-> x <> y.
Proof.
  split.
  - intros H E. apply eqb_eq in E. congruence.
  - intros H. destruct (Py.eqb x y) eqn:E; [|reflexivity]. now apply eqb_eq in E.
Qed.

(** Reading an option after an assignment. *)
Lemma get_set (c : config) (k k' : bytes) (v : value) :
  get (set c k v) k' = if Py.eqb k k' then Some v else get c k'.
Proof.
  induction c as [|[k0 v0] c IH]; cbn [set get].
  - reflexivity.
  - destruct (Py.eqb k0 k) eqn:E0.
    + apply eqb_eq in E0 as ->. cbn [get]. now destruct (Py.eqb k k').
    + cbn [get]. rewrite IH. destruct (Py.eqb k0 k') eqn:E1; [|reflexivity].
      apply eqb_eq in E1 as ->. apply eqb_false in E0.
      destruct (Py.eqb k k') eqn:E2; [|reflexivity].
      apply eqb_eq in E2. congruence.
Qed.

(** Reading an option after a pass that rewrites every entry in place. *)
Lemma get_map (f : bytes * value -> bytes * value) (c : config) (k : bytes) :
  (forall key old, fst (f (key, old)) = key) ->
  get (map f c) k = (fun old => snd (f (k, old))) <$> get c k.
Proof.
  intros Hf. induction c as [|[k0 v0] c IH]; [reflexivity|].
  cbn [map get]. specialize (Hf k0 v0).
  destruct (f (k0, v0)) as [k1 v1] eqn:E. cbn [fst] in Hf. subst k1.
  destruct (Py.eqb k0 k) eqn:E0; [|exact IH].
  apply eqb_eq in E0 as ->. cbn. now rewrite E.
Qed.

End ConfFacts.

Module ServerConfFacts.
Import Conf ConfFacts ServerConf.

(** What the scan does to one option: it stays as it is, or it takes a
    converted text of the file. *)
Lemma scan_key_cases w sec key old e :
  scan_key w sec (key, old) = Some e ->
  fst e = key /\ (snd e = old \/ exists val0, convert w key val0 = Some (snd e)).
Proof.
  unfold scan_key. destruct (Py.eqb key _); [intros [= <-]; now split; [|left]|].
  destruct (find _ sec) as [[k [val0|]]|]; [|discriminate|intros [= <-]; now split; [|left]].
  intros [= <-]. split; [reflexivity|]. cbn [snd].
  destruct (convert w key val0) as [v|] eqn:E; [right; now exists val0|now left].
Qed.

Lemma get_scan_section w sec c k old :
  get c k = Some old ->
  exists v, get (fst (scan_section w sec c)) k = Some v /\
            (v = old \/ exists val0, convert w k val0 = Some v).
Proof.
  induction c as [|[k0 v0] c IH]; [discriminate|]. cbn [get scan_section].
  destruct (scan_key w sec (k0, v0)) as [[k1 v1]|] eqn:E.
  - apply scan_key_cases in E as [E1 E2]. cbn [fst snd] in E1, E2. subst k1.
    destruct (scan_section w sec c) as [c1 raised]. cbn [fst get] in *.
    destruct (Py.eqb k0 k) eqn:E0.
    + apply eqb_eq in E0 as ->. intros [= ->]. exists v1. split; [reflexivity|].
      destruct E2 as [->|E2]; [now left|now right].
    + exact IH.
  - cbn [fst get]. destruct (Py.eqb k0 k).
    + intros [= ->]. exists old. split; [reflexivity|now left].
    + intros H. exists old. split; [exact H|now left].
Qed.

Lemma get_scan_sections w sections c k old :
  get c k = Some old ->
  exists v, get (scan_sections w c sections) k = Some v /\
            (v = old \/ exists val0, convert w k val0 = Some v).
Proof.
  revert c old. induction sections as [|sec secs IH]; intros c old H.
  - exists old. split; [exact H|now left].
  - cbn [scan_sections].
    destruct (get_scan_section w sec c k old H) as (v & E & Hv).
    destruct (scan_section w sec c) as [c1 [|]]; cbn [fst] in E.
    + now exists v.
    + destruct (IH c1 v E) as (v' & E' & Hv'). exists v'. split; [exact E'|].
      destruct Hv' as [->|Hv']; [exact Hv|now right].
Qed.

Lemma override_cons c k0 v0 cli :
  override c ((k0, v0) :: cli) = override (if is_none v0 then c else set c k0 v0) cli.
Proof. reflexivity. Qed.

(** The command line, read back: an option given there wins, an option
    not given there leaves the configuration as it was. *)
Lemma get_override_absent (cli c : config) (k : bytes) :
  (forall v, In (k, v) cli -> v = VNone) -> get (override c cli) k = get c k.
Proof.
  revert c. induction cli as [|[k0 v0] cli IH]; intros c H.
  - reflexivity.
  - rewrite override_cons, IH by (intros v Hv; apply H; now right).
    destruct (is_none v0) eqn:E; [reflexivity|].
    rewrite get_set. destruct (Py.eqb k0 k) eqn:E0; [|reflexivity].
    apply eqb_eq in E0 as ->. rewrite (H v0) in E by now left. discriminate.
Qed.

Lemma get_override_given (cli c : config) (k : bytes) (v : value) :
  NoDup (map fst cli) -> In (k, v) cli -> v <> VNone ->
  get (override c cli) k = Some v.
Proof.
  revert c. induction cli as [|[k0 v0] cli IH]; intros c Hn Hin Hv.
  - destruct Hin.
  - cbn [map fst] in Hn. apply NoDup_cons in Hn as [Hk0 Hn].
    rewrite override_cons. destruct Hin as [[= -> ->]|Hin].
    + rewrite (get_override_absent cli).
      * destruct v; try easy; cbn [is_none]; rewrite get_set, eqb_refl; reflexivity.
      * intros v' Hv'. exfalso. apply Hk0.
        apply (list_elem_of_fmap_2 fst cli (k, v')). now apply list_elem_of_In.
    + now apply IH.
Qed.

(** A conversion never yields [None] as a value. *)
Lemma convert_not_none w key val0 v : convert w key val0 = Some v -> v <> VNone.
Proof.
  unfold convert. destruct (in_words key int_keys).
  { destruct (int _); cbn; [intros [= <-]|]; discriminate. }
  destruct (get (DEFAULT_CONFIG w) key) as [[| | |]|].
  - intros [= <-]. discriminate.
  - destruct (in_words _ _); [intros [= <-]; discriminate|].
    destruct (in_words _ _); [intros [= <-]|]; discriminate.
  - destruct (int _); cbn; [intros [= <-]|]; discriminate.
  - intros [= <-]. discriminate.
  - intros [= <-]. discriminate.
Qed.

(** An option that is set stays set through the file and the command line. *)
Lemma load_keeps_set w sections cli k :
  (exists v, get (DEFAULT_CONFIG w) k = Some v /\ v <> VNone) ->
  exists v, get (load_hierarchical_config w sections cli) k = Some v /\ v <> VNone.
Proof.
  unfold load_hierarchical_config. generalize (DEFAULT_CONFIG w) at 1 2. intros c H.
  assert (exists v, get (scan_sections w c sections) k = Some v /\ v <> VNone) as H1.
  { destruct H as (old & E & Hv).
    destruct (get_scan_sections w sections c k old E) as (v & E' & [->|(val0 & Hc)]).
    - now exists old.
    - exists v. split; [exact E'|]. now apply convert_not_none in Hc. }
  clear H. revert H1. generalize (scan_sections w c sections). clear c.
  induction cli as [|[k0 v0] cli IH]; intros c H.
  - exact H.
  - rewrite override_cons. apply IH. destruct (is_none v0) eqn:E; [exact H|].
    rewrite get_set. destruct (Py.eqb k0 k); [|exact H].
    exists v0. split; [reflexivity|]. intros ->. discriminate.
Qed.

End ServerConfFacts.

Section ServerConfiguration.
Import Conf ConfFacts ServerConf ServerConfFacts.

(** X18.  The server cannot be started on a named pipe: [comport] has a
    default and is never [None] in a loaded configuration, and
    [validate_args] refuses [comport] together with [namedpipe]; so every
    configuration that is loaded and accepted has no named pipe, and
    [main] opens the serial port. *)
Theorem server_never_gets_a_named_pipe
    (inet_aton : bytes -> bool) (win32 : bool) (sections : list section) (cli : config) :
  let args := load_hierarchical_config win32 sections cli in
  validate_args inet_aton win32 args = Some true ->
  attr args (B "comport") <> VNone /\ attr args (B "namedpipe") = VNone.
Proof.
  intros args Hv.
  assert (attr args (B "comport") <> VNone) as Hc.
  { destruct (load_keeps_set win32 sections cli (B "comport")) as (v & E & Hn).
    - destruct win32; eexists; (split; [reflexivity|discriminate]).
    - unfold attr, args. now rewrite E. }
  split; [exact Hc|].
  assert (is_none (attr args (B "comport")) = false) as Hc'
    by (destruct (attr args (B "comport")); easy).
  revert Hv. unfold validate_args. clearbody args.
  destruct (is_none (attr args (B "port"))); [discriminate|].
  destruct (_ || _ || _); [discriminate|].
  destruct (if truthy (attr args (B "address")) then _ else _) as [[|]|];
    [|discriminate..].
  rewrite Hc'. cbn [negb andb].
  destruct (attr args (B "namedpipe")); [reflexivity|discriminate..].
Qed.

Lemma server_named_pipe_witness :
  let cli := [(B "port", VInt 10001); (B "comport", VNone); (B "namedpipe", VNone)] in
  let args := load_hierarchical_config false [] cli in
  validate_args (fun _ => true) false args = Some true /\
  attr args (B "comport") = VStr (B "/dev/ttyS0") /\ attr args (B "namedpipe") = VNone /\
  validate_args (fun _ => true) true
    (load_hierarchical_config true []
       [(B "port", VInt 10001); (B "namedpipe", VStr (B "mypipe"))]) = Some false.
Proof.
  cbv zeta. split; [reflexivity|]. split; [reflexivity|].
  split; [|reflexivity].
  apply (server_never_gets_a_named_pipe (fun _ => true) false []
           [(B "port", VInt 10001); (B "comport", VNone); (B "namedpipe", VNone)]).
  reflexivity.
Defined.

(** The scan of one section, option by option. *)
Lemma scan_section_app w sec pre c :
  Forall (fun e => scan_key w sec e <> None) pre ->
  exists pre', fst (scan_section w sec (pre ++ c)) = pre' ++ fst (scan_section w sec c) /\
               snd (scan_section w sec (pre ++ c)) = snd (scan_section w sec c) /\
               map fst pre' = map fst pre.
Proof.
  induction 1 as [|[k0 v0] pre H _ (pre' & E1 & E2 & E3)]; [now exists []|].
  cbn [app scan_section].
  destruct (scan_key w sec (k0, v0)) as [e|] eqn:E; [|easy].
  apply scan_key_cases in E as [Ek _].
  destruct (scan_section w sec (pre ++ c)) as [c1 r1]. cbn [fst snd] in *.
  exists (e :: pre'). cbn [app map]. now rewrite E1, E2, E3, Ek.
Qed.

Lemma scan_section_raised w sec pre c :
  Exists (fun e => scan_key w sec e = None) pre ->
  exists pre', fst (scan_section w sec (pre ++ c)) = pre' ++ c /\
               snd (scan_section w sec (pre ++ c)) = true /\
               map fst pre' = map fst pre.
Proof.
  induction pre as [|[k0 v0] pre IH]; intros H; [now apply Exists_nil in H|].
  cbn [app scan_section].
  destruct (scan_key w sec (k0, v0)) as [e|] eqn:E.
  - apply Exists_cons in H as [H|H]; [congruence|].
    destruct (IH H) as (pre' & E1 & E2 & E3).
    apply scan_key_cases in E as [Ek _].
    destruct (scan_section w sec (pre ++ c)) as [c1 r1]. cbn [fst snd] in *.
    exists (e :: pre'). cbn [app map]. now rewrite E1, E2, E3, Ek.
  - exists ((k0, v0) :: pre). now cbn.
Qed.

Lemma get_app_skip (pre c : config) (k : bytes) :
  ~ In k (map fst pre) -> get (pre ++ c) k = get c k.
Proof.
  induction pre as [|[k0 v0] pre IH]; [reflexivity|]. cbn [map fst In app get].
  intros H. destruct (Py.eqb k0 k) eqn:E.
  - apply eqb_eq in E. tauto.
  - apply IH. tauto.
Qed.

(** X19.  Where an option's value comes from.  The command line wins
    whenever it gives the option.  Otherwise the configuration file
    decides, as long as it is read: the options are taken in the order
    of the defaults, each from the first entry of the section whose name
    matches whatever the case, when its text converts to the option's
    type; a lookup that raises ends the reading of the file, and the
    options not reached by then keep their defaults, as do the options
    the file does not name. *)
Theorem configuration_precedence
    (win32 : bool) (sections : list section) (cli : config) (key : bytes) (dflt : value)
    (pre post : config) :
  NoDup (map fst cli) ->
  DEFAULT_CONFIG win32 = pre ++ (key, dflt) :: post -> ~ In key (map fst pre) ->
  let args := load_hierarchical_config win32 sections cli in
  (forall v, In (key, v) cli -> v <> VNone -> attr args key = v) /\
  ((forall v, In (key, v) cli -> v = VNone) ->
   (sections = [] -> attr args key = dflt) /\
   (forall sec,
      sections = [sec] ->
      (Exists (fun e => scan_key win32 sec e = None) pre -> attr args key = dflt) /\
      (Forall (fun e => scan_key win32 sec e <> None) pre ->
       attr args key =
         match find (fun kv => Py.eqb (Py.lower (fst kv)) (Py.lower key)) sec with
         | Some (_, Some val0) =>
             if Py.eqb key (B "showtransfer") then dflt
             else default dflt (convert win32 key val0)
         | _ => dflt
         end))).
Proof.
  intros Hn Hd Hpre args. split.
  - intros v Hin Hv. unfold attr, args, load_hierarchical_config.
    now rewrite (get_override_given cli _ key v Hn Hin Hv).
  - intros Habs. unfold attr, args, load_hierarchical_config.
    rewrite (get_override_absent cli _ key Habs). split.
    + intros ->. cbn [scan_sections]. rewrite Hd, get_app_skip by exact Hpre.
      cbn [get]. now rewrite eqb_refl.
    + intros sec ->. cbn [scan_sections]. rewrite Hd. split.
      * intros Hex.
        destruct (scan_section_raised win32 sec pre ((key, dflt) :: post) Hex)
          as (pre' & E1 & E2 & E3).
        destruct (scan_section win32 sec (pre ++ (key, dflt) :: post)) as [c1 r1].
        cbn [fst snd] in E1, E2. subst c1 r1.
        rewrite get_app_skip by (now rewrite E3). cbn [get]. now rewrite eqb_refl.
      * intros Hall.
        destruct (scan_section_app win32 sec pre ((key, dflt) :: post) Hall)
          as (pre' & E1 & E2 & E3).
        destruct (scan_section win32 sec (pre ++ (key, dflt) :: post)) as [c1 r1].
        cbn [fst snd] in E1, E2. subst c1 r1.
        assert (forall (c : config) (r : bool),
                  get (if r then pre' ++ c else scan_sections win32 (pre' ++ c) [])
                              key = get c key) as Hget.
        { intros c r. destruct r; cbn [scan_sections]; apply get_app_skip; now rewrite E3. }
        rewrite Hget. cbn [scan_section].
        assert (scan_key win32 sec (key, dflt) =
                if Py.eqb key (B "showtransfer") then Some (key, dflt)
                else match find (fun kv => Py.eqb (Py.lower (fst kv)) (Py.lower key)) sec with
                     | Some (_, Some val0) => Some (key, default dflt (convert win32 key val0))
                     | Some (_, None) => None
                     | None => Some (key, dflt)
                     end) as -> by reflexivity.
        destruct (scan_section win32 sec post) as [c2 r2].
        destruct (find _ sec) as [[k [val0|]]|]; destruct (Py.eqb key (B "showtransfer"));
          cbn [fst snd get]; rewrite eqb_refl; reflexivity.
Qed.

Lemma configuration_precedence_witness :
  let sec := [(B "baud", Some (B "19200  # fast")); (B "keepalive", Some (B "soon"));
              (B "PWD", Some (B "abc"))] in
  let bad := [(B "comport", None); (B "baud", Some (B "19200"))] in
  let cli := [(B "port", VInt 10001); (B "baud", VNone); (B "keepalive", VNone);
              (B "pwd", VStr (B "secret"))] in
  let args := load_hierarchical_config false [sec] cli in
  attr args (B "pwd") = VStr (B "secret") /\
  attr args (B "baud") = VInt 19200 /\
  attr (load_hierarchical_config false [bad] cli) (B "baud") = VInt 9600.
Proof.
  cbv zeta.
  assert (NoDup (map fst [(B "port", VInt 10001); (B "baud", VNone);
                          (B "keepalive", VNone); (B "pwd", VStr (B "secret"))])) as Hn.
  { cbn. repeat constructor; rewrite ?list_elem_of_In; cbn; intuition discriminate. }
  split; [|split].
  - apply (configuration_precedence false
             [[(B "baud", Some (B "19200  # fast")); (B "keepalive", Some (B "soon"));
               (B "PWD", Some (B "abc"))]]
             _ (B "pwd") VNone
             (take 8 (DEFAULT_CONFIG false)) (drop 9 (DEFAULT_CONFIG false)) Hn eq_refl);
      [cbn; intuition discriminate|cbn; tauto|discriminate].
  - destruct (configuration_precedence false
                [[(B "baud", Some (B "19200  # fast")); (B "keepalive", Some (B "soon"));
                  (B "PWD", Some (B "abc"))]]
                _ (B "baud") (VInt 9600)
                (take 3 (DEFAULT_CONFIG false)) (drop 4 (DEFAULT_CONFIG false)) Hn eq_refl)
      as [_ H]; [cbn; intuition discriminate|].
    destruct H as (_ & H); [cbn; intros v H; intuition congruence|].
    destruct (H _ eq_refl) as [_ H']. rewrite H'; [reflexivity|].
    repeat constructor; discriminate.
  - destruct (configuration_precedence false
                [[(B "comport", None); (B "baud", Some (B "19200"))]]
                _ (B "baud") (VInt 9600)
                (take 3 (DEFAULT_CONFIG false)) (drop 4 (DEFAULT_CONFIG false)) Hn eq_refl)
      as [_ H]; [cbn; intuition discriminate|].
    destruct H as (_ & H); [cbn; intros v H; intuition congruence|].
    destruct (H _ eq_refl) as [H' _]. apply H'.
    do 2 apply Exists_cons_tl. apply Exists_cons_hd. reflexivity.
Defined.

(** Membership and the text primitives. *)
Lemma contains_char_false (c : ascii) (s : bytes) :
  Py.contains [c] s = false -> ~ In c s.
Proof.
  induction s as [|d s IH]; [easy|].
  cbn [Py.contains Py.starts_with]. rewrite andb_true_r.
  intros H. apply orb_false_iff in H as [H1 H2]. intros [->|Hin].
  - now rewrite Ascii.eqb_refl in H1.
  - now apply IH.
Qed.

Lemma In_lstrip (x : ascii) (s : bytes) : In x (Py.lstrip s) -> In x s.
Proof.
  induction s as [|c s IH]; [easy|]. cbn [Py.lstrip].
  destruct (Py.is_space c); [right; now apply IH|easy].
Qed.

Lemma In_strip (x : ascii) (s : bytes) : In x (Py.strip s) -> In x s.
Proof.
  unfold Py.strip. intros H. apply in_rev, In_lstrip in H.
  apply in_rev in H. now apply In_lstrip.
Qed.

Lemma split_hd_no_hash (s : bytes) : ~ In "#"%char (Py.split_hd (B "#") s).
Proof.
  unfold Py.split_hd, Py.split. intros H.
  pose proof (split_go_hash_first s [] "#"%char) as Hh.
  destruct (Py.split_go (B "#") s 0 []) as [|p ps]; [easy|].
  destruct (Hh H) as [[]|Hne]. now apply Hne.
Qed.

(** A text taken from the file holds no [#]. *)
Lemma convert_no_hash w key val0 s :
  convert w key val0 = Some (VStr s) -> ~ In "#"%char s.
Proof.
  unfold convert. destruct (in_words key int_keys).
  { destruct (int _); cbn; discriminate. }
  assert (~ In "#"%char
            (Py.strip (if Py.contains (B "#") val0
                       then Py.strip (Py.split_hd (B "#") val0) else val0))) as Hs.
  { intros H. apply In_strip in H. destruct (Py.contains (B "#") val0) eqn:E.
    - apply In_strip in H. now apply split_hd_no_hash in H.
    - now apply contains_char_false in E. }
  destruct (get (DEFAULT_CONFIG w) key) as [[| | |]|].
  - now intros [= <-].
  - destruct (in_words _ _); [discriminate|]. destruct (in_words _ _); discriminate.
  - destruct (int _); cbn; discriminate.
  - now intros [= <-].
  - now intros [= <-].
Qed.

(** X20.  Inline comments: in a loaded configuration, an option that
    was not given on the command line never holds a text with [#] in
    it.  Whatever follows a [#] in the file is dropped, so a password
    with [#] cannot come from the configuration file. *)
Theorem file_options_hold_no_hash
    (win32 : bool) (sections : list section) (cli : config) (key s : bytes) :
  (forall v, In (key, v) cli -> v = VNone) ->
  attr (load_hierarchical_config win32 sections cli) key = VStr s ->
  ~ In "#"%char s.
Proof.
  intros Habs. unfold attr, load_hierarchical_config.
  rewrite (get_override_absent cli _ key Habs).
  assert (forall t, get (DEFAULT_CONFIG win32) key = Some (VStr t) -> ~ In "#"%char t) as Hd.
  { intros t. unfold DEFAULT_CONFIG. cbn [get].
    repeat (destruct (Py.eqb _ key);
            [try discriminate; intros [= <-];
             try (destruct win32); cbn; intuition discriminate|]).
    discriminate. }
  destruct (get (DEFAULT_CONFIG win32) key) as [old|] eqn:E0.
  - destruct (get_scan_sections win32 sections _ key old E0) as (v & E & Hv).
    rewrite E. cbn. intros ->. destruct Hv as [<-|(val0 & Hc)].
    + now apply Hd.
    + now apply convert_no_hash in Hc.
  - assert (forall sections c, get c key = None ->
              get (scan_sections win32 c sections) key = None) as Hnone.
    { clear. intros sections. induction sections as [|sec secs IH]; intros c H; [exact H|].
      cbn [scan_sections].
      assert (get (fst (scan_section win32 sec c)) key = None) as H1.
      { clear IH. induction c as [|[k0 v0] c IHc]; [reflexivity|]. cbn [get] in H.
        cbn [scan_section]. destruct (Py.eqb k0 key) eqn:E0; [discriminate|].
        destruct (scan_key win32 sec (k0, v0)) as [e|] eqn:E.
        - apply scan_key_cases in E as [Ek _].
          destruct (scan_section win32 sec c) as [c1 r1]. cbn [fst] in *.
          destruct e as [k1 v1]. cbn [fst] in Ek. subst k1. cbn [get]. rewrite E0.
          now apply IHc.
        - cbn [fst get]. now rewrite E0. }
      destruct (scan_section win32 sec c) as [c1 [|]]; cbn [fst] in H1; [exact H1|].
      now apply IH. }
    rewrite (Hnone sections _ E0). discriminate.
Qed.

Lemma file_options_witness :
  let args := load_hierarchical_config false
                [[(B "pwd", Some (B "se#cret"));
                  (B "log", Some (B "server.log   # system log"))]]
                [(B "port", VInt 10001); (B "pwd", VNone)] in
  attr args (B "pwd") = VStr (B "se") /\ ~ In "#"%char (B "se") /\
  attr args (B "log") = VStr (B "server.log").
Proof.
  cbv zeta. split; [reflexivity|]. split; [|reflexivity].
  apply (file_options_hold_no_hash false
           [[(B "pwd", Some (B "se#cret"));
             (B "log", Some (B "server.log   # system log"))]]
           [(B "port", VInt 10001); (B "pwd", VNone)] (B "pwd")).
  - cbn. intros v H. intuition congruence.
  - reflexivity.
Defined.

End ServerConfiguration.

(** ** The bridge's configuration *)

Section BridgeConfiguration.
Import Conf BridgeConf.

Lemma text_truthy (v : value) : Py.truthy (text v) = truthy v.
Proof.
  destruct v as [|[|]|n|[|c s]]; try reflexivity.
  cbn [text truthy]. destruct (n =? 0) eqn:E; cbn [negb]; [reflexivity|].
  cbn [fmt Py.truthy]. unfold Py.str, B.
  destruct (NilZero.string_of_int (Z.to_int n)) eqn:Es; [|reflexivity].
  exfalso. revert Es. unfold NilZero.string_of_int.
  destruct (Z.to_int n) as [d|d]; [|discriminate].
  unfold NilZero.string_of_uint. destruct d; discriminate.
Qed.

(** X21.  A bridge that passes validation and runs in a security mode
    never talks to the server without its password: [validate_args]
    refuses [--secauto] or [--sec] without a password, so when the
    connection set-up goes through, what is sent is the identification,
    then the password frame, then the three queries; and when it fails
    (no port, no connection, no certificate and key, no handshake)
    nothing is sent. *)
Theorem validated_secure_bridge_sends_password
    (args : config) (e : Bridge.env) (n : Bridge.node) :
  validate_args (Bridge.win32 e) (Bridge.WIN32_AVAILABLE e) args = true ->
  Bridge.tls (session_args args) = true ->
  exists p, Bridge.pwd (session_args args) = Some p /\ p <> [] /\
    match Bridge.run_start (session_args args) e n with
    | (Some n', out) =>
        Bridge.is_sec n' = true /\
        out = [Bridge.SockSend Bridge.id_msg; Bridge.SockSend (Bridge.pwd_msg p);
               Bridge.SockSend GETVER_CMD; Bridge.SockSend GET_KA_TIMEOUT_CMD;
               Bridge.SockSend ASK_CMD]
    | (None, out) => out = []
    end.
Proof.
  intros Hv Ht.
  assert (truthy (attr args (B "secauto")) || truthy (attr args (B "sec")) = true) as Hs.
  { revert Ht. unfold Bridge.tls, session_args. cbn [Bridge.secauto Bridge.sec].
    now rewrite text_truthy. }
  assert (truthy (attr args (B "pwd")) = true) as Hp.
  { revert Hv. unfold validate_args. rewrite Hs. cbn [andb].
    destruct (_ && negb (truthy (attr args (B "ask")))); [discriminate|].
    destruct (truthy (attr args (B "ask")) && _); [discriminate|].
    now destruct (truthy (attr args (B "pwd"))). }
  pose proof (text_truthy (attr args (B "pwd"))) as Hp'. rewrite Hp in Hp'.
  destruct (text (attr args (B "pwd"))) as [[|c p]|] eqn:E; try discriminate Hp'.
  assert (Bridge.pwd (session_args args) = Some (c :: p)) as Epwd
    by (unfold session_args; cbn [Bridge.pwd]; exact E).
  exists (c :: p). split; [exact Epwd|]. split; [discriminate|].
  unfold Bridge.run_start.
  destruct (Bridge.run_connect (session_args args) e n) as [n1|] eqn:Ec; [|reflexivity].
  assert (n1 = Bridge.wrapped n) as ->.
  { revert Ec. unfold Bridge.run_connect. rewrite Ht.
    destruct (_ && _); [discriminate|].
    destruct (negb (Bridge.port_opens e)); [discriminate|].
    destruct (negb (Bridge.connects e)); [discriminate|].
    destruct (_ && _); [|discriminate]. now intros [= <-]. }
  unfold Bridge.run_setup. rewrite Epwd. split; reflexivity.
Qed.

Lemma validated_secure_bridge_witness :
  let args := [(B "host", VStr (B "10.0.0.1")); (B "port", VInt 10001);
               (B "comport", VStr (B "COM3")); (B "namedpipe", VNone);
               (B "baud", VInt 9600); (B "line", VStr (B "8N1N"));
               (B "keepalive", VInt 30); (B "secauto", VBool true); (B "sec", VNone);
               (B "pwd", VStr (B "secret")); (B "debug", VBool false);
               (B "ask", VBool false)] in
  validate_args false false args = true /\
  Bridge.tls (session_args args) = true /\
  snd (Bridge.run_start (session_args args) Ex.br_env Bridge.init) =
    [Bridge.SockSend Bridge.id_msg; Bridge.SockSend (Bridge.pwd_msg (B "secret"));
     Bridge.SockSend GETVER_CMD; Bridge.SockSend GET_KA_TIMEOUT_CMD;
     Bridge.SockSend ASK_CMD].
Proof.
  cbv zeta. split; [reflexivity|]. split; [reflexivity|].
  destruct (validated_secure_bridge_sends_password
              [(B "host", VStr (B "10.0.0.1")); (B "port", VInt 10001);
               (B "comport", VStr (B "COM3")); (B "namedpipe", VNone);
               (B "baud", VInt 9600); (B "line", VStr (B "8N1N"));
               (B "keepalive", VInt 30); (B "secauto", VBool true); (B "sec", VNone);
               (B "pwd", VStr (B "secret")); (B "debug", VBool false);
               (B "ask", VBool false)]
              Ex.br_env Bridge.init eq_refl eq_refl) as (p & Hp & _ & H).
  injection Hp as <-. exact (proj2 H).
Defined.

End BridgeConfiguration.

(** ** The client's keys and configuration file *)

Section ClientKeys.
Import ClientConf.

Lemma map_get_cases (m : list (nat * bytes)) (n : nat) (d : bytes) :
  map_get m n d = d \/ In (n, map_get m n d) m.
Proof.
  induction m as [|[k v] m IH]; [now left|]. cbn [map_get].
  destruct (k =? n)%nat eqn:E.
  - apply Nat.eqb_eq in E as ->. right. now left.
  - destruct IH as [IH|IH]; [now left|right; now right].
Qed.

(** The sequences of [key_map] are ANSI escape sequences of three to five
    bytes. *)
Lemma key_map_shape (n : nat) (k : bytes) :
  In (n, k) key_map ->
  hd_error k = Some ESC /\ (3 <= length k <= 5)%nat.
Proof.
  unfold key_map. cbn [In].
  intros H. repeat (destruct H as [[= <- <-]|H]; [cbn; split; [reflexivity|lia]|]).
  destruct H.
Qed.

(** No two key codes share a sequence. *)
Lemma key_map_injective (n n' : nat) (k : bytes) :
  In (n, k) key_map -> In (n', k) key_map -> n = n'.
Proof.
  intros H H'.
  assert (forallb (fun a => forallb (fun b => implb (Py.eqb (snd a) (snd b))
                                                   (fst a =? fst b)%nat) key_map)
            key_map = true) as H0 by reflexivity.
  rewrite List.forallb_forall in H0. specialize (H0 _ H).
  rewrite List.forallb_forall in H0. specialize (H0 _ H'). cbn [fst snd] in H0.
  assert (Py.eqb k k = true) as E by now apply eqb_eq.
  rewrite E in H0. now apply Nat.eqb_eq.
Qed.

(** X22.  Extended keys on Windows: a two-byte key whose code is in the
    table is replaced by its ANSI escape sequence, of three to five bytes
    starting with ESC, and any other key is sent as it is; a translated
    key is not translated again, and two keys with different codes are
    never translated to the same sequence.  What is sent is counted by
    its length. *)
Theorem extended_keys_are_told_apart (p c p' c' : ascii) (cl : Client.client) :
  let k := _convert_windows_key [p; c] in
  let k' := _convert_windows_key [p'; c'] in
  (k = [p; c] \/
   (hd_error k = Some ESC /\ (3 <= length k <= 5)%nat /\ _convert_windows_key k = k)) /\
  (k <> [p; c] -> k' <> [p'; c'] -> k = k' -> c = c') /\
  (exists key, send_key_win p c cl = (Client.add_sent cl (Z.of_nat (length key)),
                                      [Client.SockSend key]) /\
               (key = [p] \/ key = k)).
Proof.
  intros k k'.
  assert (forall q d, _convert_windows_key [q; d] = [q; d] \/
                      In (nat_of_ascii d, _convert_windows_key [q; d]) key_map) as Hc.
  { intros q d. unfold _convert_windows_key.
    destruct (_ || _); [apply map_get_cases|now left]. }
  split; [|split].
  - destruct (Hc p c) as [H|H]; [now left|right]. fold k in H.
    destruct (key_map_shape _ _ H) as [Hh Hl]. split; [exact Hh|]. split; [exact Hl|].
    unfold _convert_windows_key. destruct k as [|x [|y [|z k]]]; cbn in Hl; try lia.
    reflexivity.
  - intros Hk Hk' E. destruct (Hc p c) as [H|H]; [now destruct Hk|].
    destruct (Hc p' c') as [H'|H']; [now destruct Hk'|].
    fold k in H. fold k' in H'. rewrite <- E in H'.
    pose proof (key_map_injective _ _ _ H H') as En.
    rewrite <- (ascii_nat_embedding c), <- (ascii_nat_embedding c'). now rewrite En.
  - unfold send_key_win, Client._send_thread.
    destruct (_ || _); eexists; (split; [reflexivity|]); [now right|now left].
Qed.

Lemma extended_keys_witness :
  let k := _convert_windows_key ["224"%char; "H"%char] in
  let k' := _convert_windows_key ["000"%char; "P"%char] in
  k = ESC :: B "[A" /\ k' = ESC :: B "[B" /\
  (k <> ["224"%char; "H"%char] -> k' <> ["000"%char; "P"%char] -> k = k' ->
   "H"%char = "P"%char).
Proof.
  cbv zeta. split; [reflexivity|]. split; [reflexivity|].
  apply (extended_keys_are_told_apart "224" "H" "000" "P" Client.init).
Defined.

End ClientKeys.

Section ClientFile.
Import Conf ConfFacts ClientConf.

Lemma length_lstrip (s : bytes) : (length (Py.lstrip s) <= length s)%nat.
Proof.
  induction s as [|c s IH]; [reflexivity|]. cbn [Py.lstrip].
  destruct (Py.is_space c); cbn [length]; lia.
Qed.

Lemma lstrip_fixed (c : ascii) (s : bytes) :
  Py.lstrip (c :: s) = c :: s -> Py.is_space c = false.
Proof.
  cbn [Py.lstrip]. destruct (Py.is_space c); [|reflexivity].
  intros E. pose proof (length_lstrip s) as H. rewrite E in H. cbn [length] in H. lia.
Qed.

(** A text that [strip()] leaves alone begins and ends with a character
    that is no white space. *)
Lemma strip_fixed (w : bytes) :
  Py.strip w = w -> w <> [] ->
  exists c u d, (w = [d] /\ c = d /\ u = [] \/ w = c :: u ++ [d]) /\
                Py.is_space c = false /\ Py.is_space d = false.
Proof.
  intros E Hne. destruct w as [|c w]; [easy|].
  assert (Py.lstrip (c :: w) = c :: w) as El.
  { destruct (Py.is_space c) eqn:Hc; [|cbn [Py.lstrip]; now rewrite Hc].
    exfalso. pose proof (f_equal (@length ascii) E) as L. unfold Py.strip in L.
    rewrite length_rev in L.
    pose proof (length_lstrip (rev (Py.lstrip (c :: w)))) as L1.
    rewrite length_rev in L1. cbn [Py.lstrip] in L, L1. rewrite Hc in L, L1.
    pose proof (length_lstrip w). cbn [length] in L. lia. }
  pose proof (lstrip_fixed c w El) as Hc.
  unfold Py.strip in E. rewrite El in E.
  assert (Py.lstrip (rev (c :: w)) = rev (c :: w)) as Er
    by (rewrite <- E at 2; now rewrite rev_involutive).
  destruct (rev (c :: w)) as [|d r] eqn:Erev.
  { apply (f_equal (@length ascii)) in Erev. rewrite length_rev in Erev. discriminate. }
  pose proof (lstrip_fixed d r Er) as Hd.
  assert (c :: w = rev r ++ [d]) as Ew
    by (rewrite <- (rev_involutive (c :: w)), Erev; reflexivity).
  destruct (rev r) as [|x u] eqn:Eu.
  - cbn in Ew. injection Ew as -> ->. exists d, [], d. split; [now left|now split].
  - cbn in Ew. injection Ew as -> ->. exists x, u, d. split; [now right|now split].
Qed.

Lemma strip_clean (w pre : bytes) (p : ascii) :
  Py.strip w = w -> w <> [] -> Py.is_space p = false ->
  Py.strip (p :: pre ++ w) = p :: pre ++ w.
Proof.
  intros E Hne Hp. destruct (strip_fixed w E Hne) as (c & u & d & [(-> & _)| ->] & Hc & Hd).
  - now apply strip_tight.
  - replace (p :: pre ++ c :: u ++ [d]) with (p :: (pre ++ c :: u) ++ [d])
      by (now rewrite <- app_assoc).
    now apply strip_tight.
Qed.

Lemma strip_space_cons (c : ascii) (w : bytes) :
  Py.is_space c = true -> Py.strip (c :: w) = Py.strip w.
Proof. intros H. unfold Py.strip. cbn [Py.lstrip]. now rewrite H. Qed.

(** A line [pwd = w] assigns the converted value of [w] to [pwd]. *)
Lemma read_line_pwd (cfg : config) (w : bytes) :
  Py.strip w = w ->
  read_line cfg (B "pwd = " ++ w) =
    (fun x => set cfg (B "pwd") x) <$> parse_value (unquote w).
Proof.
  intros E. destruct w as [|c w]; [reflexivity|].
  unfold read_line.
  change (B "pwd = " ++ c :: w) with ("p"%char :: B "wd = " ++ c :: w).
  rewrite (strip_clean (c :: w) (B "wd = ") "p" E) by easy.
  change (Py.starts_with (B "#") ("p"%char :: B "wd = " ++ c :: w)) with false.
  change (split1 ("p"%char :: B "wd = " ++ c :: w)) with
    (Some (B "pwd ", " "%char :: c :: w)).
  cbv iota beta. rewrite (strip_space_cons " " (c :: w)) by reflexivity.
  rewrite E. reflexivity.
Qed.

Lemma read_lines_app (cfg : config) (l1 l2 : list bytes) :
  read_lines cfg (l1 ++ l2) = read_lines cfg l1 ≫= fun c => read_lines c l2.
Proof.
  revert cfg. induction l1 as [|l l1 IH]; intros cfg; [reflexivity|].
  cbn [app read_lines]. destruct (read_line cfg l) as [c|]; [apply IH|reflexivity].
Qed.

Lemma attr_set (cfg : config) (k : bytes) (v : value) : attr (set cfg k v) k = v.
Proof. unfold attr. now rewrite get_set, eqb_refl. Qed.

(** X23.  The password a client takes from its configuration file: when
    the last line of the file is [pwd = w], with [w] in ASCII and with
    no white space around it, and [--pwd] is not given, the
    connection set-up sends the converted value of [w], not its text: no
    password frame at all when the value counts as false ([false], [no],
    [off], [0], a number that is zero, an empty text), the word [True]
    for [true], [yes], [on] and [1], the decimal form of the number for
    other digits, and the text itself otherwise; the program ends when
    the conversion fails. *)
Theorem config_file_password_as_sent
    (pre : list bytes) (cfg : config) (w : bytes) (ka : value) :
  read_config_file pre = Some cfg -> Py.strip w = w ->
  forallb (fun c => (nat_of_ascii c <? 128)%nat) w = true ->
  let file := pre ++ [B "pwd = " ++ w] in
  match parse_value (unquote w) with
  | None => read_config_file file = None
  | Some v =>
      exists cfg', read_config_file file = Some cfg' /\
        pwd_arg None cfg' = v /\
        Client.run_setup (session_args (pwd_arg None cfg') ka) =
          [Client.SockSend Client.id_msg] ++
          match v with
          | VBool true => [Client.SockSend (B "__#PWD_True#__")]
          | VBool false | VNone => []
          | VInt n => if n =? 0 then [] else [Client.SockSend (Client.pwd_msg (Py.str n))]
          | VStr [] => []
          | VStr t => [Client.SockSend (Client.pwd_msg t)]
          end ++
          [Client.SockSend GETVER_CMD; Client.SockSend ASK_CMD]
  end.
Proof.
  intros Hpre Hw _ file. unfold read_config_file, file in *.
  rewrite read_lines_app, Hpre. cbn [mbind option_bind read_lines].
  rewrite (read_line_pwd cfg w Hw).
  destruct (parse_value (unquote w)) as [v|]; [|reflexivity].
  cbn [fmap option_fmap option_map mbind option_bind].
  eexists. split; [reflexivity|]. unfold pwd_arg. rewrite attr_set.
  split; [reflexivity|].
  unfold Client.run_setup, session_args. cbn [Client.pwd].
  pose proof (text_truthy v) as Ht.
  destruct v as [|[|]|n|[|c t]]; cbn [text truthy] in *; try reflexivity.
  destruct (n =? 0); cbn [negb] in *; [reflexivity|]. rewrite Ht. reflexivity.
Qed.

Lemma config_file_password_witness :
  let sent w := Client.run_setup
                  (session_args
                     (pwd_arg None
                        (default [] (read_config_file [B "host = 10.0.0.1"; B "pwd = " ++ w])))
                     (VInt 60)) in
  sent (B "0071") = [Client.SockSend Client.id_msg; Client.SockSend (B "__#PWD_71#__");
                     Client.SockSend GETVER_CMD; Client.SockSend ASK_CMD] /\
  sent (B "off") = [Client.SockSend Client.id_msg;
                    Client.SockSend GETVER_CMD; Client.SockSend ASK_CMD] /\
  sent (B "Yes") = [Client.SockSend Client.id_msg; Client.SockSend (B "__#PWD_True#__");
                    Client.SockSend GETVER_CMD; Client.SockSend ASK_CMD] /\
  sent (B "s3cret") = [Client.SockSend Client.id_msg; Client.SockSend (B "__#PWD_s3cret#__");
                       Client.SockSend GETVER_CMD; Client.SockSend ASK_CMD].
Proof.
  cbv zeta.
  pose proof (config_file_password_as_sent [B "host = 10.0.0.1"]
                [(B "host", VStr (B "10.0.0.1"))] (B "0071") (VInt 60) eq_refl eq_refl
                eq_refl) as H.
  cbv zeta in H.
  change (parse_value (unquote (B "0071"))) with (Some (VInt 71)) in H.
  destruct H as (cfg' & E & _ & H).
  split; [|repeat split; reflexivity].
  change ([B "host = 10.0.0.1"] ++ [B "pwd = " ++ B "0071"]) with
    [B "host = 10.0.0.1"; B "pwd = " ++ B "0071"] in E.
  rewrite E. exact H.
Defined.

End ClientFile.

(** ** The bridge's windows *)

Section BridgeWindows.
Import BridgeUi.

Lemma printable_not_esc (c : ascii) (s : bytes) : printable c = true -> csi (c :: s) = None.
Proof.
  intros H. unfold csi. destruct s as [|b s]; [reflexivity|].
  assert (Ascii.eqb c "027" = false) as ->; [|reflexivity].
  apply Ascii.eqb_neq. intros ->. discriminate H.
Qed.

Lemma re_sub_csi_printable (text : bytes) :
  Forall (fun c => printable c = true) text -> Py.re_sub csi text = text.
Proof.
  unfold Py.re_sub. induction 1 as [|c text Hc _ IH]; [reflexivity|].
  cbn [Py.sub_go]. now rewrite (printable_not_esc c text Hc), IH.
Qed.

Lemma replace_formatting_printable (text : bytes) :
  Forall (fun c => printable c = true) text -> replace_formatting text = text.
Proof.
  unfold replace_formatting. induction 1 as [|c text Hc _ IH]; [reflexivity|].
  cbn [map flat_map].
  assert (Ascii.eqb c "010" = false) as -> by (apply Ascii.eqb_neq; now intros ->).
  assert (Ascii.eqb c "013" = false) as -> by (apply Ascii.eqb_neq; now intros ->).
  cbn [app flat_map].
  assert (Ascii.eqb c "009" = false) as -> by (apply Ascii.eqb_neq; now intros ->).
  cbn [app]. now rewrite IH.
Qed.

Lemma keep_printable (text : bytes) :
  Forall (fun c => printable c = true) text ->
  flat_map (fun c => if printable c then [c] else []) text = text.
Proof.
  induction 1 as [|c text Hc _ IH]; [reflexivity|].
  cbn [flat_map]. now rewrite Hc, IH.
Qed.

Lemma kept_are_printable (text : bytes) :
  Forall (fun c => printable c = true)
    (flat_map (fun c => if printable c then [c] else []) text).
Proof.
  induction text as [|c text IH]; [constructor|]. cbn [flat_map].
  destruct (printable c) eqn:E; [now constructor|exact IH].
Qed.

(** X24.  Text sanitized for the windows holds no character with a code
    below 32, so no ESC, newline, carriage return or tab of a message can
    reach the terminal; text without such characters passes unchanged,
    and sanitizing twice is the same as sanitizing once. *)
Theorem sanitized_text_is_printable (text : bytes) :
  Forall (fun c => printable c = true) (_sanitize_for_tui text) /\
  (Forall (fun c => printable c = true) text -> _sanitize_for_tui text = text) /\
  _sanitize_for_tui (_sanitize_for_tui text) = _sanitize_for_tui text.
Proof.
  assert (forall t, Forall (fun c => printable c = true) t -> _sanitize_for_tui t = t) as Hid.
  { intros t H. unfold _sanitize_for_tui.
    now rewrite (re_sub_csi_printable t H), (replace_formatting_printable t H),
      (keep_printable t H). }
  assert (Forall (fun c => printable c = true) (_sanitize_for_tui text)) as Hp
    by apply kept_are_printable.
  split; [exact Hp|]. split; [apply Hid|now apply Hid].
Qed.

Lemma sanitized_text_witness :
  _sanitize_for_tui ("027"%char :: B "[31;1mlink" ++ "009"%char :: B "up" ++
                     ["013"%char; "010"%char; "007"%char] ++ B "ok")
    = B "link    up ok" /\
  _sanitize_for_tui (B "link up") = B "link up".
Proof.
  split; [reflexivity|].
  destruct (sanitized_text_is_printable (B "link up")) as (_ & H & _).
  apply H. repeat constructor.
Defined.

Lemma br_in_range_init a : in_range (init a).
Proof. split; [now left|]. exists 0, 0. cbn. repeat split; lia. Qed.

Lemma br_in_range_grow u u' :
  in_range u ->
  active_window u' = active_window u -> scroll_offsets u' = scroll_offsets u ->
  (length (log_buffer u) <= length (log_buffer u'))%nat ->
  (length (transfer_buffer u) <= length (transfer_buffer u'))%nat ->
  in_range u'.
Proof.
  intros (Ha & o0 & o1 & Es & B0 & B1) Ea Eo L T. split; [now rewrite Ea|].
  exists o0, o1. split; [congruence|]. lia.
Qed.

Lemma br_in_range_kb_handler a key u : in_range u -> in_range (_kb_handler a key u).
Proof.
  intros H. unfold _kb_handler. destruct (batch a || notui a); [exact H|].
  destruct key as [|c key]; [exact H|].
  destruct (Py.eqb (c :: key) ServerUi.key_tab && Py.truthy (showtransfer a)).
  { destruct H as (Ha & o0 & o1 & Es & B0 & B1). split.
    - cbn. destruct Ha as [-> | ->]; [now right|now left].
    - now exists o0, o1. }
  destruct (Py.eqb (c :: key) ServerUi.key_up_win || Py.eqb (c :: key) ServerUi.key_up).
  { destruct H as (Ha & o0 & o1 & Es & B0 & B1). split; [exact Ha|].
    unfold set_offset, offset. cbn [scroll_offsets log_buffer transfer_buffer].
    rewrite Es. destruct Ha as [-> | ->].
    - change (Z.to_nat 0) with 0%nat. cbn. eexists _, _. split; [reflexivity|]. lia.
    - change (Z.to_nat 1) with 1%nat. cbn. eexists _, _. split; [reflexivity|]. lia. }
  destruct (Py.eqb (c :: key) ServerUi.key_down_win || Py.eqb (c :: key) ServerUi.key_down);
    [|exact H].
  destruct H as (Ha & o0 & o1 & Es & B0 & B1). split; [exact Ha|].
  unfold set_offset, offset. cbn [scroll_offsets log_buffer transfer_buffer].
  rewrite Es. destruct Ha as [-> | ->].
  - change (Z.to_nat 0) with 0%nat. cbn. eexists _, _. split; [reflexivity|]. lia.
  - change (Z.to_nat 1) with 1%nat. cbn. eexists _, _. split; [reflexivity|]. lia.
Qed.

Lemma br_in_range_step a u e : in_range u -> in_range (step a u e).
Proof.
  intros H. destruct e as [key|l d|dir m]; cbn [step].
  - now apply br_in_range_kb_handler.
  - unfold log. destruct (_ && _); [exact H|].
    apply (br_in_range_grow u); auto. cbn. apply ServerUiFacts.length_push.
  - unfold log_transfer. destruct (negb _); [exact H|]. destruct (_ && _); [exact H|].
    apply (br_in_range_grow u); auto. cbn. apply ServerUiFacts.length_push.
Qed.

Lemma br_in_range_run a evs u : in_range u -> in_range (run a u evs).
Proof.
  unfold run. revert u. induction evs as [|e evs IH]; intros u H; [exact H|].
  cbn [fold_left]. apply IH. now apply br_in_range_step.
Qed.

(** The slice [draw_buffer] shows, for an offset inside the buffer. *)
Lemma display_slice (buffer : list bytes) (height off : Z) :
  0 <= off <= Z.of_nat (length buffer) -> 0 <= height ->
  let end_idx := Z.of_nat (length buffer) - off in
  let d := Py.slice buffer (Z.max 0 (end_idx - height)) end_idx in
  length d = Z.to_nat (Z.min height end_idx) /\
  forall i, (i < length d)%nat ->
    d !! i = buffer !! (Z.to_nat (Z.max 0 (end_idx - height)) + i)%nat.
Proof.
  intros Ho Hh end_idx d. unfold d, Py.slice, Py.clip.
  set (n := Z.of_nat (length buffer)) in *.
  destruct (Z.max 0 (end_idx - height) <? 0) eqn:E1; [apply Z.ltb_lt in E1; lia|].
  destruct (end_idx <? 0) eqn:E2; [apply Z.ltb_lt in E2; unfold end_idx in E2; lia|].
  assert (Z.min (Z.max 0 (end_idx - height)) n = Z.max 0 (end_idx - height)) as ->
    by (unfold end_idx; lia).
  assert (Z.min end_idx n = end_idx) as -> by (unfold end_idx; lia).
  split.
  - rewrite length_take, length_drop. unfold end_idx, n in *. lia.
  - intros i Hi. rewrite length_take, length_drop in Hi.
    rewrite lookup_take, lookup_drop. now rewrite decide_True by lia.
Qed.

(** X25.  The bridge's windows cannot be scrolled out of their buffers:
    after any keys, log lines and transfers the scroll offset of a window
    lies between 0 and one line short of its buffer's length, and
    [draw_buffer] then writes one row per line of the window whose bottom
    row shows the buffer line at the scroll position, cut to the width of
    the terminal, and carries the marker [>] exactly when the window is
    not scrolled. *)
Theorem bridge_windows_stay_in_view
    (a : Args) (evs : list event) (idx cols height : Z) :
  idx = 0 \/ idx = 1 ->
  let u := run a (init a) evs in
  let buffer := if idx =? 0 then log_buffer u else transfer_buffer u in
  let off := offset u idx in
  let rows := draw_buffer cols buffer height off in
  0 <= off <= Z.max 0 (Z.of_nat (length buffer) - 1) /\
  length rows = Z.to_nat height /\
  (buffer <> [] -> 1 <= height ->
   exists line,
     buffer !! Z.to_nat (Z.of_nat (length buffer) - off - 1) = Some line /\
     last rows =
       Some (Some (off =? 0, Py.slice line 0 (Z.max 0 (Z.max 1 (cols - 1) - 2))))).
Proof.
  intros Hidx u buffer off rows.
  pose proof (br_in_range_run a evs (init a) (br_in_range_init a))
    as (_ & o0 & o1 & Es & B0 & B1).
  fold u in Es, B0, B1. clearbody u.
  assert (0 <= off <= Z.max 0 (Z.of_nat (length buffer) - 1)) as Ho.
  { unfold off, offset, buffer. rewrite Es.
    destruct Hidx as [-> | ->]; [change (Z.to_nat 0) with 0%nat
                                |change (Z.to_nat 1) with 1%nat]; cbn; lia. }
  split; [exact Ho|].
  assert (length rows = Z.to_nat height) as Hr
    by (unfold rows, draw_buffer; now rewrite length_map, length_seq).
  split; [exact Hr|].
  intros Hne Hh.
  assert (0 < Z.of_nat (length buffer)) as Hn by (destruct buffer; [easy|cbn; lia]).
  destruct (display_slice buffer height off) as [Hl Hd]; [lia..|].
  cbv zeta in Hl, Hd.
  set (end_idx := Z.of_nat (length buffer) - off) in *.
  set (d := Py.slice buffer (Z.max 0 (end_idx - height)) end_idx) in *.
  assert (exists line, buffer !! Z.to_nat (end_idx - 1) = Some line) as [line El].
  { apply lookup_lt_is_Some. unfold end_idx. lia. }
  exists line. split; [exact El|].
  rewrite last_lookup, Hr. unfold rows, draw_buffer. fold end_idx. fold d.
  rewrite list_lookup_fmap.
  rewrite lookup_seq_lt by lia. cbn [fmap option_fmap option_map plus].
  assert (Z.of_nat (Init.Nat.pred (Z.to_nat height)) - (height - Z.of_nat (length d))
          = Z.of_nat (length d) - 1) as -> by lia.
  assert ((0 <=? Z.of_nat (length d) - 1) = true) as -> by (apply Z.leb_le; lia).
  rewrite Hd by lia.
  replace (Z.to_nat (Z.max 0 (end_idx - height)) + Z.to_nat (Z.of_nat (length d) - 1))%nat
    with (Z.to_nat (end_idx - 1)) by lia.
  rewrite El. now rewrite Z.eqb_refl.
Qed.

Lemma bridge_windows_witness :
  let a := {| debug := false; batch := false; notui := false; showtransfer := None;
              logbufferlines := 10; transferbufferlines := 10 |} in
  let evs := [Log (B "l1") false; Log (B "l2") false; Log (B "l3") false;
              Key ServerUi.key_up; Key ServerUi.key_up; Key ServerUi.key_up;
              Key ServerUi.key_up] in
  let u := run a (init a) evs in
  offset u 0 = 2 /\
  draw_buffer 80 (log_buffer u) 2 (offset u 0) = [None; Some (false, B "l1")] /\
  exists line,
    log_buffer u !! Z.to_nat (Z.of_nat (length (log_buffer u)) - offset u 0 - 1)
      = Some line /\
    last (draw_buffer 80 (log_buffer u) 2 (offset u 0)) =
      Some (Some (offset u 0 =? 0, Py.slice line 0 (Z.max 0 (Z.max 1 (80 - 1) - 2)))).
Proof.
  cbv zeta. split; [reflexivity|]. split; [reflexivity|].
  destruct (bridge_windows_stay_in_view
              {| debug := false; batch := false; notui := false; showtransfer := None;
                 logbufferlines := 10; transferbufferlines := 10 |}
              [Log (B "l1") false; Log (B "l2") false; Log (B "l3") false;
               Key ServerUi.key_up; Key ServerUi.key_up; Key ServerUi.key_up;
               Key ServerUi.key_up]
              0 80 2 (or_introl eq_refl))
    as (_ & _ & H).
  apply H; [discriminate|lia].
Defined.

End BridgeWindows.
